(** * GPU worker-thread coordination: command ring, wake protocol, backend lifecycle

    A shallow embedding of [src/core/gpu_thread.cpp].  Every C++ function
    that the properties below talk about is transcribed as a Rocq function
    with the same name.  The conventions are:

    - [u32] and [s32] values are integers in [Z]; every operation that can
      wrap in C++ has its wrap-around written out ([u32], [s32]).
    - The statics of namespace [GPUThread] that producer and consumer share
      are the fields of the record [State], under their C++ names.
    - [m_command_fifo_data] is kept at slot granularity: a finite map from
      byte offsets to the command record whose header starts there.  The
      C++ [reinterpret_cast<GPUThreadCommand*>(&m_command_fifo_data[p])] is
      a lookup at key [p]; a pointer to a command is its offset.
    - A function that re-reads a variable written by the other thread inside
      a loop takes the list of values those loads observe, one per load, so
      that a statement quantified over the list covers every interleaving.
      When the list runs out inside the loop the outcome is [Spins].
    - Atomic accesses, header writes, semaphore operations and dispatches
      are appended to the [trace] field in program order, with the
      [std::memory_order] written in the source.
    - [Assert] and [Panic] abort ([Panics]); a [DebugAssert] is compiled
      out, as in a release build, and what the code then does is modelled
      as written.
    - The device and the backend, and the statics of the performance
      counters, are the fields of [DeviceState] and [PerfState].  Calls into
      collaborators outside the sources are recorded in program order
      ([lifecycle], [calls]); what they answer is given by [Host] and
      [PresentHost]. *)

From Stdlib Require Import ZArith Lia List Bool String QArith.
From stdpp Require Import base option list gmap.

Local Open Scope Z_scope.

(** Closed comparisons of integers, by evaluation. *)
Ltac by_evaluation := repeat split; vm_compute; first [reflexivity | discriminate].

(** ** Machine integers *)

Definition u32 (x : Z) : Z := x mod 2 ^ 32.
Definition s32 (x : Z) : Z := (x + 2 ^ 31) mod 2 ^ 32 - 2 ^ 31.

(** Modelled from the spec: [Common::AlignUpPow2] is declared in
    common/align.h, which is not among the sources.  For the ring the
    specification (section 4.1) fixes what it returns: allocate reserves
    [⌈size/4⌉·4] bytes. *)
Definition AlignUpPow2 (value alignment : Z) : Z :=
  (value + (alignment - 1)) / alignment * alignment.

(** ** Constants of namespace GPUThread *)

Definition COMMAND_QUEUE_SIZE : Z := 4 * 1024 * 1024.
Definition THRESHOLD_TO_WAKE_GPU : Z := 256.
Definition THREAD_WAKE_COUNT_CPU_THREAD_IS_WAITING : Z := 0x40000000.
Definition THREAD_WAKE_COUNT_SLEEPING : Z := -1.

(** ** Commands *)

(** The four tags [RunGPULoop] handles itself, and every other tag, which
    goes to the backend ([default:] in the switch). *)
Inductive GPUBackendCommandType : Set :=
| Wraparound
| AsyncCall
| ChangeBackend
| UpdateVSync
| BackendCommand (tag : Z).

#[global] Instance GPUBackendCommandType_eq_dec : EqDecision GPUBackendCommandType.
Proof. solve_decision. Defined.

(** A slot: the [type] and [size] fields of [GPUThreadCommand] and the
    bytes that follow the header. *)
Record GPUThreadCommand : Set := mkCommand {
  cmd_type : GPUBackendCommandType;
  cmd_size : Z;
  cmd_payload : list Z
}.

#[global] Instance GPUThreadCommand_eq_dec : EqDecision GPUThreadCommand.
Proof. solve_decision. Defined.

(** ** Traces *)

Inductive memory_order : Set :=
| memory_order_relaxed
| memory_order_acquire
| memory_order_release
| memory_order_acq_rel
| memory_order_seq_cst.

Inductive Semaphore : Set := thread_wake_semaphore | thread_is_done_semaphore.

(** Where [RunGPULoop] sends a slot. *)
Inductive Handler : Set :=
| AsyncCallFunc
| ChangeGPUBackendOnThread
| UpdateVSyncOnThread
| BackendHandleCommand.

Inductive Event : Set :=
| LoadReadPtr (mo : memory_order) (v : Z)
| LoadWritePtr (mo : memory_order) (v : Z)
| StoreReadPtr (mo : memory_order) (v : Z)
| StoreWritePtr (mo : memory_order) (v : Z)
| FetchAddWritePtr (mo : memory_order) (n : Z)
| WriteHeader (off : Z) (ty : GPUBackendCommandType) (size : Z)
| LoadWakeCount (mo : memory_order) (v : Z)
| FetchAddWakeCount (mo : memory_order) (n : Z)
| CompareExchangeWakeCount (mo : memory_order) (expected desired : Z) (ok : bool)
| Post (s : Semaphore)
| Wait (s : Semaphore)
| ThreadFence (mo : memory_order)
| Dispatch (h : Handler) (off : Z) (cmd : GPUThreadCommand).

#[global] Instance memory_order_eq_dec : EqDecision memory_order.
Proof. solve_decision. Defined.
#[global] Instance Semaphore_eq_dec : EqDecision Semaphore.
Proof. solve_decision. Defined.
#[global] Instance Handler_eq_dec : EqDecision Handler.
Proof. solve_decision. Defined.
#[global] Instance Event_eq_dec : EqDecision Event.
Proof. solve_decision. Defined.

(** ** Shared state *)

Record State : Type := mkState {
  m_command_fifo_data : gmap Z GPUThreadCommand;
  m_command_fifo_read_ptr : Z;
  m_command_fifo_write_ptr : Z;
  s_thread_wake_count : Z;
  s_thread_wake_semaphore : Z;
  s_thread_is_done_semaphore : Z;
  s_requested_vsync : Z;
  s_requested_allow_present_throttle : bool;
  m_gpu_thread_joinable : bool;
  trace : list Event
}.

Definition set_fifo (f : gmap Z GPUThreadCommand) (st : State) : State :=
  mkState f (m_command_fifo_read_ptr st) (m_command_fifo_write_ptr st)
    (s_thread_wake_count st) (s_thread_wake_semaphore st) (s_thread_is_done_semaphore st)
    (s_requested_vsync st) (s_requested_allow_present_throttle st)
    (m_gpu_thread_joinable st) (trace st).

Definition set_read_ptr (v : Z) (st : State) : State :=
  mkState (m_command_fifo_data st) v (m_command_fifo_write_ptr st)
    (s_thread_wake_count st) (s_thread_wake_semaphore st) (s_thread_is_done_semaphore st)
    (s_requested_vsync st) (s_requested_allow_present_throttle st)
    (m_gpu_thread_joinable st) (trace st).

Definition set_write_ptr (v : Z) (st : State) : State :=
  mkState (m_command_fifo_data st) (m_command_fifo_read_ptr st) v
    (s_thread_wake_count st) (s_thread_wake_semaphore st) (s_thread_is_done_semaphore st)
    (s_requested_vsync st) (s_requested_allow_present_throttle st)
    (m_gpu_thread_joinable st) (trace st).

Definition set_wake_count (v : Z) (st : State) : State :=
  mkState (m_command_fifo_data st) (m_command_fifo_read_ptr st) (m_command_fifo_write_ptr st)
    v (s_thread_wake_semaphore st) (s_thread_is_done_semaphore st)
    (s_requested_vsync st) (s_requested_allow_present_throttle st)
    (m_gpu_thread_joinable st) (trace st).

Definition set_wake_semaphore (v : Z) (st : State) : State :=
  mkState (m_command_fifo_data st) (m_command_fifo_read_ptr st) (m_command_fifo_write_ptr st)
    (s_thread_wake_count st) v (s_thread_is_done_semaphore st)
    (s_requested_vsync st) (s_requested_allow_present_throttle st)
    (m_gpu_thread_joinable st) (trace st).

Definition set_is_done_semaphore (v : Z) (st : State) : State :=
  mkState (m_command_fifo_data st) (m_command_fifo_read_ptr st) (m_command_fifo_write_ptr st)
    (s_thread_wake_count st) (s_thread_wake_semaphore st) v
    (s_requested_vsync st) (s_requested_allow_present_throttle st)
    (m_gpu_thread_joinable st) (trace st).

Definition set_requested_vsync (mode : Z) (throttle : bool) (st : State) : State :=
  mkState (m_command_fifo_data st) (m_command_fifo_read_ptr st) (m_command_fifo_write_ptr st)
    (s_thread_wake_count st) (s_thread_wake_semaphore st) (s_thread_is_done_semaphore st)
    mode throttle (m_gpu_thread_joinable st) (trace st).

Definition emit (e : Event) (st : State) : State :=
  mkState (m_command_fifo_data st) (m_command_fifo_read_ptr st) (m_command_fifo_write_ptr st)
    (s_thread_wake_count st) (s_thread_wake_semaphore st) (s_thread_is_done_semaphore st)
    (s_requested_vsync st) (s_requested_allow_present_throttle st)
    (m_gpu_thread_joinable st) (trace st ++ [e]).

(** The state in which the namespace's statics are initialised, with the
    thread already started. *)
Definition initial_state : State :=
  mkState ∅ 0 0 0 0 0 0 false true [].

(** How a call ends: it returns, the process aborts ([Panic], a failed
    [Assert]), it is still inside a loop when the observations run out, or
    it reads ring bytes that no header was ever written to (or dereferences
    a null pointer).  [S] is the type of the state the call works on; every
    outcome carries the state reached. *)
Inductive Outcome (S A : Type) : Type :=
| Returns (a : A) (st : S)
| Panics (msg : string) (st : S)
| Spins (st : S)
| Undefined (st : S).
Arguments Returns {S A} a st.
Arguments Panics {S A} msg st.
Arguments Spins {S A} st.
Arguments Undefined {S A} st.

(** ** Atomic primitives on the shared words *)

Definition store_write_ptr (mo : memory_order) (v : Z) (st : State) : State :=
  emit (StoreWritePtr mo v) (set_write_ptr v st).

Definition store_read_ptr (mo : memory_order) (v : Z) (st : State) : State :=
  emit (StoreReadPtr mo v) (set_read_ptr v st).

Definition fetch_add_write_ptr (mo : memory_order) (n : Z) (st : State) : State :=
  emit (FetchAddWritePtr mo n) (set_write_ptr (u32 (m_command_fifo_write_ptr st + n)) st).

Definition post (s : Semaphore) (st : State) : State :=
  emit (Post s)
    match s with
    | thread_wake_semaphore => set_wake_semaphore (s_thread_wake_semaphore st + 1) st
    | thread_is_done_semaphore => set_is_done_semaphore (s_thread_is_done_semaphore st + 1) st
    end.

(** [Wait] takes one post; a negative count stands for a thread that is
    blocked until the matching post arrives. *)
Definition wait (s : Semaphore) (st : State) : State :=
  emit (Wait s)
    match s with
    | thread_wake_semaphore => set_wake_semaphore (s_thread_wake_semaphore st - 1) st
    | thread_is_done_semaphore => set_is_done_semaphore (s_thread_is_done_semaphore st - 1) st
    end.

(** [cmd->type = ty; cmd->size = size] at offset [off]; the bytes after the
    header keep whatever the slot held. *)
Definition write_header (off : Z) (ty : GPUBackendCommandType) (size : Z) (st : State) : State :=
  let old := from_option cmd_payload [] (m_command_fifo_data st !! off) in
  emit (WriteHeader off ty size)
    (set_fifo (<[off := mkCommand ty size old]> (m_command_fifo_data st)) st).

(** The caller filling the slot it was handed. *)
Definition fill_payload (off : Z) (bytes : list Z) (st : State) : State :=
  match m_command_fifo_data st !! off with
  | Some c => set_fifo (<[off := mkCommand (cmd_type c) (cmd_size c) bytes]> (m_command_fifo_data st)) st
  | None => st
  end.

(** ** Wake protocol *)

Definition GetThreadWakeCount (state : Z) : Z :=
  Z.land state (Z.lnot THREAD_WAKE_COUNT_CPU_THREAD_IS_WAITING).

Definition WakeGPUThread (st : State) : State :=
  let prior := s_thread_wake_count st in
  let st := emit (FetchAddWakeCount memory_order_release 2) (set_wake_count (s32 (prior + 2)) st) in
  if prior <? 0 then post thread_wake_semaphore st else st.

Definition IsStarted (st : State) : bool := m_gpu_thread_joinable st.

(** Instances of the types declared outside the sources, used by the
    concrete runs at the end of the file: two hardware renderers and the
    software one, their APIs, and a timer that counts nanoseconds. *)
Inductive ExampleRenderer : Set := ExampleVulkan | ExampleOpenGL | ExampleSoftware.

#[global] Instance ExampleRenderer_eq_dec : EqDecision ExampleRenderer.
Proof. solve_decision. Defined.

Inductive ExampleAPI : Set := ExampleNoAPI | ExampleVulkanAPI | ExampleOpenGLAPI.

#[global] Instance ExampleAPI_eq_dec : EqDecision ExampleAPI.
Proof. solve_decision. Defined.

Definition example_api (r : ExampleRenderer) : ExampleAPI :=
  match r with
  | ExampleVulkan => ExampleVulkanAPI
  | ExampleOpenGL | ExampleSoftware => ExampleOpenGLAPI
  end.

Definition nanoseconds_to_seconds (v : Z) : Q := Qmake v 1000000000.

(** Two render APIs are taken for the same when they are equal. *)
Definition example_same_api (a b : ExampleAPI) : bool := bool_decide (a = b).

(** Exact rational arithmetic stands in for single precision in the
    concrete runs; the usage is the accumulated time over ten times the
    elapsed time. *)
Definition example_gpu_usage (accumulated time : Q) : Q := accumulated / (time * 10).

(** ** The ring, the wake protocol and the producer-side facade *)

Section GPUThread.

Set Default Proof Using "Type".

(** Sizes and constants declared in headers that are not among the
    sources (gpu_types.h, common/threading.h). *)
Variable sizeof_GPUBackendCommandType : Z.
Variable sizeof_GPUBackendCommand : Z.
Variable sizeof_GPUThreadCommand : Z.
Variable SPIN_TIME_NS : Z.

(** *** AllocateCommand *)

(** The inner [while] of the [read_ptr > write_ptr] branch.  [reads] are
    the values successive acquire loads of [m_command_fifo_read_ptr]
    return. *)
Fixpoint AllocateCommand_wait (reads : list Z) (write_ptr size available_size : Z)
    (st : State) : Outcome State unit :=
  if available_size <? size + sizeof_GPUBackendCommandType then
    match reads with
    | [] => Spins st
    | read_ptr :: reads =>
        let st := WakeGPUThread st in
        let st := emit (LoadReadPtr memory_order_acquire read_ptr) st in
        let available_size :=
          if write_ptr <? read_ptr then u32 (read_ptr - write_ptr)
          else u32 (COMMAND_QUEUE_SIZE - write_ptr) in
        AllocateCommand_wait reads write_ptr size available_size st
    end
  else Returns tt st.

(** The [for (;;)] of [AllocateCommand], [size] already aligned.  Each
    iteration starts with one acquire load of the read pointer. *)
Fixpoint AllocateCommand_loop (reads : list Z) (command : GPUBackendCommandType)
    (size : Z) (st : State) : Outcome State Z :=
  match reads with
  | [] => Spins st
  | read_ptr :: reads =>
      let st := emit (LoadReadPtr memory_order_acquire read_ptr) st in
      let write_ptr := m_command_fifo_write_ptr st in
      let st := emit (LoadWritePtr memory_order_relaxed write_ptr) st in
      if write_ptr <? read_ptr then
        match AllocateCommand_wait reads write_ptr size (u32 (read_ptr - write_ptr)) st with
        | Returns _ st => Returns write_ptr (write_header write_ptr command size st)
        | Panics msg st => Panics msg st
        | Spins st => Spins st
        | Undefined st => Undefined st
        end
      else
        let available_size := u32 (COMMAND_QUEUE_SIZE - write_ptr) in
        if available_size <? size + sizeof_GPUBackendCommand then
          (* allocate a dummy command to wrap the buffer around *)
          let st := write_header write_ptr Wraparound available_size st in
          let st := store_write_ptr memory_order_release 0 st in
          AllocateCommand_loop reads command size st
        else Returns write_ptr (write_header write_ptr command size st)
  end.

Definition AllocateCommand (reads : list Z) (command : GPUBackendCommandType)
    (size : Z) (st : State) : Outcome State Z :=
  let size := u32 (AlignUpPow2 size 4) in
  AllocateCommand_loop reads command size st.

(** *** Publishing *)

Definition GetPendingCommandSize (st : State) : Z :=
  let read_ptr := m_command_fifo_read_ptr st in
  let write_ptr := m_command_fifo_write_ptr st in
  if read_ptr <=? write_ptr then u32 (write_ptr - read_ptr)
  else u32 (u32 (COMMAND_QUEUE_SIZE - read_ptr) + write_ptr).

(** [cmd->size] for the pointer [cmd]. *)
Definition size_at (cmd : Z) (st : State) : Z :=
  from_option cmd_size 0 (m_command_fifo_data st !! cmd).

Definition PushCommand (cmd : Z) (st : State) : State :=
  let st := fetch_add_write_ptr memory_order_release (size_at cmd st) st in
  if THRESHOLD_TO_WAKE_GPU <=? GetPendingCommandSize st then WakeGPUThread st else st.

Definition PushCommandAndWakeThread (cmd : Z) (st : State) : State :=
  let st := fetch_add_write_ptr memory_order_release (size_at cmd st) st in
  WakeGPUThread st.

(** *** SyncGPUThread *)

Inductive SpinExit : Type :=
| SpinSawSleeping (st : State)
| SpinTimeUp (st : State)
| SpinGoesOn (st : State).

(** The [do ... while (waited <= Threading::SPIN_TIME_NS)] loop.  [loads]
    are the values the acquire loads of [s_thread_wake_count] return.  The
    source never assigns to [waited] after its initialisation, and neither
    does this function. *)
Fixpoint SyncGPUThread_spin (waited : Z) (loads : list Z) (st : State) : SpinExit :=
  match loads with
  | [] => SpinGoesOn st
  | v :: loads =>
      let st := emit (LoadWakeCount memory_order_acquire v) st in
      if GetThreadWakeCount v <? 0 then SpinSawSleeping st
      else if waited <=? SPIN_TIME_NS then SyncGPUThread_spin waited loads st
      else SpinTimeUp st
  end.

Inductive SyncPath : Set := SawSleeping | WaitedOnDone.

(** The compare-exchange loop and the wait that follows it.  Each
    observation is the value a load returns and whether the
    [compare_exchange_weak] that follows succeeds. *)
Fixpoint SyncGPUThread_block (obs : list (Z * bool)) (st : State) : Outcome State SyncPath :=
  match obs with
  | [] => Spins st
  | (value, ok) :: obs =>
      let st := emit (LoadWakeCount memory_order_acquire value) st in
      if GetThreadWakeCount value <? 0 then Returns SawSleeping st
      else
        let desired := Z.lor value THREAD_WAKE_COUNT_CPU_THREAD_IS_WAITING in
        let st := emit (CompareExchangeWakeCount memory_order_acquire value desired ok) st in
        if ok then
          Returns WaitedOnDone (wait thread_is_done_semaphore (set_wake_count desired st))
        else SyncGPUThread_block obs st
  end.

Definition SyncGPUThread (spin : bool) (loads : list Z) (obs : list (Z * bool))
    (st : State) : Outcome State SyncPath :=
  if spin then
    match SyncGPUThread_spin 0 loads st with
    | SpinSawSleeping st => Returns SawSleeping st
    | SpinTimeUp st => SyncGPUThread_block obs st
    | SpinGoesOn st => Spins st
    end
  else SyncGPUThread_block obs st.

Definition PushCommandAndSync (cmd : Z) (spin : bool) (loads : list Z)
    (obs : list (Z * bool)) (st : State) : Outcome State SyncPath :=
  let st := fetch_add_write_ptr memory_order_release (size_at cmd st) st in
  let st := WakeGPUThread st in
  SyncGPUThread spin loads obs st.

(** *** SleepGPUThread *)

Fixpoint SleepGPUThread (allow_sleep : bool) (obs : list (Z * bool)) (st : State)
    : Outcome State bool :=
  match obs with
  | [] => Spins st
  | (old_state, ok) :: obs =>
      let st := emit (LoadWakeCount memory_order_relaxed old_state) st in
      let new_state :=
        if 0 <? GetThreadWakeCount old_state
        then Z.land old_state THREAD_WAKE_COUNT_CPU_THREAD_IS_WAITING
        else THREAD_WAKE_COUNT_SLEEPING in
      let st := emit (CompareExchangeWakeCount memory_order_acq_rel old_state new_state ok) st in
      if ok then
        let st := set_wake_count new_state st in
        if 0 <? GetThreadWakeCount old_state then Returns true st
        else
          let st :=
            if Z.land old_state THREAD_WAKE_COUNT_CPU_THREAD_IS_WAITING =? 0 then st
            else post thread_is_done_semaphore st in
          if allow_sleep then SleepGPUThread allow_sleep obs (wait thread_wake_semaphore st)
          else Returns false st
      else SleepGPUThread allow_sleep obs st
  end.

(** *** RunGPULoop: draining one batch *)

Definition handler_of (ty : GPUBackendCommandType) : Handler :=
  match ty with
  | AsyncCall => AsyncCallFunc
  | ChangeBackend => ChangeGPUBackendOnThread
  | UpdateVSync => UpdateVSyncOnThread
  | _ => BackendHandleCommand
  end.

(** The [while (read_ptr < write_ptr)] loop.  [write_loads] are the values
    that the acquire loads of [m_command_fifo_write_ptr] in the
    [Wraparound] case return. *)
Fixpoint RunGPULoop_drain (fuel : nat) (write_loads : list Z) (read_ptr write_ptr : Z)
    (st : State) : Outcome State Z :=
  if read_ptr <? write_ptr then
    match fuel with
    | O => Spins st
    | S fuel =>
        match m_command_fifo_data st !! read_ptr with
        | None => Undefined st
        | Some cmd =>
            let next := u32 (read_ptr + cmd_size cmd) in
            match cmd_type cmd with
            | Wraparound =>
                match write_loads with
                | [] => Spins st
                | write_ptr :: write_loads =>
                    let st := emit (LoadWritePtr memory_order_acquire write_ptr) st in
                    let read_ptr := 0 in
                    (* let the CPU thread know as early as possible that we're here *)
                    let st := store_read_ptr memory_order_release read_ptr st in
                    RunGPULoop_drain fuel write_loads read_ptr write_ptr st
                end
            | ty =>
                RunGPULoop_drain fuel write_loads next write_ptr
                  (emit (Dispatch (handler_of ty) read_ptr cmd) st)
            end
        end
    end
  else Returns read_ptr st.

Inductive LoopStatus : Set := NothingQueued | BatchDrained.

(** One iteration of the [for (;;)] of [RunGPULoop], up to and including
    the release store of the read pointer.  The branch taken when the ring
    is found empty (shutdown, [SleepGPUThread], idle present) leaves the
    ring alone and is summarised by [NothingQueued]. *)
Definition RunGPULoop_iteration (fuel : nat) (write_loads : list Z) (st : State)
    : Outcome State LoopStatus :=
  match write_loads with
  | [] => Spins st
  | write_ptr :: write_loads =>
      let st := emit (LoadWritePtr memory_order_acquire write_ptr) st in
      let read_ptr := m_command_fifo_read_ptr st in
      let st := emit (LoadReadPtr memory_order_relaxed read_ptr) st in
      if read_ptr =? write_ptr then Returns NothingQueued st
      else
        let write_ptr := if write_ptr <? read_ptr then COMMAND_QUEUE_SIZE else write_ptr in
        match RunGPULoop_drain fuel write_loads read_ptr write_ptr st with
        | Returns read_ptr st =>
            Returns BatchDrained (store_read_ptr memory_order_release read_ptr st)
        | Panics msg st => Panics msg st
        | Spins st => Spins st
        | Undefined st => Undefined st
        end
  end.

(** *** RunGPULoop: the loop *)

(** What one turn of the [for (;;)] observes of the other thread: the
    loads of the write pointer, the shutdown flag, the run-idle flag, and
    the exchanges of [SleepGPUThread]. *)
Record Turn : Set := mkTurn {
  turn_write_loads : list Z;
  turn_shutdown : bool;
  turn_run_idle : bool;
  turn_exchanges : list (Z * bool)
}.

(** The [for (;;)] of [RunGPULoop], as far as the ring and the wake word
    go.  The frame presented when [SleepGPUThread] returns [false] touches
    neither; the result counts those frames. *)
Fixpoint RunGPULoop_loop (fuel : nat) (turns : list Turn) (idle_frames : nat) (st : State)
    : Outcome State nat :=
  match turns with
  | [] => Spins st
  | turn :: turns =>
      match RunGPULoop_iteration fuel (turn_write_loads turn) st with
      | Returns NothingQueued st =>
          if turn_shutdown turn then Returns idle_frames st
          else
            match SleepGPUThread (negb (turn_run_idle turn)) (turn_exchanges turn) st with
            | Returns true st =>
                (* sleep => wake, need to reload pointers *)
                RunGPULoop_loop fuel turns idle_frames st
            | Returns false st => RunGPULoop_loop fuel turns (S idle_frames) st
            | Panics msg st => Panics msg st
            | Spins st => Spins st
            | Undefined st => Undefined st
            end
      | Returns BatchDrained st => RunGPULoop_loop fuel turns idle_frames st
      | Panics msg st => Panics msg st
      | Spins st => Spins st
      | Undefined st => Undefined st
      end
  end.

(** *** SetVSync *)

Definition SetVSync (reads : list Z) (mode : Z) (allow_present_throttle : bool)
    (st : State) : Outcome State unit :=
  if negb (IsStarted st) then Panics "Assert(IsStarted())" st
  else if (s_requested_vsync st =? mode)
          && eqb (s_requested_allow_present_throttle st) allow_present_throttle
  then Returns tt st
  else
    let st := set_requested_vsync mode allow_present_throttle st in
    let st := emit (ThreadFence memory_order_release) st in
    match AllocateCommand reads UpdateVSync sizeof_GPUThreadCommand st with
    | Returns cmd st => Returns tt (PushCommandAndWakeThread cmd st)
    | Panics msg st => Panics msg st
    | Spins st => Spins st
    | Undefined st => Undefined st
    end.

(** ** Device and backend lifecycle (consumer thread only) *)

Definition u64 (x : Z) : Z := x mod 2 ^ 64.

Definition Qlt_bool (x y : Q) : bool := negb (Qle_bool y x).

Definition MIN_TIME_BETWEEN_RESETS : Q := 15.

Inductive BackendKind : Set := HardwareBackend | SoftwareBackend.

(** A backend object: which constructor made it, and what the call to
    [Initialize] on it returned ([None]: never called). *)
Record GPUBackend : Set := mkBackend {
  backend_kind : BackendKind;
  backend_initialize : option bool
}.

(** What the collaborators answer during one call: whether the two backend
    constructors return an object, what [GPUBackend::Initialize] returns,
    and whether the device and the overlay come up in
    [CreateDeviceOnThread]. *)
Record Host : Set := mkHost {
  hardware_backend_created : bool;
  software_backend_created : bool;
  backend_initialize_result : bool;
  device_created : bool;
  imgui_initialized : bool
}.

(** Types and functions declared outside the sources: the renderer and
    render-API enumerations, [Settings::GetRenderAPIForRenderer] and
    [Common::Timer::ConvertValueToSeconds] (exact seconds as a rational). *)
Context {GPURenderer RenderAPI : Type} `{EqDecision GPURenderer}.
Variable GPURenderer_Software : GPURenderer.
Variable RenderAPI_None : RenderAPI.
Variable GetRenderAPIForRenderer : GPURenderer -> RenderAPI.
Variable ConvertValueToSeconds : Z -> Q.

Inductive LifecycleEvent : Type :=
| CreateHardwareBackend
| CreateSoftwareBackend
| BackendInitialize (clear_vram result : bool)
| DestroyBackend
| DestroyDevice
| CreateDevice (api : RenderAPI) (ok : bool)
| AddIconOSDMessage (key : string)
| AddIconOSDWarning (key : string).

Record DeviceState : Type := mkDeviceState {
  s_render_api : RenderAPI;
  g_gpu_device : option RenderAPI;
  s_gpu_backend : option GPUBackend;
  s_requested_renderer : option GPURenderer;
  g_gpu_settings_gpu_renderer : GPURenderer;
  s_last_gpu_reset_time : Z;
  lifecycle : list LifecycleEvent
}.

Definition set_device (api : RenderAPI) (dev : option RenderAPI) (ds : DeviceState) : DeviceState :=
  mkDeviceState api dev (s_gpu_backend ds) (s_requested_renderer ds)
    (g_gpu_settings_gpu_renderer ds) (s_last_gpu_reset_time ds) (lifecycle ds).

Definition set_backend (b : option GPUBackend) (ds : DeviceState) : DeviceState :=
  mkDeviceState (s_render_api ds) (g_gpu_device ds) b (s_requested_renderer ds)
    (g_gpu_settings_gpu_renderer ds) (s_last_gpu_reset_time ds) (lifecycle ds).

Definition set_requested_renderer (r : option GPURenderer) (ds : DeviceState) : DeviceState :=
  mkDeviceState (s_render_api ds) (g_gpu_device ds) (s_gpu_backend ds) r
    (g_gpu_settings_gpu_renderer ds) (s_last_gpu_reset_time ds) (lifecycle ds).

Definition set_last_gpu_reset_time (t : Z) (ds : DeviceState) : DeviceState :=
  mkDeviceState (s_render_api ds) (g_gpu_device ds) (s_gpu_backend ds) (s_requested_renderer ds)
    (g_gpu_settings_gpu_renderer ds) t (lifecycle ds).

Definition record (e : LifecycleEvent) (ds : DeviceState) : DeviceState :=
  mkDeviceState (s_render_api ds) (g_gpu_device ds) (s_gpu_backend ds) (s_requested_renderer ds)
    (g_gpu_settings_gpu_renderer ds) (s_last_gpu_reset_time ds) (lifecycle ds ++ [e]).

Definition DestroyGPUBackendOnThread (ds : DeviceState) : DeviceState :=
  match s_gpu_backend ds with
  | None => ds
  | Some _ => set_backend None (record DestroyBackend ds)
  end.

Definition DestroyDeviceOnThread (ds : DeviceState) : DeviceState :=
  match g_gpu_device ds with
  | None => ds
  | Some _ => set_device (s_render_api ds) None (record DestroyDevice ds)
  end.

(** Both failure paths of the source (device creation, overlay
    initialisation) leave no device and reset [s_render_api]; on success
    [s_render_api] is the API of the device just created. *)
Definition CreateDeviceOnThread (host : Host) (api : RenderAPI) (ds : DeviceState)
    : bool * DeviceState :=
  if device_created host && imgui_initialized host
  then (true, set_device api (Some api) (record (CreateDevice api true) ds))
  else (false, set_device RenderAPI_None None (record (CreateDevice api false) ds)).

Definition CreateGPUBackendOnThread (host : Host) (clear_vram : bool) (ds : DeviceState)
    : Outcome DeviceState unit :=
  match s_gpu_backend ds with
  | Some _ => Panics "Assert(!s_gpu_backend)" ds
  | None =>
      match s_requested_renderer ds with
      | None => Returns tt ds
      | Some renderer =>
          let is_hardware := negb (bool_decide (renderer = GPURenderer_Software)) in
          let ds := record (if is_hardware then CreateHardwareBackend else CreateSoftwareBackend) ds in
          let created :=
            if is_hardware then hardware_backend_created host else software_backend_created host in
          if negb created then Undefined ds
          else
            let kind := if is_hardware then HardwareBackend else SoftwareBackend in
            let result := backend_initialize_result host in
            let ds := record (BackendInitialize clear_vram result) ds in
            let ds := set_backend (Some (mkBackend kind (Some result))) ds in
            if result then Returns tt ds
            else if is_hardware then
              let ds := record (AddIconOSDMessage "GPUBackendCreationFailed") ds in
              let ds := set_requested_renderer (Some GPURenderer_Software) ds in
              let ds := record CreateSoftwareBackend ds in
              if software_backend_created host
              then Returns tt (set_backend (Some (mkBackend SoftwareBackend None)) ds)
              else Panics "Failed to initialize software backend." (set_backend None ds)
            else Returns tt ds
      end
  end.

Definition HandleGPUDeviceLost (host : Host) (current_time : Z) (ds : DeviceState)
    : Outcome DeviceState unit :=
  if negb (s_last_gpu_reset_time ds =? 0)
     && Qlt_bool (ConvertValueToSeconds (u64 (current_time - s_last_gpu_reset_time ds)))
          MIN_TIME_BETWEEN_RESETS
  then Panics "Host GPU lost too many times, device is probably completely wedged." ds
  else
    let ds := set_last_gpu_reset_time current_time ds in
    let ds := DestroyGPUBackendOnThread ds in
    let ds := DestroyDeviceOnThread ds in
    let api :=
      GetRenderAPIForRenderer
        (default (g_gpu_settings_gpu_renderer ds) (s_requested_renderer ds)) in
    match CreateDeviceOnThread host api ds with
    | (false, ds) => Panics "Failed to recreate GPU device after loss." ds
    | (true, ds) =>
        match CreateGPUBackendOnThread host false ds with
        | Returns _ ds => Returns tt (record (AddIconOSDWarning "HostGPUDeviceLost") ds)
        | Panics msg ds => Panics msg ds
        | Spins ds => Spins ds
        | Undefined st => Undefined st
        end
    end.

(** ** The asynchronous-call facade and the handlers of the consumer *)

(** [sizeof(GPUThreadAsyncCallCommand)] (gpu_types.h) and
    [GPUDevice::IsSameRenderAPI] (util/gpu_device.h) are declared outside
    the sources. *)
Variable sizeof_GPUThreadAsyncCallCommand : Z.
Variable IsSameRenderAPI : RenderAPI -> RenderAPI -> bool.

(** [RunOnThread].  The callable moved into the slot is the slot's
    payload, named by [func]; the placement [new] constructs the callable
    in the bytes after the header and leaves the [type] and [size] that
    [AllocateCommand] wrote. *)
Definition RunOnThread (reads : list Z) (func : Z) (st : State) : Outcome State unit :=
  match AllocateCommand reads AsyncCall sizeof_GPUThreadAsyncCallCommand st with
  | Returns cmd st => Returns tt (PushCommandAndWakeThread cmd (fill_payload cmd [func] st))
  | Panics msg st => Panics msg st
  | Spins st => Spins st
  | Undefined st => Undefined st
  end.


(** [ChangeGPUBackendOnThread].  [host_switch] answers the creation of the
    device for the expected API, [host_revert] the creation of the device
    for the previous API after a failed switch, and [host_backend] the
    creation of the backend.  [s_gpu_backend->ReadVRAM] dereferences the
    backend pointer without a check.  As in [DestroyDeviceOnThread], calls
    that only reach the log, the overlay or the host window leave the
    statics alone and are not recorded. *)
Definition GPUThread_ChangeGPUBackendOnThread (host_switch host_revert host_backend : Host)
    (ds : DeviceState) : Outcome DeviceState unit :=
  match s_requested_renderer ds with
  | None =>
      match s_gpu_backend ds with
      | Some _ => Returns tt (DestroyGPUBackendOnThread ds)
      | None => Returns tt ds
      end
  | Some renderer =>
      match s_gpu_backend ds with
      | None => Undefined ds
      | Some _ =>
          if bool_decide (renderer = GPURenderer_Software) then
            (* Just recreate the backend, software works with everything. *)
            CreateGPUBackendOnThread host_backend false (DestroyGPUBackendOnThread ds)
          else
            let ds := DestroyGPUBackendOnThread ds in
            let current_api := s_render_api ds in
            let expected_api := GetRenderAPIForRenderer renderer in
            if IsSameRenderAPI current_api expected_api then
              CreateGPUBackendOnThread host_backend false ds
            else
              let ds := DestroyDeviceOnThread ds in
              match CreateDeviceOnThread host_switch expected_api ds with
              | (true, ds) => CreateGPUBackendOnThread host_backend false ds
              | (false, ds) =>
                  let ds := record (AddIconOSDMessage "DeviceSwitchFailed") ds in
                  match CreateDeviceOnThread host_revert current_api ds with
                  | (true, ds) => CreateGPUBackendOnThread host_backend false ds
                  | (false, ds) =>
                      Panics "Failed to switch back to old API after creation failure" ds
                  end
              end
      end
  end.

(** The part of [RunGPULoop] before its [for (;;)].  The result is the
    value stored to [s_open_flag] before [m_sync_semaphore] is posted;
    [false] makes the thread return. *)
Definition RunGPULoop_startup (host_device host_backend : Host) (ds : DeviceState)
    : Outcome DeviceState bool :=
  let api :=
    GetRenderAPIForRenderer
      (default (g_gpu_settings_gpu_renderer ds) (s_requested_renderer ds)) in
  match CreateDeviceOnThread host_device api ds with
  | (false, ds) => Returns false ds
  | (true, ds) =>
      match CreateGPUBackendOnThread host_backend true ds with
      | Returns _ ds => Returns true ds
      | Panics msg ds => Panics msg ds
      | Spins ds => Spins ds
      | Undefined ds => Undefined ds
      end
  end.

(** The part of [RunGPULoop] after its loop. *)
Definition RunGPULoop_teardown (ds : DeviceState) : DeviceState :=
  DestroyDeviceOnThread (DestroyGPUBackendOnThread ds).

(** ** Presentation and performance counters (consumer thread only) *)

(** Single-precision arithmetic is kept abstract: the zero, the sum and
    the quotient of two values, the conversion of a frame count and of a
    number of seconds, and the usage figure
    [static_cast<float>(accumulated / (time * 10.0))]. *)
Context {float : Type}.
Variable float_zero : float.
Variable float_add : float -> float -> float.
Variable float_div : float -> float -> float.
Variable float_of_u32 : Z -> float.
Variable float_of_seconds : Q -> float.
Variable gpu_usage_of : float -> float -> float.

(** [GPUDevice::PresentResult] (util/gpu_device.h).  The source names
    three of its values; any other is [PresentResult_other]. *)
Inductive PresentResult : Set :=
| PresentResult_OK
| PresentResult_SkipPresent
| PresentResult_DeviceLost
| PresentResult_other (code : Z).

#[global] Instance PresentResult_eq_dec : EqDecision PresentResult.
Proof. solve_decision. Defined.

(** Calls into the backend, the device, the overlay and the timer, in
    program order. *)
Inductive Call : Set :=
| FlushRender
| UpdateStatistics (frames : Z)
| AcquireFence
| FullscreenUI_Render
| RenderTextOverlays
| RenderOSDMessages
| RenderSoftwareCursors
| RenderOverlayWindows
| RenderDebugWindows
| PresentDisplay
| BeginPresent
| RenderImGui
| EndPresent (explicit_present : bool) (present_time : Z)
| GetAndResetAccumulatedGPUTime
| SleepUntil (present_time : Z)
| SubmitPresent
| ImGui_EndFrame
| ImGuiManager_NewFrame
| RestoreDeviceContext
| SetGPUTimingEnabled (enabled : bool)
| Backend_UpdateSettings.

#[global] Instance Call_eq_dec : EqDecision Call.
Proof. solve_decision. Defined.

Record PerfState : Type := mkPerfState {
  s_last_performance_counter_update_time : Z;
  s_presents_since_last_update : Z;
  s_accumulated_gpu_time : float;
  s_average_gpu_time : float;
  s_gpu_usage : float;
  s_performance_counters_updated : bool
}.

(** The statics [PresentFrame] works on. *)
Record Presenter : Type := mkPresenter {
  device_state : DeviceState;
  perf : PerfState;
  calls : list Call
}.

(** What the device, the system, the settings and the timer answer during
    one call of [PresentFrame]; [recovery] and [device_lost_time] are the
    answers to [HandleGPUDeviceLost]. *)
Record PresentHost : Type := mkPresentHost {
  should_skip_presenting_frame : bool;
  features_explicit_present : bool;
  system_is_running : bool;
  present_result : PresentResult;
  is_gpu_timing_enabled : bool;
  accumulated_gpu_time : float;
  display_show_gpu_stats : bool;
  current_time : Z;
  device_lost_time : Z;
  recovery : Host
}.

Definition set_device_state (ds : DeviceState) (p : Presenter) : Presenter :=
  mkPresenter ds (perf p) (calls p).

Definition set_perf (s : PerfState) (p : Presenter) : Presenter :=
  mkPresenter (device_state p) s (calls p).

Definition call (c : Call) (p : Presenter) : Presenter :=
  mkPresenter (device_state p) (perf p) (calls p ++ [c]).

Definition has_backend (p : Presenter) : bool :=
  match s_gpu_backend (device_state p) with Some _ => true | None => false end.

Definition has_device (p : Presenter) : bool :=
  match g_gpu_device (device_state p) with Some _ => true | None => false end.

(** A call through [g_gpu_device], which the source never checks. *)
Definition device_call (c : Call) (p : Presenter) : Outcome Presenter unit :=
  if has_device p then Returns tt (call c p) else Undefined p.

(** A query through [g_gpu_device]. *)
Definition device_query {A : Type} (answer : A) (p : Presenter) : Outcome Presenter A :=
  if has_device p then Returns answer p else Undefined p.

Definition bind {S A B : Type} (o : Outcome S A) (k : A -> S -> Outcome S B) : Outcome S B :=
  match o with
  | Returns a st => k a st
  | Panics msg st => Panics msg st
  | Spins st => Spins st
  | Undefined st => Undefined st
  end.

Definition SetPerformanceCounterUpdatePending (s : PerfState) : PerfState :=
  mkPerfState (s_last_performance_counter_update_time s) (s_presents_since_last_update s)
    (s_accumulated_gpu_time s) (s_average_gpu_time s) (s_gpu_usage s) false.

Definition UpdatePerformanceCountersOnThread (h : PresentHost) (p : Presenter)
    : Outcome Presenter unit :=
  let s := perf p in
  let frames := s_presents_since_last_update s in
  let time :=
    float_of_seconds
      (ConvertValueToSeconds
         (u64 (current_time h - s_last_performance_counter_update_time s))) in
  let s :=
    mkPerfState (current_time h) 0 (s_accumulated_gpu_time s) (s_average_gpu_time s)
      (s_gpu_usage s) (s_performance_counters_updated s) in
  bind (device_query (is_gpu_timing_enabled h) (set_perf s p)) (fun timing p =>
    let p :=
      if timing then
        let s := perf p in
        set_perf
          (mkPerfState (s_last_performance_counter_update_time s)
             (s_presents_since_last_update s)
             float_zero
             (float_div (s_accumulated_gpu_time s) (float_of_u32 (Z.max frames 1)))
             (gpu_usage_of (s_accumulated_gpu_time s) time)
             (s_performance_counters_updated s)) p
      else p in
    Returns tt (if display_show_gpu_stats h then call (UpdateStatistics frames) p else p)).

(** [Internal::PresentFrame].  [calls] records the calls that
    [PresentFrame] and [UpdatePerformanceCountersOnThread] make themselves;
    what [HandleGPUDeviceLost] does is in the lifecycle of [device_state].
    When [HandleGPUDeviceLost] returns it has gone through the success path
    of [CreateDeviceOnThread], which also clears [s_accumulated_gpu_time]
    and [s_presents_since_last_update].  The calls that follow a successful
    [g_gpu_device->RenderImGui()] go through the same pointer. *)
Definition PresentFrame (h : PresentHost) (allow_skip_present : bool) (present_time : Z)
    (p : Presenter) : Outcome Presenter unit :=
  let p := if has_backend p then call FlushRender p else p in
  let s := perf p in
  let was_updated := s_performance_counters_updated s in
  let p :=
    set_perf
      (mkPerfState (s_last_performance_counter_update_time s)
         (u32 (s_presents_since_last_update s + 1))
         (s_accumulated_gpu_time s) (s_average_gpu_time s) (s_gpu_usage s) true) p in
  bind (if was_updated then Returns tt p else UpdatePerformanceCountersOnThread h p)
  (fun _ p =>
  bind (if allow_skip_present then device_query (should_skip_presenting_frame h) p
        else Returns false p)
  (fun skip_present p =>
  bind (if present_time =? 0 then Returns false p
        else device_query (features_explicit_present h) p)
  (fun explicit_present p =>
  let p := call AcquireFence p in
  let p :=
    if skip_present then p
    else
      let p := call RenderOSDMessages (call RenderTextOverlays (call FullscreenUI_Render p)) in
      if system_is_running h then call RenderSoftwareCursors p else p in
  let p := call RenderDebugWindows (call RenderOverlayWindows p) in
  bind (if skip_present then Returns PresentResult_SkipPresent p
        else if has_backend p then Returns (present_result h) (call PresentDisplay p)
        else bind (device_call BeginPresent p) (fun _ p => Returns (present_result h) p))
  (fun pres p =>
  bind
    match pres with
    | PresentResult_OK =>
        bind (device_call RenderImGui p) (fun _ p =>
        let p := call (EndPresent explicit_present (if explicit_present then present_time else 0)) p in
        let p :=
          if is_gpu_timing_enabled h then
            let s := perf p in
            set_perf
              (mkPerfState (s_last_performance_counter_update_time s)
                 (s_presents_since_last_update s)
                 (float_add (s_accumulated_gpu_time s) (accumulated_gpu_time h))
                 (s_average_gpu_time s) (s_gpu_usage s) (s_performance_counters_updated s))
              (call GetAndResetAccumulatedGPUTime p)
          else p in
        Returns tt
          (if explicit_present then call SubmitPresent (call (SleepUntil present_time) p)
           else p))
    | PresentResult_DeviceLost =>
        match HandleGPUDeviceLost (recovery h) (device_lost_time h) (device_state p) with
        | Returns _ ds =>
            let s := perf p in
            Returns tt
              (call ImGui_EndFrame
                 (set_perf
                    (mkPerfState (s_last_performance_counter_update_time s) 0
                       float_zero (s_average_gpu_time s) (s_gpu_usage s)
                       (s_performance_counters_updated s))
                    (set_device_state ds p)))
        | Panics msg ds => Panics msg (set_device_state ds p)
        | Spins ds => Spins (set_device_state ds p)
        | Undefined ds => Undefined (set_device_state ds p)
        end
    | _ => Returns tt (call ImGui_EndFrame p)
    end
  (fun _ p =>
  let p := call ImGuiManager_NewFrame p in
  Returns tt (if has_backend p then call RestoreDeviceContext p else p)))))).

(** [UpdateSettingsOnThread].  [usage] and [stats] are
    [display_show_gpu_usage] and [display_show_gpu_stats] of
    [g_gpu_settings], [old_usage] and [old_stats] those of [old_settings],
    and [now] is the value of the timer. *)
Definition UpdateSettingsOnThread (now : Z) (usage stats old_usage old_stats : bool)
    (p : Presenter) : Outcome Presenter unit :=
  let p :=
    if negb (eqb usage old_usage) || negb (eqb stats old_stats) then
      let s := perf p in
      set_perf
        (mkPerfState now 0 (s_accumulated_gpu_time s) (s_average_gpu_time s)
           (s_gpu_usage s) false) p
    else p in
  bind (if negb (eqb usage old_usage) then
          let s := perf p in
          device_call (SetGPUTimingEnabled usage)
            (set_perf
               (mkPerfState (s_last_performance_counter_update_time s)
                  (s_presents_since_last_update s) float_zero float_zero float_zero
                  (s_performance_counters_updated s)) p)
        else Returns tt p)
  (fun _ p => Returns tt (if has_backend p then call Backend_UpdateSettings p else p)).

(** * Vocabulary of the properties *)

(** The loads of the spin phase, as trace events. *)
Definition observe_wake_counts (loads : list Z) (st : State) : State :=
  fold_left (fun st v => emit (LoadWakeCount memory_order_acquire v) st) loads st.

(** The two loads that open an iteration of the allocation loop. *)
Definition observe_pointers (read_ptr : Z) (st : State) : State :=
  emit (LoadWritePtr memory_order_relaxed (m_command_fifo_write_ptr st))
    (emit (LoadReadPtr memory_order_acquire read_ptr) st).

(** The state after the wrap-around of one iteration: the dummy header of
    [available_size] bytes at the old write pointer, then the release
    store of 0. *)
Definition wrap_around (read_ptr : Z) (st : State) : State :=
  let write_ptr := m_command_fifo_write_ptr st in
  store_write_ptr memory_order_release 0
    (write_header write_ptr Wraparound (COMMAND_QUEUE_SIZE - write_ptr)
       (observe_pointers read_ptr st)).

(** Commands laid out back to back from [off], as [AllocateCommand] and
    the publishing [fetch_add] place them. *)
Fixpoint placed (f : gmap Z GPUThreadCommand) (off : Z) (cmds : list GPUThreadCommand) : Prop :=
  match cmds with
  | [] => True
  | c :: cmds => f !! off = Some c /\ placed f (off + cmd_size c) cmds
  end.

Fixpoint total_size (cmds : list GPUThreadCommand) : Z :=
  match cmds with
  | [] => 0
  | c :: cmds => cmd_size c + total_size cmds
  end.

(** A published command: not the wrap-around filler, and not empty. *)
Definition is_command (c : GPUThreadCommand) : Prop :=
  cmd_type c <> Wraparound /\ 0 < cmd_size c.

(** The dispatches of commands placed from [off], in order. *)
Fixpoint dispatches (off : Z) (cmds : list GPUThreadCommand) : list Event :=
  match cmds with
  | [] => []
  | c :: cmds => Dispatch (handler_of (cmd_type c)) off c :: dispatches (off + cmd_size c) cmds
  end.

(** One lap of the ring inside a batch: the commands up to a [Wraparound]
    slot, that slot, and the write pointer the consumer then re-reads. *)
Record Lap : Set := mkLap {
  lap_commands : list GPUThreadCommand;
  lap_wraparound : GPUThreadCommand;
  lap_write_ptr : Z
}.

Fixpoint batch_placed (f : gmap Z GPUThreadCommand) (read_ptr write_ptr : Z)
    (laps : list Lap) (tail : list GPUThreadCommand) : Prop :=
  match laps with
  | [] => placed f read_ptr tail /\ read_ptr + total_size tail = write_ptr
  | lap :: laps =>
      placed f read_ptr (lap_commands lap ++ [lap_wraparound lap])
      /\ cmd_type (lap_wraparound lap) = Wraparound
      /\ read_ptr + total_size (lap_commands lap) < write_ptr
      /\ 0 <= lap_write_ptr lap <= COMMAND_QUEUE_SIZE
      /\ batch_placed f 0 (lap_write_ptr lap) laps tail
  end.

Fixpoint batch_events (read_ptr : Z) (laps : list Lap) (tail : list GPUThreadCommand)
    : list Event :=
  match laps with
  | [] => dispatches read_ptr tail
  | lap :: laps =>
      dispatches read_ptr (lap_commands lap)
        ++ LoadWritePtr memory_order_acquire (lap_write_ptr lap)
        :: StoreReadPtr memory_order_release 0
        :: batch_events 0 laps tail
  end.

Definition batch_commands (laps : list Lap) (tail : list GPUThreadCommand)
    : list GPUThreadCommand :=
  concat (map lap_commands laps) ++ tail.

Definition batch_end (write_ptr : Z) (laps : list Lap) : Z :=
  List.last (map lap_write_ptr laps) write_ptr.

(** The consumer's own effects, replayed on a state. *)
Definition apply_event (st : State) (e : Event) : State :=
  match e with
  | StoreReadPtr mo v => store_read_ptr mo v st
  | e => emit e st
  end.

Definition replay (es : list Event) (st : State) : State := fold_left apply_event es st.

(** The number of slots of a batch. *)
Fixpoint batch_slots (laps : list Lap) (tail : list GPUThreadCommand) : nat :=
  match laps with
  | [] => length tail
  | lap :: laps => S (length (lap_commands lap) + batch_slots laps tail)
  end.

(** What the drain loop may add to the trace, given the ring contents
    [f]: a dispatch of the record found at an offset, which is never a
    [Wraparound] slot and goes to the handler of its tag; the acquire
    re-read of the write pointer; the release store of 0 to the read
    pointer. *)
Definition drain_event_ok (f : gmap Z GPUThreadCommand) (e : Event) : Prop :=
  match e with
  | Dispatch h off c =>
      f !! off = Some c /\ cmd_type c <> Wraparound /\ h = handler_of (cmd_type c)
  | LoadWritePtr mo _ => mo = memory_order_acquire
  | StoreReadPtr mo v => mo = memory_order_release /\ v = 0
  | _ => False
  end.

Definition dispatched_commands (es : list Event) : list GPUThreadCommand :=
  omap (fun e => match e with Dispatch _ _ c => Some c | _ => None end) es.

(** A configuration pairs the shared state with the slot the producer has
    been handed and has not published yet. *)
Definition Config : Type := State * option Z.

(** Steps of a run.  The producer asks for a slot for a request that fits
    the ring ([step_allocate], with the consumer standing still during the
    call), fills it, and publishes it; the consumer runs one iteration of
    its loop ([step_consume], with the producer standing still during the
    batch).  Every run made of these steps is a run of the two threads. *)
Inductive step : Config -> Config -> Prop :=
| step_allocate st n command size cmd st' :
    0 < size -> size + sizeof_GPUBackendCommand <= COMMAND_QUEUE_SIZE ->
    AllocateCommand (repeat (m_command_fifo_read_ptr st) n) command size st = Returns cmd st' ->
    step (st, None) (st', Some cmd)
| step_fill st cmd bytes :
    step (st, Some cmd) (fill_payload cmd bytes st, Some cmd)
| step_push st cmd :
    step (st, Some cmd) (PushCommand cmd st, None)
| step_push_and_wake st cmd :
    step (st, Some cmd) (PushCommandAndWakeThread cmd st, None)
| step_consume st slot fuel n status st' :
    RunGPULoop_iteration fuel (repeat (m_command_fifo_write_ptr st) n) st = Returns status st' ->
    step (st, slot) (st', slot).

Definition reachable (c : Config) : Prop := rtc step (initial_state, None) c.

(** The sizes published so far, and the commands dispatched so far. *)
Definition published_sizes (es : list Event) : list Z :=
  omap (fun e => match e with FetchAddWritePtr _ n => Some n | _ => None end) es.

(** The queue is empty when every published command has been dispatched. *)
Definition queue_empty (st : State) : Prop :=
  length (dispatched_commands (trace st)) = length (published_sizes (trace st)).

(** A successful exchange of [SleepGPUThread] that finds no pending work
    moves the wake word to the sleeping sentinel; if it also finds the
    CPU_WAITING bit set it posts the done semaphore. *)
Definition goes_to_sleep (o : Z * bool) : bool :=
  snd o && (GetThreadWakeCount (fst o) <=? 0).

Definition releases_cpu (o : Z * bool) : bool :=
  goes_to_sleep o && negb (Z.land (fst o) THREAD_WAKE_COUNT_CPU_THREAD_IS_WAITING =? 0).


(** Successive calls of [RunOnThread], each of which finds the read
    pointer at [read_ptr]. *)
Fixpoint RunOnThread_each (read_ptr : Z) (funcs : list Z) (st : State) : Outcome State unit :=
  match funcs with
  | [] => Returns tt st
  | func :: funcs =>
      match RunOnThread [read_ptr] func st with
      | Returns _ st => RunOnThread_each read_ptr funcs st
      | Panics msg st => Panics msg st
      | Spins st => Spins st
      | Undefined st => Undefined st
      end
  end.

(** The slots those calls fill. *)
Definition async_calls (size : Z) (funcs : list Z) : list GPUThreadCommand :=
  map (fun func => mkCommand AsyncCall size [func]) funcs.

(** The state a call ends in, however it ends. *)
Definition outcome_state {S A : Type} (o : Outcome S A) : S :=
  match o with
  | Returns _ st | Panics _ st | Spins st | Undefined st => st
  end.

Definition is_device_event (e : LifecycleEvent) : bool :=
  match e with
  | DestroyDevice | CreateDevice _ _ => true
  | _ => false
  end.

(** A backend needs its device: scanning a lifecycle with [alive] telling
    whether a backend exists, no device is destroyed or created while one
    does.  Constructing a backend makes one exist, [DestroyBackend] ends
    it. *)
Fixpoint backend_inside_device (alive : bool) (es : list LifecycleEvent) : bool :=
  match es with
  | [] => true
  | e :: es =>
      match e with
      | CreateHardwareBackend | CreateSoftwareBackend => backend_inside_device true es
      | DestroyBackend => backend_inside_device false es
      | DestroyDevice | CreateDevice _ _ => negb alive && backend_inside_device alive es
      | _ => backend_inside_device alive es
      end
  end.

(** The calls that close the overlay's frame. *)
Definition closes_frame (c : Call) : bool :=
  match c with
  | EndPresent _ _ | ImGui_EndFrame => true
  | _ => false
  end.

Definition is_UpdateStatistics (c : Call) : bool :=
  match c with
  | UpdateStatistics _ => true
  | _ => false
  end.

(** The calls made before the overlay's next frame is opened. *)
Fixpoint before_new_frame (cs : list Call) : list Call :=
  match cs with
  | [] => []
  | ImGuiManager_NewFrame :: _ => []
  | c :: cs => c :: before_new_frame cs
  end.

(** Frames presented one after the other; each comes with the answers of
    its collaborators and the two arguments of [PresentFrame]. *)
Fixpoint PresentFrame_each (frames : list (PresentHost * bool * Z)) (p : Presenter)
    : Outcome Presenter unit :=
  match frames with
  | [] => Returns tt p
  | (h, allow_skip_present, present_time) :: frames =>
      bind (PresentFrame h allow_skip_present present_time p)
        (fun _ p => PresentFrame_each frames p)
  end.

(** A frame during which the device is not reported lost. *)
Definition device_stays (frame : PresentHost * bool * Z) : Prop :=
  let '(h, allow_skip_present, _) := frame in
  allow_skip_present && should_skip_presenting_frame h = true
  \/ present_result h <> PresentResult_DeviceLost.

(** A turn of the idle-present mode that finds the ring empty at [p] and
    the wake word at [word]. *)
Definition idle_turn (p word : Z) : Turn := mkTurn [p] false true [(word, true)].

(** * Properties *)

(** ** Arithmetic of the machine words *)

Lemma u32_small x : 0 <= x < 2 ^ 32 -> u32 x = x.
Proof. intros H. unfold u32. apply Z.mod_small. exact H. Qed.

Lemma s32_small x : - 2 ^ 31 <= x < 2 ^ 31 -> s32 x = x.
Proof. intros H. unfold s32. rewrite Z.mod_small; lia. Qed.

Lemma COMMAND_QUEUE_SIZE_eq : COMMAND_QUEUE_SIZE = 4194304.
Proof. reflexivity. Qed.

Lemma AlignUpPow2_4_bounds size :
  size <= AlignUpPow2 size 4 < size + 4 /\ AlignUpPow2 size 4 mod 4 = 0.
Proof.
  unfold AlignUpPow2. split.
  - pose proof (Z.div_mod (size + (4 - 1)) 4 ltac:(lia)) as E.
    pose proof (Z.mod_pos_bound (size + (4 - 1)) 4 ltac:(lia)). lia.
  - apply Z.mod_mul. lia.
Qed.

Lemma AlignUpPow2_4_aligned size : size mod 4 = 0 -> AlignUpPow2 size 4 = size.
Proof.
  intros H. pose proof (AlignUpPow2_4_bounds size) as [B M].
  pose proof (Z.div_mod size 4 ltac:(lia)) as E1.
  pose proof (Z.div_mod (AlignUpPow2 size 4) 4 ltac:(lia)) as E2.
  lia.
Qed.

(** ** WakeGPUThread *)

Lemma land_pow2 w n : 0 <= n -> Z.land w (2 ^ n) = Z.b2z (Z.testbit w n) * 2 ^ n.
Proof.
  intros Hn. apply Z.bits_inj'. intros m Hm.
  rewrite Z.land_spec, Z.pow2_bits_eqb, Z.mul_pow2_bits by lia.
  destruct (Z.eqb_spec n m) as [->|Hne].
  - rewrite Z.sub_diag, Z.b2z_bit0. apply andb_true_r.
  - rewrite andb_false_r. symmetry.
    destruct (Z.testbit w n); simpl Z.b2z.
    + destruct (Z.lt_ge_cases m n).
      * apply Z.testbit_neg_r. lia.
      * apply (Z.pow2_bits_false 0). lia.
    + apply Z.bits_0.
Qed.

Lemma GetThreadWakeCount_sub state :
  GetThreadWakeCount state
    = state - Z.land state THREAD_WAKE_COUNT_CPU_THREAD_IS_WAITING.
Proof. unfold GetThreadWakeCount. symmetry. apply Z.sub_land_same_l. Qed.

Lemma waiting_flag_bit state :
  Z.land state THREAD_WAKE_COUNT_CPU_THREAD_IS_WAITING
    = Z.b2z (Z.testbit state 30) * 2 ^ 30.
Proof. change THREAD_WAKE_COUNT_CPU_THREAD_IS_WAITING with (2 ^ 30). apply land_pow2. lia. Qed.

(** Adding 2 to a running state (non-negative, count below [0x3FFFFFFE])
    leaves bit 30 alone and raises the count by 2. *)
Lemma wake_keeps_waiting_flag w :
  0 <= w -> GetThreadWakeCount w < 0x3FFFFFFE ->
  Z.land (w + 2) THREAD_WAKE_COUNT_CPU_THREAD_IS_WAITING
    = Z.land w THREAD_WAKE_COUNT_CPU_THREAD_IS_WAITING
  /\ GetThreadWakeCount (w + 2) = GetThreadWakeCount w + 2.
Proof.
  intros Hw Hc.
  rewrite GetThreadWakeCount_sub in Hc. rewrite !GetThreadWakeCount_sub.
  rewrite !waiting_flag_bit in *.
  destruct (Z.testbit_spec w 30 ltac:(lia)) as (l & h & Hl & E).
  change (2 ^ 30) with 1073741824 in *.
  assert (Hb : 0 <= Z.b2z (Z.testbit w 30) <= 1) by (destruct (Z.testbit w 30); simpl; lia).
  assert (h = 0) by lia. subst h.
  assert (Z.testbit (w + 2) 30 = Z.testbit w 30) as ->.
  { apply (Z.testbit_unique _ 30 _ (l + 2) 0).
    - change (2 ^ 30) with 1073741824. lia.
    - change (2 ^ 30) with 1073741824. lia. }
  lia.
Qed.

Lemma WakeGPUThread_count st :
  s_thread_wake_count (WakeGPUThread st) = s32 (s_thread_wake_count st + 2).
Proof. unfold WakeGPUThread. destruct (_ <? 0); reflexivity. Qed.

Lemma WakeGPUThread_semaphore st :
  s_thread_wake_semaphore (WakeGPUThread st)
    = s_thread_wake_semaphore st + (if s_thread_wake_count st <? 0 then 1 else 0).
Proof. unfold WakeGPUThread. destruct (_ <? 0); simpl; lia. Qed.

Lemma WakeGPUThread_trace st :
  trace (WakeGPUThread st)
    = trace st ++ FetchAddWakeCount memory_order_release 2
        :: (if s_thread_wake_count st <? 0 then [Post thread_wake_semaphore] else []).
Proof.
  unfold WakeGPUThread. destruct (_ <? 0); simpl.
  - rewrite <- app_assoc. reflexivity.
  - reflexivity.
Qed.

(** [WakeGPUThread] touches the wake word, the wake semaphore and the
    trace, nothing else. *)
Lemma WakeGPUThread_frame st :
  m_command_fifo_data (WakeGPUThread st) = m_command_fifo_data st
  /\ m_command_fifo_read_ptr (WakeGPUThread st) = m_command_fifo_read_ptr st
  /\ m_command_fifo_write_ptr (WakeGPUThread st) = m_command_fifo_write_ptr st
  /\ s_thread_is_done_semaphore (WakeGPUThread st) = s_thread_is_done_semaphore st
  /\ s_requested_vsync (WakeGPUThread st) = s_requested_vsync st
  /\ s_requested_allow_present_throttle (WakeGPUThread st)
       = s_requested_allow_present_throttle st.
Proof. unfold WakeGPUThread. destruct (_ <? 0); simpl; auto 10. Qed.

(** C4, as amended.  [WakeGPUThread] is one [fetch_add(2, release)] on the
    wake word: the new value is the prior value plus 2 in 32-bit
    two's-complement arithmetic (exactly the prior value plus 2 unless that
    overflows), and the wake semaphore is posted once if the prior value was
    negative and not at all otherwise.  When the prior value is a running
    state (non-negative) whose pending-work count is below [0x3FFFFFFE],
    the CPU_WAITING bit is the same before and after and the count grows by
    2. *)
Theorem WakeGPUThread_spec st :
  let w := s_thread_wake_count st in
  let st' := WakeGPUThread st in
  s_thread_wake_count st' = s32 (w + 2)
  /\ (- 2 ^ 31 <= w < 2 ^ 31 - 2 -> s_thread_wake_count st' = w + 2)
  /\ (w < 0 ->
        s_thread_wake_semaphore st' = s_thread_wake_semaphore st + 1
        /\ trace st' = trace st ++ [FetchAddWakeCount memory_order_release 2;
                                    Post thread_wake_semaphore])
  /\ (0 <= w ->
        s_thread_wake_semaphore st' = s_thread_wake_semaphore st
        /\ trace st' = trace st ++ [FetchAddWakeCount memory_order_release 2])
  /\ (0 <= w -> GetThreadWakeCount w < 0x3FFFFFFE ->
        Z.land (s_thread_wake_count st') THREAD_WAKE_COUNT_CPU_THREAD_IS_WAITING
          = Z.land w THREAD_WAKE_COUNT_CPU_THREAD_IS_WAITING
        /\ GetThreadWakeCount (s_thread_wake_count st') = GetThreadWakeCount w + 2).
Proof.
  intros w st'. subst st'.
  rewrite WakeGPUThread_count, WakeGPUThread_semaphore, WakeGPUThread_trace. fold w.
  split; [reflexivity|].
  split; [intros H; apply s32_small; lia|].
  split; [intros H; destruct (Z.ltb_spec w 0); [split; [lia|reflexivity]|lia]|].
  split; [intros H; destruct (Z.ltb_spec w 0); [lia|split; [lia|reflexivity]]|].
  intros H0 Hc.
  assert (w < 2 ^ 30 + 2 ^ 30 - 2) as Hlt.
  { rewrite GetThreadWakeCount_sub, waiting_flag_bit in Hc.
    destruct (Z.testbit w 30); simpl Z.b2z in Hc; change (2 ^ 30) with 1073741824 in *; lia. }
  rewrite s32_small.
  - apply wake_keeps_waiting_flag; assumption.
  - change (2 ^ 30) with 1073741824 in Hlt. change (2 ^ 31) with 2147483648. lia.
Qed.

(** ** GetPendingCommandSize and PushCommand *)

Lemma GetPendingCommandSize_cases st :
  let read_ptr := m_command_fifo_read_ptr st in
  let write_ptr := m_command_fifo_write_ptr st in
  0 <= read_ptr <= COMMAND_QUEUE_SIZE -> 0 <= write_ptr <= COMMAND_QUEUE_SIZE ->
  GetPendingCommandSize st
    = if read_ptr <=? write_ptr then write_ptr - read_ptr
      else COMMAND_QUEUE_SIZE - read_ptr + write_ptr.
Proof.
  intros read_ptr write_ptr Hr Hw. unfold GetPendingCommandSize.
  fold read_ptr write_ptr. rewrite COMMAND_QUEUE_SIZE_eq in *.
  destruct (Z.leb_spec read_ptr write_ptr).
  - apply u32_small. lia.
  - rewrite (u32_small (4194304 - read_ptr)) by lia. apply u32_small. lia.
Qed.

(** Inside the ring the pending size is the distance from read to write
    modulo the capacity. *)
Lemma GetPendingCommandSize_mod st :
  0 <= m_command_fifo_read_ptr st < COMMAND_QUEUE_SIZE ->
  0 <= m_command_fifo_write_ptr st < COMMAND_QUEUE_SIZE ->
  GetPendingCommandSize st
    = (m_command_fifo_write_ptr st - m_command_fifo_read_ptr st) mod COMMAND_QUEUE_SIZE.
Proof.
  intros Hr Hw. rewrite GetPendingCommandSize_cases by lia.
  destruct (Z.leb_spec (m_command_fifo_read_ptr st) (m_command_fifo_write_ptr st)).
  - symmetry. apply Z.mod_small. lia.
  - apply Z.mod_unique with (q := -1); lia.
Qed.

(** C10.  [PushCommand] publishes with one [fetch_add(cmd->size, release)]
    on the write pointer, which therefore advances by the command's size,
    and then calls [WakeGPUThread] exactly when [GetPendingCommandSize],
    evaluated after the publish, is at least [THRESHOLD_TO_WAKE_GPU = 256];
    the pending size is [write - read] when the write pointer is not behind
    the read pointer and [COMMAND_QUEUE_SIZE - read + write] otherwise. *)
Theorem PushCommand_spec cmd st :
  let size := size_at cmd st in
  let write_ptr := m_command_fifo_write_ptr st in
  let read_ptr := m_command_fifo_read_ptr st in
  let published := fetch_add_write_ptr memory_order_release size st in
  0 <= read_ptr <= COMMAND_QUEUE_SIZE ->
  0 <= write_ptr -> 0 <= size -> write_ptr + size <= COMMAND_QUEUE_SIZE ->
  THRESHOLD_TO_WAKE_GPU = 256
  /\ m_command_fifo_write_ptr (PushCommand cmd st) = write_ptr + size
  /\ (exists rest,
        trace (PushCommand cmd st)
          = trace st ++ FetchAddWritePtr memory_order_release size :: rest)
  /\ GetPendingCommandSize published
       = (if read_ptr <=? write_ptr + size then write_ptr + size - read_ptr
          else COMMAND_QUEUE_SIZE - read_ptr + (write_ptr + size))
  /\ (THRESHOLD_TO_WAKE_GPU <= GetPendingCommandSize published ->
        PushCommand cmd st = WakeGPUThread published)
  /\ (GetPendingCommandSize published < THRESHOLD_TO_WAKE_GPU ->
        PushCommand cmd st = published).
Proof.
  intros size write_ptr read_ptr published Hr Hw Hs Hle.
  assert (Hpub : m_command_fifo_write_ptr published = write_ptr + size).
  { subst published. simpl. fold write_ptr. apply u32_small.
    rewrite COMMAND_QUEUE_SIZE_eq in Hle. lia. }
  assert (Hrd : m_command_fifo_read_ptr published = read_ptr) by reflexivity.
  assert (Hcases : PushCommand cmd st
                   = if THRESHOLD_TO_WAKE_GPU <=? GetPendingCommandSize published
                     then WakeGPUThread published else published) by reflexivity.
  split; [reflexivity|].
  split.
  { rewrite Hcases. destruct (_ <=? _); [|exact Hpub].
    destruct (WakeGPUThread_frame published) as (_ & _ & -> & _). exact Hpub. }
  split.
  { rewrite Hcases. destruct (_ <=? _).
    - rewrite WakeGPUThread_trace. subst published. simpl. rewrite <- app_assoc.
      eexists. reflexivity.
    - exists []. reflexivity. }
  split.
  { rewrite GetPendingCommandSize_cases by (rewrite ?Hpub, ?Hrd; lia).
    rewrite Hpub, Hrd. reflexivity. }
  split; intros Hp; rewrite Hcases.
  - destruct (Z.leb_spec THRESHOLD_TO_WAKE_GPU (GetPendingCommandSize published)); [reflexivity|lia].
  - destruct (Z.leb_spec THRESHOLD_TO_WAKE_GPU (GetPendingCommandSize published)); [lia|reflexivity].
Qed.

(** ** SetVSync *)

(** C9.  When [mode] and [allow_present_throttle] are the values already
    requested, [SetVSync] returns with the very state it was called in: no
    header is written, neither ring pointer moves, the wake word and the
    semaphores are untouched, the requested fields keep their values and
    the trace gains no event.  (If the thread is not started the leading
    [Assert] aborts, also without touching the state.) *)
Theorem SetVSync_same_request_is_noop reads mode allow_present_throttle st :
  s_requested_vsync st = mode ->
  s_requested_allow_present_throttle st = allow_present_throttle ->
  (IsStarted st = true ->
     SetVSync reads mode allow_present_throttle st = Returns tt st)
  /\ (IsStarted st = false ->
        SetVSync reads mode allow_present_throttle st = Panics "Assert(IsStarted())" st).
Proof.
  intros Hm Ht. unfold SetVSync. split; intros ->; simpl; [|reflexivity].
  rewrite Hm, Ht, Z.eqb_refl, eqb_reflx. reflexivity.
Qed.

(** ** SyncGPUThread *)

Lemma observe_wake_counts_frame loads st :
  s_thread_wake_count (observe_wake_counts loads st) = s_thread_wake_count st
  /\ s_thread_is_done_semaphore (observe_wake_counts loads st) = s_thread_is_done_semaphore st
  /\ trace (observe_wake_counts loads st)
       = trace st ++ map (LoadWakeCount memory_order_acquire) loads.
Proof.
  revert st. induction loads as [|v loads IH]; intros st; simpl.
  - rewrite app_nil_r. auto.
  - destruct (IH (emit (LoadWakeCount memory_order_acquire v) st)) as (-> & -> & ->).
    simpl. rewrite <- app_assoc. auto.
Qed.

(** What the spin phase can do: see a sleeping consumer after some prefix
    of the loads, or consume every load and go on.  [waited] stays 0, so
    the exit [SpinTimeUp] is never taken. *)
Lemma SyncGPUThread_spin_cases loads st :
  0 <= SPIN_TIME_NS ->
  (exists seen v rest,
      loads = seen ++ v :: rest
      /\ Forall (fun u => 0 <= GetThreadWakeCount u) seen
      /\ GetThreadWakeCount v < 0
      /\ SyncGPUThread_spin 0 loads st = SpinSawSleeping (observe_wake_counts (seen ++ [v]) st))
  \/ (Forall (fun u => 0 <= GetThreadWakeCount u) loads
      /\ SyncGPUThread_spin 0 loads st = SpinGoesOn (observe_wake_counts loads st)).
Proof.
  intros Hspin. revert st. induction loads as [|v loads IH]; intros st.
  - right. split; [constructor|reflexivity].
  - simpl. destruct (Z.ltb_spec (GetThreadWakeCount v) 0) as [Hneg|Hpos].
    + left. exists [], v, loads. repeat split; [constructor|assumption].
    + destruct (Z.leb_spec 0 SPIN_TIME_NS) as [_|]; [|lia].
      destruct (IH (emit (LoadWakeCount memory_order_acquire v) st))
        as [(seen & u & rest & -> & Hseen & Hu & ->)|[Hall ->]].
      * left. exists (v :: seen), u, rest. repeat split; auto.
      * right. split; [constructor; assumption|reflexivity].
Qed.

(** C6, at the failing input.  [waited] is initialised to 0 and never
    assigned again, so the loop condition [waited <= SPIN_TIME_NS] is true
    on every iteration: the spin phase never times out, whatever is
    observed, and as long as every load shows a consumer that is not
    sleeping it is still spinning, however many loads that is. *)
Theorem SyncGPUThread_spin_is_unbounded loads st :
  0 <= SPIN_TIME_NS ->
  (forall st', SyncGPUThread_spin 0 loads st <> SpinTimeUp st')
  /\ (Forall (fun v => 0 <= GetThreadWakeCount v) loads ->
        SyncGPUThread_spin 0 loads st = SpinGoesOn (observe_wake_counts loads st)).
Proof.
  intros Hspin.
  destruct (SyncGPUThread_spin_cases loads st Hspin)
    as [(seen & v & rest & -> & Hseen & Hv & E)|[Hall E]]; rewrite E.
  - split; [discriminate|]. intros Hall.
    apply Forall_app in Hall as [_ Hall]. inversion Hall; subst. lia.
  - split; [discriminate|reflexivity].
Qed.

(** C5, at the failing input.  With [spin = true] the call never reaches
    the compare-exchange: either some load shows a sleeping consumer and
    the call returns, or it is still in the spin loop.  In both cases the
    wake word keeps its value (CPU_WAITING is not set), nothing waits on
    the done semaphore, and the trace gains loads only. *)
Theorem SyncGPUThread_spin_never_blocks loads obs st :
  0 <= SPIN_TIME_NS ->
  exists seen st',
    (SyncGPUThread true loads obs st = Returns SawSleeping st'
     \/ (SyncGPUThread true loads obs st = Spins st'
         /\ Forall (fun v => 0 <= GetThreadWakeCount v) loads))
    /\ s_thread_wake_count st' = s_thread_wake_count st
    /\ s_thread_is_done_semaphore st' = s_thread_is_done_semaphore st
    /\ trace st' = trace st ++ map (LoadWakeCount memory_order_acquire) seen.
Proof.
  intros Hspin. unfold SyncGPUThread.
  destruct (SyncGPUThread_spin_cases loads st Hspin)
    as [(seen & v & rest & -> & Hseen & Hv & ->)|[Hall ->]].
  - exists (seen ++ [v]), (observe_wake_counts (seen ++ [v]) st).
    destruct (observe_wake_counts_frame (seen ++ [v]) st) as (? & ? & ?). auto.
  - exists loads, (observe_wake_counts loads st).
    destruct (observe_wake_counts_frame loads st) as (? & ? & ?). auto.
Qed.

(** Without the spin phase the first observation decides: a sleeping
    consumer makes the call return at once; otherwise a successful
    compare-exchange sets CPU_WAITING and the call waits on the done
    semaphore. *)
Lemma SyncGPUThread_without_spin loads value ok obs st :
  (GetThreadWakeCount value < 0 ->
     SyncGPUThread false loads ((value, ok) :: obs) st
       = Returns SawSleeping (emit (LoadWakeCount memory_order_acquire value) st))
  /\ (0 <= GetThreadWakeCount value -> ok = true ->
        exists st',
          SyncGPUThread false loads ((value, ok) :: obs) st = Returns WaitedOnDone st'
          /\ s_thread_wake_count st'
               = Z.lor value THREAD_WAKE_COUNT_CPU_THREAD_IS_WAITING
          /\ s_thread_is_done_semaphore st' = s_thread_is_done_semaphore st - 1
          /\ trace st'
               = trace st ++
                 [LoadWakeCount memory_order_acquire value;
                  CompareExchangeWakeCount memory_order_acquire value
                    (Z.lor value THREAD_WAKE_COUNT_CPU_THREAD_IS_WAITING) true;
                  Wait thread_is_done_semaphore]).
Proof.
  unfold SyncGPUThread. simpl. split.
  - intros H. destruct (Z.ltb_spec (GetThreadWakeCount value) 0); [reflexivity|lia].
  - intros H ->. destruct (Z.ltb_spec (GetThreadWakeCount value) 0); [lia|].
    eexists. split; [reflexivity|]. simpl. rewrite <- !app_assoc. auto.
Qed.

(** ** SleepGPUThread *)

(** The consumer's side of the handshake, at its first successful
    compare-exchange.  Queued work is acknowledged by clearing the count
    and keeping CPU_WAITING; with nothing queued the word becomes the
    sleeping sentinel, and the done semaphore is posted exactly when the
    old state had CPU_WAITING set. *)
Lemma SleepGPUThread_first_exchange allow_sleep old_state obs st :
  let exchanged new_state :=
    set_wake_count new_state
      (emit (CompareExchangeWakeCount memory_order_acq_rel old_state new_state true)
         (emit (LoadWakeCount memory_order_relaxed old_state) st)) in
  (0 < GetThreadWakeCount old_state ->
     SleepGPUThread allow_sleep ((old_state, true) :: obs) st
       = Returns true
           (exchanged (Z.land old_state THREAD_WAKE_COUNT_CPU_THREAD_IS_WAITING)))
  /\ (GetThreadWakeCount old_state <= 0 ->
        Z.land old_state THREAD_WAKE_COUNT_CPU_THREAD_IS_WAITING = 0 ->
        SleepGPUThread false ((old_state, true) :: obs) st
          = Returns false (exchanged THREAD_WAKE_COUNT_SLEEPING))
  /\ (GetThreadWakeCount old_state <= 0 ->
        Z.land old_state THREAD_WAKE_COUNT_CPU_THREAD_IS_WAITING <> 0 ->
        SleepGPUThread false ((old_state, true) :: obs) st
          = Returns false
              (post thread_is_done_semaphore (exchanged THREAD_WAKE_COUNT_SLEEPING))).
Proof.
  intros exchanged. subst exchanged. simpl. repeat split.
  - intros H. destruct (Z.ltb_spec 0 (GetThreadWakeCount old_state)); [reflexivity|lia].
  - intros H E. destruct (Z.ltb_spec 0 (GetThreadWakeCount old_state)); [lia|].
    rewrite E. reflexivity.
  - intros H E. destruct (Z.ltb_spec 0 (GetThreadWakeCount old_state)); [lia|].
    destruct (Z.eqb_spec (Z.land old_state THREAD_WAKE_COUNT_CPU_THREAD_IS_WAITING) 0);
      [contradiction|reflexivity].
Qed.

(** ** Backend creation and device loss *)



(** C7, at the failing input.  A hardware renderer is requested and its
    [Initialize] returns false.  One OSD message is posted, the requested
    renderer becomes the software one and a software backend is
    constructed and installed; [Initialize] is never called on it (its
    [backend_initialize] is [None], and the only [BackendInitialize] event
    is the failed one of the hardware backend).  The process aborts only
    if the software constructor returns no object. *)
Theorem CreateGPUBackendOnThread_fallback_skips_initialize host clear_vram ds renderer :
  s_gpu_backend ds = None ->
  s_requested_renderer ds = Some renderer ->
  renderer <> GPURenderer_Software ->
  hardware_backend_created host = true ->
  backend_initialize_result host = false ->
  (software_backend_created host = true ->
     exists ds',
       CreateGPUBackendOnThread host clear_vram ds = Returns tt ds'
       /\ s_gpu_backend ds' = Some (mkBackend SoftwareBackend None)
       /\ s_requested_renderer ds' = Some GPURenderer_Software
       /\ lifecycle ds'
          = lifecycle ds ++
            [CreateHardwareBackend; BackendInitialize clear_vram false;
             AddIconOSDMessage "GPUBackendCreationFailed"; CreateSoftwareBackend])
  /\ (software_backend_created host = false ->
        exists ds',
          CreateGPUBackendOnThread host clear_vram ds
            = Panics "Failed to initialize software backend." ds'
          /\ s_gpu_backend ds' = None).
Proof.
  intros Hb Hr Hne Hhw Hinit. unfold CreateGPUBackendOnThread.
  rewrite Hb, Hr. rewrite bool_decide_eq_false_2 by exact Hne. simpl.
  rewrite Hhw, Hinit. simpl. split; intros ->.
  - eexists. split; [reflexivity|]. simpl. rewrite <- !app_assoc. auto.
  - eexists. split; reflexivity.
Qed.

(** When [Initialize] succeeds the backend asked for is installed. *)
Lemma CreateGPUBackendOnThread_success host clear_vram ds renderer :
  s_gpu_backend ds = None ->
  s_requested_renderer ds = Some renderer ->
  (if bool_decide (renderer = GPURenderer_Software)
   then software_backend_created host else hardware_backend_created host) = true ->
  backend_initialize_result host = true ->
  let kind := if bool_decide (renderer = GPURenderer_Software)
              then SoftwareBackend else HardwareBackend in
  let made := if bool_decide (renderer = GPURenderer_Software)
              then CreateSoftwareBackend else CreateHardwareBackend in
  CreateGPUBackendOnThread host clear_vram ds
    = Returns tt
        (set_backend (Some (mkBackend kind (Some true)))
           (record (BackendInitialize clear_vram true) (record made ds))).
Proof.
  intros Hb Hr Hc Hinit. unfold CreateGPUBackendOnThread.
  rewrite Hb, Hr. destruct (bool_decide (renderer = GPURenderer_Software)); simpl;
    rewrite Hc, Hinit; reflexivity.
Qed.








(** ** AllocateCommand *)

Lemma write_header_lookup off ty size st :
  exists payload,
    m_command_fifo_data (write_header off ty size st) !! off
      = Some (mkCommand ty size payload).
Proof. unfold write_header. simpl. eexists. apply lookup_insert_eq. Qed.




Lemma AllocateCommand_loop_wraps read_ptr reads command size st :
  let write_ptr := m_command_fifo_write_ptr st in
  0 <= write_ptr <= COMMAND_QUEUE_SIZE ->
  read_ptr <= write_ptr ->
  COMMAND_QUEUE_SIZE - write_ptr < size + sizeof_GPUBackendCommand ->
  AllocateCommand_loop (read_ptr :: reads) command size st
    = AllocateCommand_loop reads command size (wrap_around read_ptr st).
Proof.
  intros write_ptr Hw Hr Hav. simpl. fold write_ptr.
  destruct (Z.ltb_spec write_ptr read_ptr); [lia|].
  rewrite u32_small by (rewrite COMMAND_QUEUE_SIZE_eq in *; lia).
  destruct (Z.ltb_spec (COMMAND_QUEUE_SIZE - write_ptr) (size + sizeof_GPUBackendCommand));
    [reflexivity|lia].
Qed.

Lemma AllocateCommand_loop_fits read_ptr reads command size st :
  let write_ptr := m_command_fifo_write_ptr st in
  0 <= write_ptr <= COMMAND_QUEUE_SIZE ->
  read_ptr <= write_ptr ->
  size + sizeof_GPUBackendCommand <= COMMAND_QUEUE_SIZE - write_ptr ->
  AllocateCommand_loop (read_ptr :: reads) command size st
    = Returns write_ptr (write_header write_ptr command size (observe_pointers read_ptr st)).
Proof.
  intros write_ptr Hw Hr Hav. simpl. fold write_ptr.
  destruct (Z.ltb_spec write_ptr read_ptr); [lia|].
  rewrite u32_small by (rewrite COMMAND_QUEUE_SIZE_eq in *; lia).
  destruct (Z.ltb_spec (COMMAND_QUEUE_SIZE - write_ptr) (size + sizeof_GPUBackendCommand));
    [lia|reflexivity].
Qed.



Lemma aligned_size_u32 size :
  0 <= size <= COMMAND_QUEUE_SIZE ->
  u32 (AlignUpPow2 size 4) = (size + 3) / 4 * 4.
Proof.
  intros H. pose proof (AlignUpPow2_4_bounds size) as [B _].
  rewrite u32_small by (rewrite COMMAND_QUEUE_SIZE_eq in H; lia). reflexivity.
Qed.



(** ** RunGPULoop: one drained batch *)

Lemma replay_app es1 es2 st : replay (es1 ++ es2) st = replay es2 (replay es1 st).
Proof. apply fold_left_app. Qed.

Lemma replay_trace es st : trace (replay es st) = trace st ++ es.
Proof.
  revert st. induction es as [|e es IH]; intros st; simpl.
  - symmetry. apply app_nil_r.
  - unfold replay in IH. rewrite IH. destruct e; simpl; rewrite <- app_assoc; reflexivity.
Qed.

Lemma replay_fifo es st : m_command_fifo_data (replay es st) = m_command_fifo_data st.
Proof.
  revert st. induction es as [|e es IH]; intros st; simpl; [reflexivity|].
  unfold replay in IH. rewrite IH. destruct e; reflexivity.
Qed.

Lemma replay_dispatches_read_ptr off cmds st :
  m_command_fifo_read_ptr (replay (dispatches off cmds) st) = m_command_fifo_read_ptr st.
Proof.
  revert off st. induction cmds as [|c cmds IH]; intros off st; simpl; [reflexivity|].
  unfold replay in IH. rewrite IH. reflexivity.
Qed.

Lemma total_size_nonneg cmds : Forall is_command cmds -> 0 <= total_size cmds.
Proof.
  induction 1 as [|c cmds [_ Hc] _ IH]; simpl; lia.
Qed.

Lemma total_size_app cmds1 cmds2 :
  total_size (cmds1 ++ cmds2) = total_size cmds1 + total_size cmds2.
Proof. induction cmds1 as [|c cmds1 IH]; simpl; lia. Qed.

Lemma placed_app f off cmds1 cmds2 :
  placed f off (cmds1 ++ cmds2)
  <-> placed f off cmds1 /\ placed f (off + total_size cmds1) cmds2.
Proof.
  revert off. induction cmds1 as [|c cmds1 IH]; intros off; simpl.
  - rewrite Z.add_0_r. split; [intros H; split; [exact I|exact H]|intros [_ H]; exact H].
  - rewrite IH, Z.add_assoc.
    split; [intros (a & b & c'); auto|intros ((a & b) & c'); auto].
Qed.

(** The loop walks a run of commands that ends at or before the limit,
    dispatching each in place, one unit of fuel per command. *)
Lemma RunGPULoop_drain_commands cmds fuel write_loads read_ptr write_ptr st :
  Forall is_command cmds ->
  placed (m_command_fifo_data st) read_ptr cmds ->
  0 <= read_ptr -> read_ptr + total_size cmds <= write_ptr ->
  write_ptr <= COMMAND_QUEUE_SIZE ->
  RunGPULoop_drain (length cmds + fuel) write_loads read_ptr write_ptr st
    = RunGPULoop_drain fuel write_loads (read_ptr + total_size cmds) write_ptr
        (replay (dispatches read_ptr cmds) st).
Proof.
  intros Hcmds. revert read_ptr st.
  induction Hcmds as [|c cmds [Hty Hsz] Hrest IH]; intros read_ptr st Hpl Hr Hend Hw.
  - simpl. rewrite Z.add_0_r. reflexivity.
  - destruct Hpl as [Hc Hpl]. pose proof (total_size_nonneg cmds Hrest) as Hnn.
    simpl in Hend. simpl length. simpl Nat.add. simpl RunGPULoop_drain.
    destruct (Z.ltb_spec read_ptr write_ptr); [|lia].
    rewrite Hc.
    rewrite u32_small by (rewrite COMMAND_QUEUE_SIZE_eq in Hw; lia).
    simpl total_size. rewrite Z.add_assoc.
    assert (Hstep : forall st1, m_command_fifo_data st1 = m_command_fifo_data st ->
              RunGPULoop_drain (length cmds + fuel) write_loads (read_ptr + cmd_size c) write_ptr st1
              = RunGPULoop_drain fuel write_loads (read_ptr + cmd_size c + total_size cmds) write_ptr
                  (replay (dispatches (read_ptr + cmd_size c) cmds) st1)).
    { intros st1 Hf. apply IH; [rewrite Hf; exact Hpl|lia|lia|exact Hw]. }
    simpl dispatches. simpl replay.
    destruct (cmd_type c) eqn:Ety; [contradiction| | | |];
      rewrite Hstep by reflexivity; reflexivity.
Qed.

Lemma RunGPULoop_drain_done fuel write_loads read_ptr st :
  RunGPULoop_drain fuel write_loads read_ptr read_ptr st = Returns read_ptr st.
Proof. destruct fuel; simpl; rewrite Z.ltb_irrefl; reflexivity. Qed.

Lemma RunGPULoop_drain_wraparound c fuel w write_loads read_ptr write_ptr st :
  m_command_fifo_data st !! read_ptr = Some c ->
  cmd_type c = Wraparound ->
  read_ptr < write_ptr ->
  RunGPULoop_drain (S fuel) (w :: write_loads) read_ptr write_ptr st
    = RunGPULoop_drain fuel write_loads 0 w
        (replay [LoadWritePtr memory_order_acquire w; StoreReadPtr memory_order_release 0] st).
Proof.
  intros Hc Hty Hlt. simpl.
  destruct (Z.ltb_spec read_ptr write_ptr); [|lia].
  rewrite Hc, Hty. reflexivity.
Qed.

Lemma last_cons_default (a d : Z) (l : list Z) : List.last (a :: l) d = List.last l a.
Proof.
  revert a d. induction l as [|b l IH]; intros a d; [reflexivity|].
  change (List.last (a :: b :: l) d) with (List.last (b :: l) d).
  rewrite (IH b d), (IH b a). reflexivity.
Qed.

Lemma RunGPULoop_drain_batch laps tail fuel extra read_ptr write_ptr st :
  Forall is_command (batch_commands laps tail) ->
  batch_placed (m_command_fifo_data st) read_ptr write_ptr laps tail ->
  0 <= read_ptr -> write_ptr <= COMMAND_QUEUE_SIZE ->
  RunGPULoop_drain (batch_slots laps tail + fuel) (map lap_write_ptr laps ++ extra)
      read_ptr write_ptr st
    = Returns (batch_end write_ptr laps) (replay (batch_events read_ptr laps tail) st).
Proof.
  revert read_ptr write_ptr st.
  induction laps as [|lap laps IH]; intros read_ptr write_ptr st Hcmds Hpl Hr Hw.
  - destruct Hpl as [Hpl Hend]. simpl in *.
    rewrite RunGPULoop_drain_commands; try assumption; [|lia].
    rewrite Hend. apply RunGPULoop_drain_done.
  - destruct Hpl as (Hpl & Hty & Hlt & Hnext & Hrest).
    apply placed_app in Hpl as [Hpl1 [Hwrap _]].
    unfold batch_commands in Hcmds. simpl in Hcmds. rewrite <- app_assoc in Hcmds.
    apply Forall_app in Hcmds as [Hc1 Hc2].
    simpl batch_slots. simpl map. simpl batch_events.
    replace (S (length (lap_commands lap) + batch_slots laps tail) + fuel)%nat
      with (length (lap_commands lap) + S (batch_slots laps tail + fuel))%nat by lia.
    rewrite RunGPULoop_drain_commands; try assumption; [|lia].
    rewrite <- app_comm_cons.
    rewrite (RunGPULoop_drain_wraparound (lap_wraparound lap));
      [|rewrite replay_fifo; exact Hwrap|exact Hty|exact Hlt].
    rewrite IH; [|exact Hc2|rewrite !replay_fifo; exact Hrest|lia|lia].
    rewrite replay_app. f_equal.
    unfold batch_end. simpl map. symmetry. apply last_cons_default.
Qed.

Lemma RunGPULoop_drain_events fuel write_loads read_ptr write_ptr st :
  match RunGPULoop_drain fuel write_loads read_ptr write_ptr st with
  | Returns _ st' | Spins st' | Undefined st' =>
      exists es, st' = replay es st /\ Forall (drain_event_ok (m_command_fifo_data st)) es
  | Panics _ _ => False
  end.
Proof.
  revert write_loads read_ptr write_ptr st.
  induction fuel as [|fuel IH]; intros write_loads read_ptr write_ptr st; simpl.
  - destruct (_ <? _); exists []; split; constructor.
  - destruct (_ <? _); [|exists []; split; constructor].
    destruct (m_command_fifo_data st !! read_ptr) as [c|] eqn:Hc;
      [|exists []; split; constructor].
    assert (Hdispatch : cmd_type c <> Wraparound ->
              match RunGPULoop_drain fuel write_loads (u32 (read_ptr + cmd_size c)) write_ptr
                      (emit (Dispatch (handler_of (cmd_type c)) read_ptr c) st) with
              | Returns _ st' | Spins st' | Undefined st' =>
                  exists es, st' = replay es st
                             /\ Forall (drain_event_ok (m_command_fifo_data st)) es
              | Panics _ _ => False
              end).
    { intros Hty.
      specialize (IH write_loads (u32 (read_ptr + cmd_size c)) write_ptr
                    (emit (Dispatch (handler_of (cmd_type c)) read_ptr c) st)).
      destruct (RunGPULoop_drain _ _ _ _ _); try exact IH.
      all: destruct IH as (es & -> & Hes);
        exists (Dispatch (handler_of (cmd_type c)) read_ptr c :: es);
        split; [reflexivity|constructor; [simpl; auto|exact Hes]]. }
    destruct (cmd_type c) eqn:Ety; try (apply Hdispatch; discriminate).
    destruct write_loads as [|w write_loads]; [exists []; split; constructor|].
    specialize (IH write_loads 0 w
                  (store_read_ptr memory_order_release 0
                     (emit (LoadWritePtr memory_order_acquire w) st))).
    destruct (RunGPULoop_drain _ _ _ _ _); try exact IH.
    all: destruct IH as (es & -> & Hes);
      exists (LoadWritePtr memory_order_acquire w :: StoreReadPtr memory_order_release 0 :: es);
      split; [reflexivity|repeat constructor; exact Hes].
Qed.

Lemma dispatched_commands_app es1 es2 :
  dispatched_commands (es1 ++ es2) = dispatched_commands es1 ++ dispatched_commands es2.
Proof. apply omap_app. Qed.

Lemma dispatched_commands_dispatches off cmds :
  dispatched_commands (dispatches off cmds) = cmds.
Proof.
  revert off. induction cmds as [|c cmds IH]; intros off; [reflexivity|].
  simpl. unfold dispatched_commands in *. simpl. rewrite IH. reflexivity.
Qed.

Lemma dispatched_commands_batch read_ptr laps tail :
  dispatched_commands (batch_events read_ptr laps tail) = batch_commands laps tail.
Proof.
  revert read_ptr. induction laps as [|lap laps IH]; intros read_ptr.
  - apply dispatched_commands_dispatches.
  - simpl. rewrite dispatched_commands_app, dispatched_commands_dispatches.
    unfold batch_commands. simpl. rewrite <- app_assoc. f_equal.
    exact (IH 0).
Qed.

(** C3.  For the [while (read_ptr < write_ptr)] loop of [RunGPULoop]:
    - whatever the ring holds, the loop only ever dispatches the record it
      finds at the local read cursor, to the handler of its tag, and never
      a [Wraparound] slot; besides dispatches it only re-reads the write
      pointer with acquire order and stores 0 to the read pointer with
      release order, and it leaves the ring bytes alone;
    - for a batch made of laps (published commands placed back to back and
      closed by a [Wraparound] slot below the limit) followed by commands
      that end at the last write pointer observed, the loop returns with
      the local cursor at that write pointer; its trace is, lap by lap, the
      dispatch of each command in placement order, carrying the record as
      placed, and at each [Wraparound] slot the acquire re-read of the
      write pointer immediately followed by the release store of 0 to the
      read pointer, with the local cursor restarting at 0. *)
Theorem RunGPULoop_drain_spec :
  (forall fuel write_loads read_ptr write_ptr st,
      match RunGPULoop_drain fuel write_loads read_ptr write_ptr st with
      | Returns _ st' | Spins st' | Undefined st' =>
          m_command_fifo_data st' = m_command_fifo_data st
          /\ exists es,
               trace st' = trace st ++ es
               /\ Forall (drain_event_ok (m_command_fifo_data st)) es
      | Panics _ _ => False
      end)
  /\ (forall laps tail fuel extra read_ptr write_ptr st,
        Forall is_command (batch_commands laps tail) ->
        batch_placed (m_command_fifo_data st) read_ptr write_ptr laps tail ->
        0 <= read_ptr -> write_ptr <= COMMAND_QUEUE_SIZE ->
        exists st',
          RunGPULoop_drain (batch_slots laps tail + fuel) (map lap_write_ptr laps ++ extra)
            read_ptr write_ptr st = Returns (batch_end write_ptr laps) st'
          /\ trace st' = trace st ++ batch_events read_ptr laps tail
          /\ dispatched_commands (batch_events read_ptr laps tail) = batch_commands laps tail
          /\ m_command_fifo_data st' = m_command_fifo_data st
          /\ m_command_fifo_read_ptr st'
             = match laps with [] => m_command_fifo_read_ptr st | _ => 0 end).
Proof.
  split.
  - intros fuel write_loads read_ptr write_ptr st.
    pose proof (RunGPULoop_drain_events fuel write_loads read_ptr write_ptr st) as H.
    destruct (RunGPULoop_drain _ _ _ _ _); try exact H.
    all: destruct H as (es & -> & Hes); split; [apply replay_fifo|];
      exists es; split; [apply replay_trace|exact Hes].
  - intros laps tail fuel extra read_ptr write_ptr st Hcmds Hpl Hr Hw.
    eexists. split; [apply RunGPULoop_drain_batch; assumption|].
    split; [apply replay_trace|]. split; [apply dispatched_commands_batch|].
    split; [apply replay_fifo|].
    destruct laps as [|lap laps]; [apply replay_dispatches_read_ptr|].
    clear Hcmds Hpl. simpl batch_events. rewrite replay_app. simpl replay.
    assert (Hgen : forall laps r st1, m_command_fifo_read_ptr st1 = 0 ->
              m_command_fifo_read_ptr (fold_left apply_event (batch_events r laps tail) st1) = 0).
    { clear. induction laps as [|l laps IH]; intros r st1 H1; simpl.
      - fold (replay (dispatches r tail) st1). rewrite replay_dispatches_read_ptr. exact H1.
      - rewrite fold_left_app. simpl. apply IH. reflexivity. }
    apply Hgen. reflexivity.
Qed.

(** ** Runs of the producer and the consumer *)

Lemma published_sizes_app es1 es2 :
  published_sizes (es1 ++ es2) = published_sizes es1 ++ published_sizes es2.
Proof. apply omap_app. Qed.

Lemma size_at_write_header off ty size st : size_at off (write_header off ty size st) = size.
Proof. unfold size_at, write_header. simpl. rewrite lookup_insert_eq. reflexivity. Qed.

Lemma size_at_emit cmd e st : size_at cmd (emit e st) = size_at cmd st.
Proof. reflexivity. Qed.

Lemma WakeGPUThread_published st :
  published_sizes (trace (WakeGPUThread st)) = published_sizes (trace st)
  /\ dispatched_commands (trace (WakeGPUThread st)) = dispatched_commands (trace st).
Proof.
  rewrite WakeGPUThread_trace. rewrite published_sizes_app, dispatched_commands_app.
  destruct (_ <? 0); simpl; rewrite !app_nil_r; auto.
Qed.

Lemma PushCommand_fields cmd st :
  let st' := PushCommand cmd st in
  m_command_fifo_data st' = m_command_fifo_data st
  /\ m_command_fifo_read_ptr st' = m_command_fifo_read_ptr st
  /\ m_command_fifo_write_ptr st' = u32 (m_command_fifo_write_ptr st + size_at cmd st)
  /\ published_sizes (trace st') = published_sizes (trace st) ++ [size_at cmd st]
  /\ dispatched_commands (trace st') = dispatched_commands (trace st).
Proof.
  unfold PushCommand. cbv zeta.
  set (st1 := fetch_add_write_ptr memory_order_release (size_at cmd st) st).
  assert (H1 : m_command_fifo_data st1 = m_command_fifo_data st
               /\ m_command_fifo_read_ptr st1 = m_command_fifo_read_ptr st
               /\ m_command_fifo_write_ptr st1 = u32 (m_command_fifo_write_ptr st + size_at cmd st)
               /\ published_sizes (trace st1) = published_sizes (trace st) ++ [size_at cmd st]
               /\ dispatched_commands (trace st1) = dispatched_commands (trace st)).
  { subst st1. simpl. rewrite published_sizes_app, dispatched_commands_app. simpl.
    rewrite app_nil_r. auto. }
  destruct (_ <=? _); [|exact H1].
  destruct (WakeGPUThread_frame st1) as (-> & -> & -> & _).
  destruct (WakeGPUThread_published st1) as (-> & ->). exact H1.
Qed.

Lemma PushCommandAndWakeThread_fields cmd st :
  let st' := PushCommandAndWakeThread cmd st in
  m_command_fifo_data st' = m_command_fifo_data st
  /\ m_command_fifo_read_ptr st' = m_command_fifo_read_ptr st
  /\ m_command_fifo_write_ptr st' = u32 (m_command_fifo_write_ptr st + size_at cmd st)
  /\ published_sizes (trace st') = published_sizes (trace st) ++ [size_at cmd st]
  /\ dispatched_commands (trace st') = dispatched_commands (trace st).
Proof.
  unfold PushCommandAndWakeThread. cbv zeta.
  set (st1 := fetch_add_write_ptr memory_order_release (size_at cmd st) st).
  destruct (WakeGPUThread_frame st1) as (-> & -> & -> & _).
  destruct (WakeGPUThread_published st1) as (-> & ->).
  subst st1. simpl. rewrite published_sizes_app, dispatched_commands_app. simpl.
  rewrite app_nil_r. auto.
Qed.

Lemma reachable_step c c' : reachable c -> step c c' -> reachable c'.
Proof. unfold reachable. intros H S. eapply rtc_r; eassumption. Qed.

Lemma write_header_published off ty size st :
  published_sizes (trace (write_header off ty size st)) = published_sizes (trace st)
  /\ dispatched_commands (trace (write_header off ty size st)) = dispatched_commands (trace st).
Proof.
  unfold write_header. simpl. rewrite published_sizes_app, dispatched_commands_app.
  simpl. rewrite !app_nil_r. auto.
Qed.

Lemma observe_pointers_published read_ptr st :
  published_sizes (trace (observe_pointers read_ptr st)) = published_sizes (trace st)
  /\ dispatched_commands (trace (observe_pointers read_ptr st)) = dispatched_commands (trace st).
Proof.
  unfold observe_pointers. simpl. rewrite !published_sizes_app, !dispatched_commands_app.
  simpl. rewrite !app_nil_r. auto.
Qed.

Lemma wrap_around_published read_ptr st :
  published_sizes (trace (wrap_around read_ptr st)) = published_sizes (trace st)
  /\ dispatched_commands (trace (wrap_around read_ptr st)) = dispatched_commands (trace st).
Proof.
  unfold wrap_around, store_write_ptr. simpl.
  rewrite !published_sizes_app, !dispatched_commands_app. simpl. rewrite !app_nil_r.
  auto.
Qed.

(** C2, at the failing input.  The producer publishes one command that
    fills the ring up to the last [sizeof(GPUBackendCommand)] bytes and then
    asks for a [ChangeBackend] slot, all before the consumer has read
    anything.  The request does not fit before the end, the read pointer
    (0) is not ahead of the write pointer, so the allocation wraps: it
    stores 0 to the write pointer although the read pointer is 0 as well.
    In the state so reached the two pointers are equal while the first
    command is published and unread, and the slot handed out is offset 0,
    on top of that command.  After the second command is published and the
    consumer has drained, the pointers are equal again, two commands have
    been published and only the second was ever dispatched. *)
Theorem wrap_onto_unread_ring_loses_command :
  0 < sizeof_GPUThreadCommand <= sizeof_GPUBackendCommand ->
  sizeof_GPUBackendCommand mod 4 = 0 ->
  sizeof_GPUBackendCommand <= 1024 ->
  exists stB stC stE lost kept,
    cmd_type lost = BackendCommand 0 /\ cmd_type kept = ChangeBackend
    /\ reachable (stB, None)
    /\ m_command_fifo_data stB !! 0 = Some lost
    /\ m_command_fifo_read_ptr stB = 0
    /\ m_command_fifo_write_ptr stB = cmd_size lost
    /\ published_sizes (trace stB) = [cmd_size lost]
    /\ reachable (stC, Some 0)
    /\ m_command_fifo_read_ptr stC = 0 /\ m_command_fifo_write_ptr stC = 0
    /\ published_sizes (trace stC) = [cmd_size lost]
    /\ dispatched_commands (trace stC) = []
    /\ ~ queue_empty stC
    /\ m_command_fifo_data stC !! 0 = Some kept
    /\ reachable (stE, None)
    /\ m_command_fifo_read_ptr stE = m_command_fifo_write_ptr stE
    /\ published_sizes (trace stE) = [cmd_size lost; cmd_size kept]
    /\ dispatched_commands (trace stE) = [kept]
    /\ ~ queue_empty stE.
Proof.
  intros HszTC Hmod Hle.
  set (s1 := COMMAND_QUEUE_SIZE - sizeof_GPUBackendCommand).
  set (a2 := AlignUpPow2 sizeof_GPUThreadCommand 4).
  pose proof (AlignUpPow2_4_bounds sizeof_GPUThreadCommand) as [Ha2 _]. fold a2 in Ha2.
  assert (Hs1 : s1 mod 4 = 0).
  { subst s1. apply Z.mod_divide; [lia|]. apply Z.divide_sub_r.
    - exists 1048576. reflexivity.
    - apply Z.mod_divide; [lia|exact Hmod]. }
  assert (HC : COMMAND_QUEUE_SIZE = 4194304) by reflexivity.
  (* the first command *)
  set (stA := write_header 0 (BackendCommand 0) s1 (observe_pointers 0 initial_state)).
  assert (EA : AllocateCommand (repeat (m_command_fifo_read_ptr initial_state) 1)
                 (BackendCommand 0) s1 initial_state = Returns 0 stA).
  { unfold AllocateCommand. rewrite (AlignUpPow2_4_aligned s1 Hs1).
    rewrite u32_small by (subst s1; lia).
    apply (AllocateCommand_loop_fits 0 [] (BackendCommand 0) s1 initial_state); simpl; subst s1; lia. }
  set (stB := PushCommand 0 stA).
  destruct (PushCommand_fields 0 stA) as (HfB & HrB & HwB & HpB & HdB). fold stB in HfB, HrB, HwB, HpB, HdB.
  assert (HsA : size_at 0 stA = s1) by apply size_at_write_header.
  rewrite HsA in HwB, HpB. simpl in HwB. rewrite u32_small in HwB by (subst s1; lia).
  change (m_command_fifo_read_ptr stA) with 0 in HrB.
  change (published_sizes (trace stA)) with (@nil Z) in HpB. simpl in HpB.
  change (dispatched_commands (trace stA)) with (@nil GPUThreadCommand) in HdB.
  assert (RB : reachable (stB, None)).
  { eapply reachable_step; [|apply step_push].
    eapply reachable_step; [apply rtc_refl|].
    eapply (step_allocate initial_state 1 (BackendCommand 0) s1); [subst s1; lia|subst s1; lia|exact EA]. }
  (* the second allocation wraps onto it *)
  set (stC := write_header 0 ChangeBackend a2 (observe_pointers 0 (wrap_around 0 stB))).
  assert (EC : AllocateCommand (repeat (m_command_fifo_read_ptr stB) 2)
                 ChangeBackend sizeof_GPUThreadCommand stB = Returns 0 stC).
  { unfold AllocateCommand. fold a2. rewrite u32_small by lia. rewrite HrB. simpl repeat.
    rewrite AllocateCommand_loop_wraps by (rewrite HwB; subst s1; lia).
    apply (AllocateCommand_loop_fits 0 [] ChangeBackend a2 (wrap_around 0 stB)); simpl; lia. }
  assert (RC : reachable (stC, Some 0)).
  { eapply reachable_step; [exact RB|].
    eapply (step_allocate stB 2 ChangeBackend sizeof_GPUThreadCommand); [lia|lia|exact EC]. }
  assert (HpC : published_sizes (trace stC) = [s1]).
  { subst stC. rewrite (proj1 (write_header_published _ _ _ _)).
    rewrite (proj1 (observe_pointers_published _ _)).
    rewrite (proj1 (wrap_around_published _ _)). exact HpB. }
  assert (HdC : dispatched_commands (trace stC) = []).
  { subst stC. rewrite (proj2 (write_header_published _ _ _ _)).
    rewrite (proj2 (observe_pointers_published _ _)).
    rewrite (proj2 (wrap_around_published _ _)). exact HdB. }
  destruct (write_header_lookup 0 ChangeBackend a2 (observe_pointers 0 (wrap_around 0 stB)))
    as [payload HkC]. fold stC in HkC.
  set (kept := mkCommand ChangeBackend a2 payload) in *.
  (* publishing the second command and draining *)
  set (stD := PushCommandAndWakeThread 0 stC).
  destruct (PushCommandAndWakeThread_fields 0 stC) as (HfD & HrD & HwD & HpD & HdD).
  fold stD in HfD, HrD, HwD, HpD, HdD.
  assert (HsC : size_at 0 stC = a2) by apply size_at_write_header.
  rewrite HsC in HwD, HpD. rewrite HpC in HpD. rewrite HdC in HdD.
  change (m_command_fifo_write_ptr stC) with 0 in HwD. rewrite Z.add_0_l in HwD.
  rewrite u32_small in HwD by lia.
  change (m_command_fifo_read_ptr stC) with (m_command_fifo_read_ptr stB) in HrD.
  rewrite HrB in HrD.
  set (stD1 := emit (LoadReadPtr memory_order_relaxed 0)
                 (emit (LoadWritePtr memory_order_acquire a2) stD)).
  set (stE := store_read_ptr memory_order_release a2 (replay (dispatches 0 [kept]) stD1)).
  assert (EE : RunGPULoop_iteration 1 (repeat (m_command_fifo_write_ptr stD) 1) stD
               = Returns BatchDrained stE).
  { unfold RunGPULoop_iteration. rewrite HwD. simpl repeat. cbv beta iota zeta.
    change (m_command_fifo_read_ptr (emit (LoadWritePtr memory_order_acquire a2) stD))
      with (m_command_fifo_read_ptr stD). rewrite HrD. fold stD1.
    destruct (Z.eqb_spec 0 a2); [lia|].
    destruct (Z.ltb_spec a2 0); [lia|].
    assert (Hb : RunGPULoop_drain 1 [] 0 a2 stD1
                 = Returns a2 (replay (dispatches 0 [kept]) stD1)).
    { apply (RunGPULoop_drain_batch [] [kept] 0%nat [] 0 a2 stD1); [| |lia|lia].
      - repeat constructor; [discriminate|simpl; lia].
      - change (m_command_fifo_data stD1) with (m_command_fifo_data stD).
        rewrite HfD. split; [split; [exact HkC|exact I]|simpl; lia]. }
    rewrite Hb. reflexivity. }
  assert (RE : reachable (stE, None)).
  { eapply reachable_step; [|eapply (step_consume stD None 1 1); exact EE].
    eapply reachable_step; [exact RC|apply step_push_and_wake]. }
  assert (HpE : published_sizes (trace stE) = [s1; a2]).
  { subst stE stD1. simpl. rewrite !published_sizes_app. simpl. rewrite !app_nil_r. exact HpD. }
  assert (HdE : dispatched_commands (trace stE) = [kept]).
  { subst stE stD1. simpl. rewrite !dispatched_commands_app. simpl. rewrite !app_nil_r.
    rewrite HdD. reflexivity. }
  exists stB, stC, stE, (mkCommand (BackendCommand 0) s1 []), kept.
  split; [reflexivity|]. split; [reflexivity|]. split; [exact RB|].
  split; [rewrite HfB; subst stA; unfold write_header; simpl; apply lookup_insert_eq|].
  split; [exact HrB|]. split; [exact HwB|]. split; [exact HpB|].
  split; [exact RC|]. split; [exact HrB|]. split; [reflexivity|].
  split; [exact HpC|]. split; [exact HdC|].
  split; [unfold queue_empty; rewrite HpC, HdC; simpl; lia|].
  split; [exact HkC|]. split; [exact RE|].
  split; [subst stE stD1; simpl; symmetry; exact HwD|].
  split; [exact HpE|]. split; [exact HdE|].
  unfold queue_empty. rewrite HpE, HdE. simpl. lia.
Qed.


(** ** The wake word between the two threads *)

Lemma GetThreadWakeCount_lor_flag v :
  GetThreadWakeCount (Z.lor v THREAD_WAKE_COUNT_CPU_THREAD_IS_WAITING) = GetThreadWakeCount v.
Proof.
  unfold GetThreadWakeCount.
  rewrite Z.land_lor_distr_l, Z.land_lnot_diag, Z.lor_0_r. reflexivity.
Qed.

Lemma GetThreadWakeCount_flag_only v :
  GetThreadWakeCount (Z.land v THREAD_WAKE_COUNT_CPU_THREAD_IS_WAITING) = 0.
Proof.
  unfold GetThreadWakeCount.
  rewrite <- Z.land_assoc, Z.land_lnot_diag, Z.land_0_r. reflexivity.
Qed.

Lemma flag_set_by_lor v :
  Z.land (Z.lor v THREAD_WAKE_COUNT_CPU_THREAD_IS_WAITING) THREAD_WAKE_COUNT_CPU_THREAD_IS_WAITING
    = THREAD_WAKE_COUNT_CPU_THREAD_IS_WAITING.
Proof.
  apply Z.bits_inj'. intros n _. rewrite Z.land_spec, Z.lor_spec.
  destruct (Z.testbit v n), (Z.testbit _ n); reflexivity.
Qed.

(** The compare-exchange loop, for every sequence of observations. *)
Lemma SyncGPUThread_block_cases obs st :
  match SyncGPUThread_block obs st with
  | Returns SawSleeping st' =>
      (exists v ok, In (v, ok) obs /\ GetThreadWakeCount v < 0)
      /\ s_thread_wake_count st' = s_thread_wake_count st
      /\ s_thread_is_done_semaphore st' = s_thread_is_done_semaphore st
      /\ exists es, trace st' = trace st ++ es /\ ~ In (Wait thread_is_done_semaphore) es
  | Returns WaitedOnDone st' =>
      exists v es,
        In (v, true) obs /\ 0 <= GetThreadWakeCount v
        /\ s_thread_wake_count st' = Z.lor v THREAD_WAKE_COUNT_CPU_THREAD_IS_WAITING
        /\ s_thread_is_done_semaphore st' = s_thread_is_done_semaphore st - 1
        /\ trace st'
           = trace st ++ es ++
             [CompareExchangeWakeCount memory_order_acquire v
                (Z.lor v THREAD_WAKE_COUNT_CPU_THREAD_IS_WAITING) true;
              Wait thread_is_done_semaphore]
        /\ ~ In (Wait thread_is_done_semaphore) es
  | Spins st' =>
      Forall (fun o => 0 <= GetThreadWakeCount (fst o) /\ snd o = false) obs
      /\ s_thread_wake_count st' = s_thread_wake_count st
      /\ s_thread_is_done_semaphore st' = s_thread_is_done_semaphore st
  | Panics _ _ | Undefined _ => False
  end.
Proof.
  revert st. induction obs as [|[value ok] obs IH]; intros st; simpl.
  - repeat split; constructor.
  - destruct (Z.ltb_spec (GetThreadWakeCount value) 0) as [Hneg|Hpos].
    + split; [exists value, ok; split; [left; reflexivity|exact Hneg]|].
      simpl. repeat split.
      exists [LoadWakeCount memory_order_acquire value]. split; [reflexivity|].
      intros [H|[]]; discriminate.
    + destruct ok.
      * exists value, [LoadWakeCount memory_order_acquire value].
        simpl. repeat split; try (left; reflexivity); try exact Hpos.
        -- rewrite <- !app_assoc. reflexivity.
        -- intros [H|[]]; discriminate.
      * specialize (IH (emit (CompareExchangeWakeCount memory_order_acquire value
                               (Z.lor value THREAD_WAKE_COUNT_CPU_THREAD_IS_WAITING) false)
                          (emit (LoadWakeCount memory_order_acquire value) st))).
        destruct (SyncGPUThread_block obs _) as [[|] st'|msg st'|st'|st']; try exact IH.
        -- destruct IH as ((v & ok & Hin & Hv) & Hw & Hd & es & Ht & Hes).
           split; [exists v, ok; split; [right; exact Hin|exact Hv]|].
           repeat split; [exact Hw|exact Hd|].
           eexists (_ :: _ :: es). split.
           ++ rewrite Ht. simpl. rewrite <- !app_assoc. reflexivity.
           ++ intros [H|[H|H]]; try discriminate. exact (Hes H).
        -- destruct IH as (v & es & Hin & Hv & Hw & Hd & Ht & Hes).
           exists v. eexists (_ :: _ :: es).
           repeat split; [right; exact Hin| exact Hv | exact Hw | exact Hd | |].
           ++ rewrite Ht. simpl. rewrite <- !app_assoc. reflexivity.
           ++ intros [H|[H|H]]; try discriminate. exact (Hes H).
        -- destruct IH as (Hall & Hw & Hd).
           repeat split; [|exact Hw|exact Hd].
           constructor; [split; [exact Hpos|reflexivity]|exact Hall].
Qed.

(** X1.  [SyncGPUThread(false)], for every interleaving.  It returns at
    once, touching neither the wake word nor the done semaphore, as soon as
    a load shows the consumer sleeping.  Otherwise it retries the
    compare-exchange until one succeeds; the wake word then is the observed
    value with the CPU_WAITING bit set and the same pending-work count, and
    the very next action is the one wait on the done semaphore.  While every
    exchange fails it neither waits nor changes the word. *)
Theorem SyncGPUThread_blocking_spec loads obs st :
  match SyncGPUThread false loads obs st with
  | Returns SawSleeping st' =>
      (exists v ok, In (v, ok) obs /\ GetThreadWakeCount v < 0)
      /\ s_thread_wake_count st' = s_thread_wake_count st
      /\ s_thread_is_done_semaphore st' = s_thread_is_done_semaphore st
      /\ exists es, trace st' = trace st ++ es /\ ~ In (Wait thread_is_done_semaphore) es
  | Returns WaitedOnDone st' =>
      exists v es,
        In (v, true) obs /\ 0 <= GetThreadWakeCount v
        /\ s_thread_wake_count st' = Z.lor v THREAD_WAKE_COUNT_CPU_THREAD_IS_WAITING
        /\ GetThreadWakeCount (s_thread_wake_count st') = GetThreadWakeCount v
        /\ Z.land (s_thread_wake_count st') THREAD_WAKE_COUNT_CPU_THREAD_IS_WAITING
           = THREAD_WAKE_COUNT_CPU_THREAD_IS_WAITING
        /\ s_thread_is_done_semaphore st' = s_thread_is_done_semaphore st - 1
        /\ trace st'
           = trace st ++ es ++
             [CompareExchangeWakeCount memory_order_acquire v
                (Z.lor v THREAD_WAKE_COUNT_CPU_THREAD_IS_WAITING) true;
              Wait thread_is_done_semaphore]
        /\ ~ In (Wait thread_is_done_semaphore) es
  | Spins st' =>
      Forall (fun o => 0 <= GetThreadWakeCount (fst o) /\ snd o = false) obs
      /\ s_thread_wake_count st' = s_thread_wake_count st
      /\ s_thread_is_done_semaphore st' = s_thread_is_done_semaphore st
  | Panics _ _ | Undefined _ => False
  end.
Proof.
  unfold SyncGPUThread.
  pose proof (SyncGPUThread_block_cases obs st) as H.
  destruct (SyncGPUThread_block obs st) as [[|] st'|msg st'|st'|st']; try exact H.
  destruct H as (v & es & Hin & Hv & Hw & Hd & Ht & Hes).
  exists v, es. rewrite Hw.
  repeat split; try assumption.
  - apply GetThreadWakeCount_lor_flag.
  - apply flag_set_by_lor.
Qed.

(** *** SleepGPUThread *)





(** Failed exchanges only add to the trace. *)
Lemma SleepGPUThread_failed_exchanges allow_sleep fails obs st :
  Forall (fun o => snd o = false) fails ->
  exists st0,
    SleepGPUThread allow_sleep (fails ++ obs) st = SleepGPUThread allow_sleep obs st0
    /\ s_thread_wake_count st0 = s_thread_wake_count st
    /\ s_thread_is_done_semaphore st0 = s_thread_is_done_semaphore st
    /\ s_thread_wake_semaphore st0 = s_thread_wake_semaphore st.
Proof.
  revert st. induction fails as [|[v ok] fails IH]; intros st Hall.
  - exists st. repeat split.
  - inversion Hall as [|? ? Hok Hrest]; subst. simpl in Hok. subst ok.
    simpl. destruct (IH (emit (CompareExchangeWakeCount memory_order_acq_rel v
                                 (if 0 <? GetThreadWakeCount v
                                  then Z.land v THREAD_WAKE_COUNT_CPU_THREAD_IS_WAITING
                                  else THREAD_WAKE_COUNT_SLEEPING) false)
                            (emit (LoadWakeCount memory_order_relaxed v) st)) Hrest)
      as (st0 & E & Hw & Hd & Hs).
    exists st0. repeat split; assumption.
Qed.

(** The first successful exchange when sleeping is not allowed. *)
Lemma SleepGPUThread_idle_exchange old obs st :
  exists st',
    SleepGPUThread false ((old, true) :: obs) st
      = Returns (0 <? GetThreadWakeCount old) st'
    /\ s_thread_wake_count st'
       = (if 0 <? GetThreadWakeCount old
          then Z.land old THREAD_WAKE_COUNT_CPU_THREAD_IS_WAITING
          else THREAD_WAKE_COUNT_SLEEPING)
    /\ s_thread_is_done_semaphore st'
       = s_thread_is_done_semaphore st + (if releases_cpu (old, true) then 1 else 0)
    /\ s_thread_wake_semaphore st' = s_thread_wake_semaphore st.
Proof.
  unfold releases_cpu, goes_to_sleep. simpl.
  destruct (Z.ltb_spec 0 (GetThreadWakeCount old)) as [Hwork|Hnone].
  - eexists. split; [reflexivity|]. simpl.
    destruct (Z.leb_spec (GetThreadWakeCount old) 0); [lia|]. simpl.
    repeat split; lia.
  - destruct (Z.leb_spec (GetThreadWakeCount old) 0); [|lia]. simpl.
    destruct (Z.land old THREAD_WAKE_COUNT_CPU_THREAD_IS_WAITING =? 0);
      eexists; (split; [reflexivity|]); simpl; repeat split; lia.
Qed.

(** X2.  [SleepGPUThread(false)], the call of the idle-present mode, for
    every interleaving: it never waits on the wake semaphore and returns at
    its first successful exchange, [true] exactly when that exchange found
    pending work.  When it returns [true] the wake word keeps only the
    CPU_WAITING bit; when it returns [false] the wake word is the sleeping
    sentinel, and the done semaphore was posted once if the exchanged value
    had the CPU_WAITING bit set. *)
Theorem SleepGPUThread_idle_spec fails old rest st :
  Forall (fun o => snd o = false) fails ->
  exists st',
    SleepGPUThread false (fails ++ (old, true) :: rest) st
      = Returns (0 <? GetThreadWakeCount old) st'
    /\ s_thread_wake_count st'
       = (if 0 <? GetThreadWakeCount old
          then Z.land old THREAD_WAKE_COUNT_CPU_THREAD_IS_WAITING
          else THREAD_WAKE_COUNT_SLEEPING)
    /\ s_thread_is_done_semaphore st'
       = s_thread_is_done_semaphore st + (if releases_cpu (old, true) then 1 else 0)
    /\ s_thread_wake_semaphore st' = s_thread_wake_semaphore st.
Proof.
  intros Hall.
  destruct (SleepGPUThread_failed_exchanges false fails ((old, true) :: rest) st Hall)
    as (st0 & E & Hw & Hd & Hs).
  destruct (SleepGPUThread_idle_exchange old rest st0) as (st' & E' & Hw' & Hd' & Hs').
  exists st'. rewrite E, E', Hw', Hd', Hs', Hd, Hs. repeat split.
Qed.

(** The sleeping sentinel has every bit set, the CPU_WAITING bit
    included, and its pending-work count is negative. *)
Lemma sleeping_sentinel_bits :
  GetThreadWakeCount THREAD_WAKE_COUNT_SLEEPING < 0
  /\ Z.land THREAD_WAKE_COUNT_SLEEPING THREAD_WAKE_COUNT_CPU_THREAD_IS_WAITING
     = THREAD_WAKE_COUNT_CPU_THREAD_IS_WAITING.
Proof. split; reflexivity. Qed.

(** X3.  Two calls of [SleepGPUThread(false)] in a row with nothing queued
    in between, as the idle-present loop of [RunGPULoop] makes them.  The
    first call leaves the sleeping sentinel in the wake word and returns
    [false]. The second call exchanges the sentinel for itself, takes the
    sentinel's bit 30 for the CPU_WAITING flag and posts the done semaphore,
    although no thread has set the flag.  The [DebugAssert] that opens
    [SleepGPUThread] is false at the second call; a release build compiles
    it out. *)
Theorem SleepGPUThread_idle_again_posts_done old rest1 rest2 st :
  GetThreadWakeCount old <= 0 ->
  exists st1 st2,
    SleepGPUThread false ((old, true) :: rest1) st = Returns false st1
    /\ s_thread_wake_count st1 = THREAD_WAKE_COUNT_SLEEPING
    /\ SleepGPUThread false ((s_thread_wake_count st1, true) :: rest2) st1 = Returns false st2
    /\ s_thread_wake_count st2 = THREAD_WAKE_COUNT_SLEEPING
    /\ s_thread_is_done_semaphore st2 = s_thread_is_done_semaphore st1 + 1
    /\ trace st2
       = trace st1 ++
         [LoadWakeCount memory_order_relaxed THREAD_WAKE_COUNT_SLEEPING;
          CompareExchangeWakeCount memory_order_acq_rel THREAD_WAKE_COUNT_SLEEPING
            THREAD_WAKE_COUNT_SLEEPING true;
          Post thread_is_done_semaphore].
Proof.
  intros Hnone.
  destruct (SleepGPUThread_idle_exchange old rest1 st) as (st1 & E1 & Hw1 & _ & _).
  destruct (Z.ltb_spec 0 (GetThreadWakeCount old)) as [|_]; [lia|].
  exists st1. rewrite Hw1.
  eexists. split; [exact E1|]. split; [reflexivity|].
  split; [reflexivity|]. simpl.
  repeat split. rewrite <- !app_assoc. reflexivity.
Qed.


(** *** The two sides together *)

Lemma GetThreadWakeCount_nonneg w : 0 <= w -> 0 <= GetThreadWakeCount w.
Proof. intros H. unfold GetThreadWakeCount. apply Z.land_nonneg. left. exact H. Qed.

Lemma running_state_range w :
  0 <= w -> GetThreadWakeCount w < 0x3FFFFFFE -> w + 2 < 2 ^ 31.
Proof.
  intros Hw Hc. rewrite GetThreadWakeCount_sub, waiting_flag_bit in Hc.
  change (2 ^ 30) with 1073741824 in Hc. change (2 ^ 31) with 2147483648.
  destruct (Z.testbit w 30); simpl Z.b2z in Hc; lia.
Qed.

(** X5.  [WakeGPUThread] followed by the consumer's next exchange.  Whether
    the consumer was sleeping or running, the exchange finds a positive
    pending-work count, so [SleepGPUThread] returns [true] instead of going
    to sleep, with the count acknowledged; the CPU_WAITING bit of a running
    state survives, and the done semaphore is not posted. *)
Theorem WakeGPUThread_then_SleepGPUThread allow_sleep obs st :
  let w := s_thread_wake_count st in
  let woken := WakeGPUThread st in
  w = THREAD_WAKE_COUNT_SLEEPING \/ (0 <= w /\ GetThreadWakeCount w < 0x3FFFFFFE) ->
  exists st',
    SleepGPUThread allow_sleep ((s_thread_wake_count woken, true) :: obs) woken
      = Returns true st'
    /\ GetThreadWakeCount (s_thread_wake_count st') = 0
    /\ s_thread_wake_count st'
       = (if w <? 0 then 0 else Z.land w THREAD_WAKE_COUNT_CPU_THREAD_IS_WAITING)
    /\ s_thread_is_done_semaphore st' = s_thread_is_done_semaphore st
    /\ s_thread_wake_semaphore st'
       = s_thread_wake_semaphore st + (if w <? 0 then 1 else 0).
Proof.
  intros w woken Hw.
  assert (Hcount : s_thread_wake_count woken = s32 (w + 2)) by apply WakeGPUThread_count.
  assert (Hsem : s_thread_wake_semaphore woken
                 = s_thread_wake_semaphore st + (if w <? 0 then 1 else 0))
    by apply WakeGPUThread_semaphore.
  assert (Hdone : s_thread_is_done_semaphore woken = s_thread_is_done_semaphore st)
    by apply WakeGPUThread_frame.
  assert (Hwork : 0 < GetThreadWakeCount (s_thread_wake_count woken)
                  /\ Z.land (s_thread_wake_count woken) THREAD_WAKE_COUNT_CPU_THREAD_IS_WAITING
                     = (if w <? 0 then 0 else Z.land w THREAD_WAKE_COUNT_CPU_THREAD_IS_WAITING)).
  { rewrite Hcount. destruct Hw as [Hs|[Hr Hc]].
    - rewrite Hs. split; reflexivity.
    - pose proof (running_state_range w Hr Hc) as Hlt.
      rewrite s32_small by lia.
      destruct (wake_keeps_waiting_flag w Hr Hc) as [Hflag Hcnt].
      pose proof (GetThreadWakeCount_nonneg w Hr).
      destruct (Z.ltb_spec w 0); [lia|]. split; [lia|exact Hflag]. }
  destruct Hwork as [Hpos Hflag].
  destruct (SleepGPUThread_first_exchange allow_sleep (s_thread_wake_count woken) obs woken)
    as [E _].
  cbv zeta in E. rewrite (E Hpos).
  eexists. split; [reflexivity|]. simpl.
  rewrite Hflag. repeat split; try assumption.
  destruct (w <? 0); [reflexivity|apply GetThreadWakeCount_flag_only].
Qed.

(** X6.  The synchronisation handshake, with the consumer running and no CPU
    thread waiting yet.  [SyncGPUThread(false)] sets the CPU_WAITING bit and
    blocks on the done semaphore.  If work is pending, the consumer's next
    exchange acknowledges it and keeps the bit, without posting; the
    exchange that finds the count at zero moves the word to the sleeping
    sentinel and posts the done semaphore once, which balances the wait. *)
Theorem SyncGPUThread_released_by_SleepGPUThread loads allow_sleep w rest1 rest2 rest3 st :
  0 <= w ->
  Z.land w THREAD_WAKE_COUNT_CPU_THREAD_IS_WAITING = 0 ->
  exists st1,
    SyncGPUThread false loads ((w, true) :: rest1) st = Returns WaitedOnDone st1
    /\ s_thread_wake_count st1 = Z.lor w THREAD_WAKE_COUNT_CPU_THREAD_IS_WAITING
    /\ s_thread_is_done_semaphore st1 = s_thread_is_done_semaphore st - 1
    /\ (0 < w ->
        exists st2 st3,
          SleepGPUThread allow_sleep ((s_thread_wake_count st1, true) :: rest2) st1
            = Returns true st2
          /\ s_thread_wake_count st2 = THREAD_WAKE_COUNT_CPU_THREAD_IS_WAITING
          /\ s_thread_is_done_semaphore st2 = s_thread_is_done_semaphore st - 1
          /\ SleepGPUThread false ((s_thread_wake_count st2, true) :: rest3) st2
             = Returns false st3
          /\ s_thread_wake_count st3 = THREAD_WAKE_COUNT_SLEEPING
          /\ s_thread_is_done_semaphore st3 = s_thread_is_done_semaphore st)
    /\ (w = 0 ->
        exists st3,
          SleepGPUThread false ((s_thread_wake_count st1, true) :: rest3) st1
            = Returns false st3
          /\ s_thread_wake_count st3 = THREAD_WAKE_COUNT_SLEEPING
          /\ s_thread_is_done_semaphore st3 = s_thread_is_done_semaphore st).
Proof.
  intros Hw Hflag.
  assert (Hcnt : GetThreadWakeCount w = w).
  { rewrite GetThreadWakeCount_sub, Hflag. lia. }
  destruct (SyncGPUThread_without_spin loads w true rest1 st) as [_ Hblock].
  destruct (Hblock ltac:(lia) eq_refl) as (st1 & E1 & Hw1 & Hd1 & _).
  exists st1. split; [exact E1|]. split; [exact Hw1|]. split; [exact Hd1|].
  rewrite Hw1.
  pose proof (GetThreadWakeCount_lor_flag w) as Hc1. rewrite Hcnt in Hc1.
  pose proof (flag_set_by_lor w) as Hf1.
  split.
  - intros Hpos.
    destruct (SleepGPUThread_first_exchange allow_sleep
                (Z.lor w THREAD_WAKE_COUNT_CPU_THREAD_IS_WAITING) rest2 st1) as [E2 _].
    cbv zeta in E2. rewrite (E2 ltac:(lia)). rewrite Hf1.
    eexists. eexists. split; [reflexivity|]. split; [reflexivity|].
    split; [exact Hd1|]. simpl s_thread_wake_count.
    split; [reflexivity|]. split; [reflexivity|]. simpl. lia.
  - intros ->.
    eexists. split; [reflexivity|]. split; [reflexivity|]. simpl. lia.
Qed.

(** ** From the facade to the handlers *)

Lemma PushCommandAndWakeThread_trace cmd st :
  trace (PushCommandAndWakeThread cmd st)
    = trace st ++ FetchAddWritePtr memory_order_release (size_at cmd st)
        :: FetchAddWakeCount memory_order_release 2
        :: (if s_thread_wake_count st <? 0 then [Post thread_wake_semaphore] else []).
Proof.
  unfold PushCommandAndWakeThread. rewrite WakeGPUThread_trace. simpl.
  rewrite <- app_assoc. reflexivity.
Qed.

Lemma aligned_size_positive size : 0 < size -> size <= (size + 3) / 4 * 4.
Proof.
  intros H. pose proof (Z.div_mod (size + 3) 4 ltac:(lia)).
  pose proof (Z.mod_pos_bound (size + 3) 4 ltac:(lia)). lia.
Qed.

(** A slot handed out at the write pointer, filled and published, when
    there is room before the end of the ring. *)
Lemma allocate_fill_publish read_ptr command size0 fill st :
  let size := (size0 + 3) / 4 * 4 in
  let q := m_command_fifo_write_ptr st in
  let filled payload := match fill with Some bytes => bytes | None => payload end in
  0 < size0 -> 0 <= sizeof_GPUBackendCommand ->
  0 <= q -> read_ptr <= q ->
  size + sizeof_GPUBackendCommand <= COMMAND_QUEUE_SIZE - q ->
  exists stA payload,
    AllocateCommand [read_ptr] command size0 st = Returns q stA
    /\ let stF := match fill with Some bytes => fill_payload q bytes stA | None => stA end in
       let st' := PushCommandAndWakeThread q stF in
       m_command_fifo_data st'
         = <[q := mkCommand command size (filled payload)]> (m_command_fifo_data st)
       /\ m_command_fifo_write_ptr st' = q + size
       /\ m_command_fifo_read_ptr st' = m_command_fifo_read_ptr st
       /\ s_requested_vsync st' = s_requested_vsync st
       /\ s_requested_allow_present_throttle st' = s_requested_allow_present_throttle st
       /\ trace st'
          = trace st ++
            [LoadReadPtr memory_order_acquire read_ptr;
             LoadWritePtr memory_order_relaxed q;
             WriteHeader q command size;
             FetchAddWritePtr memory_order_release size;
             FetchAddWakeCount memory_order_release 2]
            ++ (if s_thread_wake_count st <? 0 then [Post thread_wake_semaphore] else []).
Proof.
  intros size q filled Hsz HszC Hq Hr Hroom.
  pose proof (aligned_size_positive _ Hsz) as Hle. fold size in Hle.
  pose proof COMMAND_QUEUE_SIZE_eq as HC.
  unfold AllocateCommand.
  rewrite (aligned_size_u32 size0) by lia. fold size.
  rewrite AllocateCommand_loop_fits by (fold q; lia). fold q.
  set (stA := write_header q command size (observe_pointers read_ptr st)).
  exists stA, (from_option cmd_payload [] (m_command_fifo_data st !! q)).
  split; [reflexivity|].
  set (stF := match fill with Some bytes => fill_payload q bytes stA | None => stA end).
  assert (HF : m_command_fifo_data stF
               = <[q := mkCommand command size
                          (filled (from_option cmd_payload [] (m_command_fifo_data st !! q)))]>
                   (m_command_fifo_data st)
               /\ m_command_fifo_write_ptr stF = q
               /\ m_command_fifo_read_ptr stF = m_command_fifo_read_ptr st
               /\ s_thread_wake_count stF = s_thread_wake_count st
               /\ s_requested_vsync stF = s_requested_vsync st
               /\ s_requested_allow_present_throttle stF = s_requested_allow_present_throttle st
               /\ trace stF
                  = trace st ++
                    [LoadReadPtr memory_order_acquire read_ptr;
                     LoadWritePtr memory_order_relaxed q;
                     WriteHeader q command size]).
  { subst stF filled. destruct fill as [bytes|].
    - unfold fill_payload. subst stA. unfold write_header. simpl m_command_fifo_data.
      rewrite lookup_insert_eq. simpl. rewrite insert_insert_eq.
      repeat split. rewrite <- !app_assoc. reflexivity.
    - subst stA. unfold write_header. simpl.
      repeat split. rewrite <- !app_assoc. reflexivity. }
  destruct HF as (Hf & Hw & Hrd & Hwk & Hv & Ht & Htr).
  assert (Hsize : size_at q stF = size).
  { unfold size_at. rewrite Hf, lookup_insert_eq. reflexivity. }
  cbv zeta.
  pose proof (PushCommandAndWakeThread_fields q stF) as P. cbv zeta in P.
  destruct P as (Pf & Pr & Pw & _ & _).
  rewrite Pf, Pr, Pw, Hf, Hw, Hrd, Hsize, PushCommandAndWakeThread_trace, Hsize, Htr, Hwk.
  rewrite u32_small by (change (2 ^ 32) with 4294967296; lia).
  repeat split.
  - unfold PushCommandAndWakeThread.
    destruct (WakeGPUThread_frame (fetch_add_write_ptr memory_order_release (size_at q stF) stF))
      as (_ & _ & _ & _ & E & _).
    rewrite E. exact Hv.
  - unfold PushCommandAndWakeThread.
    destruct (WakeGPUThread_frame (fetch_add_write_ptr memory_order_release (size_at q stF) stF))
      as (_ & _ & _ & _ & _ & E).
    rewrite E. exact Ht.
  - rewrite <- !app_assoc. reflexivity.
Qed.

Lemma async_calls_total size funcs :
  total_size (async_calls size funcs) = Z.of_nat (length funcs) * size.
Proof.
  induction funcs as [|f funcs IH]; [reflexivity|].
  simpl total_size. simpl length. rewrite IH. lia.
Qed.

Lemma async_calls_length size funcs : length (async_calls size funcs) = length funcs.
Proof. apply length_map. Qed.

(** Replaying the consumer's events moves the read pointer only. *)
Lemma replay_frame es st :
  m_command_fifo_write_ptr (replay es st) = m_command_fifo_write_ptr st
  /\ s_thread_wake_count (replay es st) = s_thread_wake_count st
  /\ s_thread_wake_semaphore (replay es st) = s_thread_wake_semaphore st
  /\ s_thread_is_done_semaphore (replay es st) = s_thread_is_done_semaphore st
  /\ s_requested_vsync (replay es st) = s_requested_vsync st
  /\ s_requested_allow_present_throttle (replay es st) = s_requested_allow_present_throttle st.
Proof.
  revert st. induction es as [|e es IH]; intros st; [repeat split|].
  simpl. destruct (IH (apply_event st e)) as (H1 & H2 & H3 & H4 & H5 & H6).
  rewrite H1, H2, H3, H4, H5, H6. destruct e; repeat split.
Qed.

Lemma async_calls_are_commands size funcs :
  0 < size -> Forall is_command (async_calls size funcs).
Proof.
  intros H. induction funcs as [|f funcs IH]; constructor; [|exact IH].
  split; [discriminate|exact H].
Qed.

(** Calls of [RunOnThread] that all find room before the end of the ring
    lay their slots out back to back and leave the earlier contents of the
    ring alone. *)
Lemma RunOnThread_each_placed read_ptr funcs st :
  let size := (sizeof_GPUThreadAsyncCallCommand + 3) / 4 * 4 in
  let q := m_command_fifo_write_ptr st in
  let n := Z.of_nat (length funcs) in
  0 < sizeof_GPUThreadAsyncCallCommand -> 0 <= sizeof_GPUBackendCommand ->
  0 <= q -> read_ptr <= q ->
  q + n * size + sizeof_GPUBackendCommand <= COMMAND_QUEUE_SIZE ->
  exists st1,
    RunOnThread_each read_ptr funcs st = Returns tt st1
    /\ m_command_fifo_write_ptr st1 = q + n * size
    /\ m_command_fifo_read_ptr st1 = m_command_fifo_read_ptr st
    /\ placed (m_command_fifo_data st1) q (async_calls size funcs)
    /\ (forall off, off < q -> m_command_fifo_data st1 !! off = m_command_fifo_data st !! off).
Proof.
  intros size. revert st.
  induction funcs as [|func funcs IH]; intros st q n Hsz HszC Hq Hr Hroom.
  - exists st. subst n. simpl. repeat split. lia.
  - pose proof (aligned_size_positive _ Hsz) as Hle. fold size in Hle.
    assert (Hn : n = 1 + Z.of_nat (length funcs)) by (subst n; simpl length; lia).
    destruct (allocate_fill_publish read_ptr AsyncCall sizeof_GPUThreadAsyncCallCommand
                (Some [func]) st Hsz HszC Hq Hr) as (stA & payload & EA & P).
    { fold size q. nia. }
    cbv zeta in P. fold size q in P. destruct P as (Pf & Pw & Pr & _ & _ & _).
    simpl RunOnThread_each. unfold RunOnThread. fold q in EA. rewrite EA.
    set (st' := PushCommandAndWakeThread q (fill_payload q [func] stA)) in *.
    destruct (IH st') as (st1 & E1 & Hw1 & Hr1 & Hp1 & Hlow).
    + exact Hsz.
    + exact HszC.
    + rewrite Pw. lia.
    + rewrite Pw. lia.
    + rewrite Pw. nia.
    + exists st1. rewrite Pw in *. split; [exact E1|].
      split; [rewrite Hw1; nia|]. split; [rewrite Hr1; exact Pr|].
      split.
      * simpl. split.
        -- rewrite Hlow by lia. rewrite Pf. apply lookup_insert_eq.
        -- exact Hp1.
      * intros off Hoff. rewrite Hlow by lia. rewrite Pf.
        apply lookup_insert_ne. lia.
Qed.

(** X7.  Commands queued with [RunOnThread] run in the order queued, each
    once.  From an empty ring with room for [n] slots before its end, [n]
    calls lay their slots out back to back from the write pointer and leave
    [n] times the slot size pending; the next iteration of the consumer loop
    dispatches the callables one by one, in the order of the calls, stores
    the read pointer with release, and leaves the ring empty again. *)
Theorem RunOnThread_runs_in_order funcs fuel st :
  let size := (sizeof_GPUThreadAsyncCallCommand + 3) / 4 * 4 in
  let p := m_command_fifo_write_ptr st in
  let n := Z.of_nat (length funcs) in
  0 < sizeof_GPUThreadAsyncCallCommand -> 0 <= sizeof_GPUBackendCommand ->
  funcs <> [] ->
  0 <= p -> m_command_fifo_read_ptr st = p ->
  p + n * size + sizeof_GPUBackendCommand <= COMMAND_QUEUE_SIZE ->
  exists st1 st2,
    RunOnThread_each p funcs st = Returns tt st1
    /\ m_command_fifo_write_ptr st1 = p + n * size
    /\ GetPendingCommandSize st1 = n * size
    /\ RunGPULoop_iteration (length funcs + fuel) [m_command_fifo_write_ptr st1] st1
       = Returns BatchDrained st2
    /\ trace st2
       = trace st1 ++
         [LoadWritePtr memory_order_acquire (p + n * size);
          LoadReadPtr memory_order_relaxed p]
         ++ dispatches p (async_calls size funcs)
         ++ [StoreReadPtr memory_order_release (p + n * size)]
    /\ dispatched_commands (dispatches p (async_calls size funcs)) = async_calls size funcs
    /\ m_command_fifo_read_ptr st2 = m_command_fifo_write_ptr st2
    /\ GetPendingCommandSize st2 = 0.
Proof.
  intros size p n Hsz HszC Hne Hp Hread Hroom.
  pose proof (aligned_size_positive _ Hsz) as Hle. fold size in Hle.
  pose proof COMMAND_QUEUE_SIZE_eq as HC.
  assert (Hn : 1 <= n) by (subst n; destruct funcs; [congruence|simpl length; lia]).
  destruct (RunOnThread_each_placed p funcs st Hsz HszC Hp ltac:(fold p; lia) Hroom)
    as (st1 & E1 & Hw1 & Hr1 & Hp1 & _).
  fold size p n in Hw1, Hp1. rewrite Hread in Hr1.
  exists st1.
  assert (Hpend1 : GetPendingCommandSize st1 = n * size).
  { rewrite GetPendingCommandSize_cases by (rewrite ?Hw1, ?Hr1; nia).
    rewrite Hw1, Hr1. destruct (Z.leb_spec p (p + n * size)); [lia|nia]. }
  unfold RunGPULoop_iteration. rewrite Hw1. simpl m_command_fifo_read_ptr. rewrite Hr1.
  destruct (Z.eqb_spec p (p + n * size)) as [Heq|_]; [nia|].
  destruct (Z.ltb_spec (p + n * size) p) as [|_]; [nia|].
  set (stL := emit (LoadReadPtr memory_order_relaxed p)
                (emit (LoadWritePtr memory_order_acquire (p + n * size)) st1)).
  pose proof (RunGPULoop_drain_commands (async_calls size funcs) fuel [] p (p + n * size) stL)
    as D.
  rewrite async_calls_total in D. fold n in D.
  rewrite async_calls_length in D.
  rewrite D; [|apply async_calls_are_commands; lia|exact Hp1|exact Hp|lia|nia].
  rewrite RunGPULoop_drain_done.
  eexists. split; [exact E1|]. split; [reflexivity|]. split; [exact Hpend1|].
  split; [reflexivity|].
  split.
  { simpl trace. rewrite replay_trace. subst stL. simpl trace.
    rewrite <- !app_assoc. reflexivity. }
  split; [apply dispatched_commands_dispatches|].
  assert (Hw2 : m_command_fifo_write_ptr
                  (store_read_ptr memory_order_release (p + n * size)
                     (replay (dispatches p (async_calls size funcs)) stL))
                = p + n * size).
  { simpl. destruct (replay_frame (dispatches p (async_calls size funcs)) stL) as [E _].
    rewrite E. exact Hw1. }
  split.
  - rewrite Hw2. reflexivity.
  - rewrite GetPendingCommandSize_cases by (rewrite ?Hw2; simpl; nia).
    rewrite Hw2. simpl m_command_fifo_read_ptr.
    rewrite Z.leb_refl. lia.
Qed.


(** ** Who writes what *)




(** ** Backend and device over the life of the thread *)

(** X10.  What [CreateGPUBackendOnThread] leaves behind when it returns.
    The device is untouched.  With no renderer requested nothing changes.
    With one requested, a backend is installed, and its kind agrees with the
    renderer requested at exit: either the renderer is the one requested at
    entry, or a hardware renderer was requested, its backend failed to
    initialise, and the request itself has been changed to the software
    renderer.  A hardware backend is left installed only if its [Initialize]
    succeeded. *)
Theorem CreateGPUBackendOnThread_postcondition host clear_vram ds ds' :
  CreateGPUBackendOnThread host clear_vram ds = Returns tt ds' ->
  g_gpu_device ds' = g_gpu_device ds
  /\ s_render_api ds' = s_render_api ds
  /\ s_gpu_backend ds = None
  /\ (s_requested_renderer ds = None -> ds' = ds)
  /\ (forall renderer,
        s_requested_renderer ds = Some renderer ->
        exists backend,
          s_gpu_backend ds' = Some backend
          /\ (backend_kind backend = SoftwareBackend
              <-> s_requested_renderer ds' = Some GPURenderer_Software)
          /\ (backend_kind backend = HardwareBackend ->
              backend_initialize backend = Some true)
          /\ (s_requested_renderer ds' = Some renderer
              \/ (renderer <> GPURenderer_Software
                  /\ s_requested_renderer ds' = Some GPURenderer_Software
                  /\ backend = mkBackend SoftwareBackend None))).
Proof.
  unfold CreateGPUBackendOnThread. intros H.
  destruct (s_gpu_backend ds) as [b|] eqn:Hb; [discriminate|].
  destruct (s_requested_renderer ds) as [r|] eqn:Hr.
  2: { injection H as <-. repeat split; auto; discriminate. }
  assert (Hcases :
    forall renderer, Some r = Some renderer ->
      (g_gpu_device ds' = g_gpu_device ds /\ s_render_api ds' = s_render_api ds)
      /\ exists backend,
          s_gpu_backend ds' = Some backend
          /\ (backend_kind backend = SoftwareBackend
              <-> s_requested_renderer ds' = Some GPURenderer_Software)
          /\ (backend_kind backend = HardwareBackend ->
              backend_initialize backend = Some true)
          /\ (s_requested_renderer ds' = Some renderer
              \/ (renderer <> GPURenderer_Software
                  /\ s_requested_renderer ds' = Some GPURenderer_Software
                  /\ backend = mkBackend SoftwareBackend None))).
  { intros renderer [= <-].
    destruct (bool_decide (r = GPURenderer_Software)) eqn:Hsw; simpl in H.
    - apply bool_decide_eq_true in Hsw.
      destruct (software_backend_created host); [|discriminate]. simpl in H.
      destruct (backend_initialize_result host); injection H as <-; simpl;
        (split; [split; reflexivity|]); eexists; (split; [reflexivity|]); simpl;
        rewrite Hr, Hsw; repeat split; auto; discriminate.
    - apply bool_decide_eq_false in Hsw.
      destruct (hardware_backend_created host); [|discriminate]. simpl in H.
      destruct (backend_initialize_result host).
      + injection H as <-. simpl. split; [split; reflexivity|].
        eexists. split; [reflexivity|]. simpl. rewrite Hr.
        repeat split; auto; try discriminate. intros [= ->]. contradiction.
      + destruct (software_backend_created host); [|discriminate].
        injection H as <-. simpl. split; [split; reflexivity|].
        eexists. split; [reflexivity|]. simpl.
        repeat split; auto; try discriminate. }
  destruct (Hcases r eq_refl) as ((Hd & Ha) & _).
  repeat split; try assumption; try discriminate.
  intros renderer E. apply Hcases. exact E.
Qed.

(** [CreateGPUBackendOnThread] never touches the device, however it
    ends, and its lifecycle events are about backends only. *)
Lemma CreateGPUBackendOnThread_device_frame host clear_vram ds :
  let ds' := outcome_state (CreateGPUBackendOnThread host clear_vram ds) in
  g_gpu_device ds' = g_gpu_device ds
  /\ s_render_api ds' = s_render_api ds
  /\ exists es, lifecycle ds' = lifecycle ds ++ es
                /\ Forall (fun e => is_device_event e = false) es
                /\ backend_inside_device false es = true.
Proof.
  unfold CreateGPUBackendOnThread.
  destruct (s_gpu_backend ds); [simpl; repeat split; exists []; rewrite app_nil_r; auto|].
  destruct (s_requested_renderer ds) as [r|];
    [|simpl; repeat split; exists []; rewrite app_nil_r; auto].
  destruct (bool_decide (r = GPURenderer_Software)); simpl;
    destruct (software_backend_created host), (hardware_backend_created host),
      (backend_initialize_result host); simpl; repeat split;
    rewrite <- ?app_assoc; simpl; eexists; (split; [reflexivity|]);
    (split; [repeat constructor|reflexivity]).
Qed.




(** X13.  When the device is kept.  With no renderer requested, with the
    software renderer requested, or with a renderer whose API is the current
    one, [ChangeGPUBackendOnThread] neither destroys nor creates a device,
    however it ends. *)
Theorem ChangeGPUBackendOnThread_keeps_device host_switch host_revert host_backend ds :
  s_requested_renderer ds = None
  \/ s_requested_renderer ds = Some GPURenderer_Software
  \/ (exists renderer,
        s_requested_renderer ds = Some renderer
        /\ IsSameRenderAPI (s_render_api ds) (GetRenderAPIForRenderer renderer) = true) ->
  let ds' :=
    outcome_state
      (GPUThread_ChangeGPUBackendOnThread host_switch host_revert host_backend ds) in
  g_gpu_device ds' = g_gpu_device ds
  /\ s_render_api ds' = s_render_api ds
  /\ exists es,
       lifecycle ds' = lifecycle ds ++ es
       /\ Forall (fun e => is_device_event e = false) es.
Proof.
  intros Hcase ds'. subst ds'. unfold GPUThread_ChangeGPUBackendOnThread.
  assert (Hrecreate :
    let ds1 := DestroyGPUBackendOnThread ds in
    let ds' := outcome_state (CreateGPUBackendOnThread host_backend false ds1) in
    g_gpu_device ds' = g_gpu_device ds
    /\ s_render_api ds' = s_render_api ds
    /\ exists es,
         lifecycle ds' = lifecycle ds ++ es
         /\ Forall (fun e => is_device_event e = false) es).
  { intros ds1.
    destruct (CreateGPUBackendOnThread_device_frame host_backend false ds1)
      as (Fd & Fa & es & Fl & Fe & _).
    cbv zeta. rewrite Fd, Fa, Fl. subst ds1. unfold DestroyGPUBackendOnThread.
    destruct (s_gpu_backend ds); simpl.
    - repeat split. exists (DestroyBackend :: es). rewrite <- app_assoc.
      split; [reflexivity|]. constructor; [reflexivity|exact Fe].
    - repeat split. exists es. split; [reflexivity|exact Fe]. }
  cbv zeta in Hrecreate.
  destruct (s_requested_renderer ds) as [r|] eqn:Hr.
  2: { unfold DestroyGPUBackendOnThread.
       destruct (s_gpu_backend ds); simpl; repeat split.
       - exists [DestroyBackend]. split; [reflexivity|]. repeat constructor.
       - exists []. rewrite app_nil_r. split; [reflexivity|constructor]. }
  destruct (s_gpu_backend ds) as [b|] eqn:Hb.
  2: { simpl. repeat split. exists []. rewrite app_nil_r. split; [reflexivity|constructor]. }
  destruct (bool_decide (r = GPURenderer_Software)) eqn:Hsw; [exact Hrecreate|].
  apply bool_decide_eq_false in Hsw.
  destruct Hcase as [H|[H|(r' & H & Hsame)]]; [discriminate|congruence|].
  injection H as <-.
  cbv zeta.
  replace (s_render_api (DestroyGPUBackendOnThread ds)) with (s_render_api ds)
    by (unfold DestroyGPUBackendOnThread; destruct (s_gpu_backend ds); reflexivity).
  rewrite Hsame. exact Hrecreate.
Qed.


(** X15.  A thread started without a renderer, as [StartFullscreenUI] starts
    it, comes up with a device and no backend.  When a renderer is requested
    afterwards, as [CreateGPUBackend] does on a started thread,
    [ChangeGPUBackendOnThread] dereferences the null backend pointer: it
    reads back the old frame buffer before it looks at anything else. *)
Theorem ChangeGPUBackendOnThread_after_start_without_renderer
    host_device host_backend ds :
  let api := GetRenderAPIForRenderer (g_gpu_settings_gpu_renderer ds) in
  s_requested_renderer ds = None ->
  s_gpu_backend ds = None ->
  device_created host_device && imgui_initialized host_device = true ->
  exists ds1,
    RunGPULoop_startup host_device host_backend ds = Returns true ds1
    /\ g_gpu_device ds1 = Some api
    /\ s_gpu_backend ds1 = None
    /\ lifecycle ds1 = lifecycle ds ++ [CreateDevice api true]
    /\ forall renderer host_switch host_revert host_backend',
         GPUThread_ChangeGPUBackendOnThread host_switch host_revert host_backend'
           (set_requested_renderer (Some renderer) ds1)
         = Undefined (set_requested_renderer (Some renderer) ds1).
Proof.
  intros api Hr Hb Hdev. unfold RunGPULoop_startup, CreateDeviceOnThread.
  rewrite Hr, Hdev. simpl default. fold api.
  unfold CreateGPUBackendOnThread. simpl s_gpu_backend. rewrite Hb.
  simpl s_requested_renderer. rewrite Hr.
  eexists. split; [reflexivity|]. simpl. repeat split; [exact Hb|].
  intros renderer h1 h2 h3. unfold GPUThread_ChangeGPUBackendOnThread. simpl.
  rewrite Hb. reflexivity.
Qed.

Ltac lifecycle_cases :=
  repeat (match goal with
          | |- context [bool_decide ?P] => destruct (bool_decide P)
          | |- context [device_created ?h && imgui_initialized ?h] =>
              destruct (device_created h && imgui_initialized h)
          | |- context [hardware_backend_created ?h] => destruct (hardware_backend_created h)
          | |- context [software_backend_created ?h] => destruct (software_backend_created h)
          | |- context [backend_initialize_result ?h] =>
              destruct (backend_initialize_result h)
          | |- context [IsSameRenderAPI ?a ?b] => destruct (IsSameRenderAPI a b)
          end; simpl).

Ltac split_events :=
  first [ exists []; split; [symmetry; apply app_nil_r|]
        | rewrite <- ?app_assoc; eexists; split; [reflexivity|] ].

Ltac lifecycle_events := split_events; reflexivity.

(** X16.  A backend never outlives its device.  In the lifecycle events that
    [ChangeGPUBackendOnThread], [HandleGPUDeviceLost], the start of
    [RunGPULoop] and its end add, however they end, a device is destroyed or
    created only while no backend exists. *)
Theorem backend_never_outlives_device :
  let alive ds := match s_gpu_backend ds with Some _ => true | None => false end in
  (forall host_switch host_revert host_backend ds,
      exists es,
        lifecycle (outcome_state
                     (GPUThread_ChangeGPUBackendOnThread host_switch host_revert
                        host_backend ds))
        = lifecycle ds ++ es
        /\ backend_inside_device (alive ds) es = true)
  /\ (forall host now ds,
        exists es,
          lifecycle (outcome_state (HandleGPUDeviceLost host now ds)) = lifecycle ds ++ es
          /\ backend_inside_device (alive ds) es = true)
  /\ (forall host_device host_backend ds,
        s_gpu_backend ds = None ->
        exists es,
          lifecycle (outcome_state (RunGPULoop_startup host_device host_backend ds))
          = lifecycle ds ++ es
          /\ backend_inside_device false es = true)
  /\ (forall ds,
        exists es,
          lifecycle (RunGPULoop_teardown ds) = lifecycle ds ++ es
          /\ backend_inside_device (alive ds) es = true
          /\ s_gpu_backend (RunGPULoop_teardown ds) = None
          /\ g_gpu_device (RunGPULoop_teardown ds) = None).
Proof.
  intros alive.
  split; [|split; [|split]].
  - intros h1 h2 h3 ds.
    unfold GPUThread_ChangeGPUBackendOnThread, CreateGPUBackendOnThread,
      DestroyGPUBackendOnThread, DestroyDeviceOnThread, CreateDeviceOnThread, alive.
    destruct ds as [api dev backend requested setting last events].
    destruct requested as [r|], backend as [b|], dev as [d|]; simpl;
      lifecycle_cases; lifecycle_events.
  - intros host now ds. unfold HandleGPUDeviceLost, alive.
    destruct (_ && _); [simpl; lifecycle_events|].
    unfold CreateGPUBackendOnThread, DestroyGPUBackendOnThread, DestroyDeviceOnThread,
      CreateDeviceOnThread.
    destruct ds as [api dev backend requested setting last events].
    destruct requested as [r|], backend as [b|], dev as [d|]; simpl;
      lifecycle_cases; lifecycle_events.
  - intros hd hb ds Hb.
    unfold RunGPULoop_startup, CreateGPUBackendOnThread, CreateDeviceOnThread.
    destruct ds as [api dev backend requested setting last events].
    simpl in Hb. subst backend.
    destruct requested as [r|]; simpl; lifecycle_cases; lifecycle_events.
  - intros ds.
    unfold RunGPULoop_teardown, DestroyGPUBackendOnThread, DestroyDeviceOnThread, alive.
    destruct ds as [api dev backend requested setting last events].
    destruct backend, dev; simpl; split_events; repeat split.
Qed.

(** ** Presentation *)

(** What happens to the device state and the counters during one call
    without a device loss, and which calls are made. *)
Lemma PresentFrame_without_loss h allow_skip_present present_time p :
  has_device p = true ->
  allow_skip_present && should_skip_presenting_frame h = true
  \/ present_result h <> PresentResult_DeviceLost ->
  let skip := allow_skip_present && should_skip_presenting_frame h in
  let presented :=
    negb skip && bool_decide (present_result h = PresentResult_OK) in
  let explicit_present := negb (present_time =? 0) && features_explicit_present h in
  let was_updated := s_performance_counters_updated (perf p) in
  let frames := u32 (s_presents_since_last_update (perf p) + 1) in
  exists p' made,
    PresentFrame h allow_skip_present present_time p = Returns tt p'
    /\ device_state p' = device_state p
    /\ s_performance_counters_updated (perf p') = true
    /\ s_presents_since_last_update (perf p') = (if was_updated then frames else 0)
    /\ s_last_performance_counter_update_time (perf p')
       = (if was_updated then s_last_performance_counter_update_time (perf p)
          else current_time h)
    /\ s_average_gpu_time (perf p')
       = (if negb was_updated && is_gpu_timing_enabled h
          then float_div (s_accumulated_gpu_time (perf p)) (float_of_u32 (Z.max frames 1))
          else s_average_gpu_time (perf p))
    /\ calls p' = calls p ++ made
    /\ made
       = before_new_frame made ++
         ImGuiManager_NewFrame :: (if has_backend p then [RestoreDeviceContext] else [])
    /\ List.filter is_UpdateStatistics made
       = (if negb was_updated && display_show_gpu_stats h
          then [UpdateStatistics frames] else [])
    /\ List.filter closes_frame (before_new_frame made)
       = (if presented
          then [EndPresent explicit_present (if explicit_present then present_time else 0)]
          else [ImGui_EndFrame])
    /\ (In RenderImGui made <-> presented = true).
Proof.
  intros Hdev Hstay. cbv zeta.
  destruct p as [ds s cs]. destruct s as [last presents acc avg usage updated].
  unfold PresentFrame, UpdatePerformanceCountersOnThread, device_query, device_call,
    has_backend, has_device in *.
  cbn [device_state perf calls set_perf call s_performance_counters_updated
       s_presents_since_last_update s_last_performance_counter_update_time
       s_accumulated_gpu_time s_average_gpu_time s_gpu_usage] in *.
  destruct ds as [api dev backend requested setting reset events].
  cbn [g_gpu_device s_gpu_backend] in *.
  destruct dev as [d|]; [clear Hdev|discriminate].
  destruct backend as [b|], updated; cbn -[u32] in *;
    repeat (match goal with
            | |- context [if ?c then _ else _] =>
                match c with
                | allow_skip_present => destruct allow_skip_present
                | should_skip_presenting_frame h => destruct (should_skip_presenting_frame h)
                | (present_time =? 0) => destruct (present_time =? 0)
                | features_explicit_present h => destruct (features_explicit_present h)
                | system_is_running h => destruct (system_is_running h)
                | is_gpu_timing_enabled h => destruct (is_gpu_timing_enabled h)
                | display_show_gpu_stats h => destruct (display_show_gpu_stats h)
                end
            | |- context [match present_result h with _ => _ end] =>
                destruct (present_result h) eqn:Hres
            | |- context [bool_decide (present_result h = _)] =>
                destruct (present_result h) eqn:Hres
            end; cbn -[u32] in *);
    try (destruct Hstay as [Hstay|Hstay]; [discriminate Hstay|]);
    try congruence;
    (eexists; eexists;
     split; [reflexivity|]; cbn -[u32];
     repeat (split; [reflexivity|]);
     split; [rewrite <- ?app_assoc; cbn -[u32]; reflexivity|];
     do 3 (split; [reflexivity|]);
     split;
     [ intros Hin;
       first [ reflexivity
             | exfalso; cbn in Hin;
               repeat (destruct Hin as [Hin|Hin]; [discriminate Hin|]); exact Hin ]
     | intros Hp;
       first [ discriminate Hp
             | cbn; repeat (first [left; reflexivity | right]) ] ]).
Qed.

Ltac present_cases h allow_skip_present present_time :=
  repeat (match goal with
          | |- context [if ?c then _ else _] =>
              match c with
              | allow_skip_present => destruct allow_skip_present
              | should_skip_presenting_frame h => destruct (should_skip_presenting_frame h)
              | (present_time =? 0) => destruct (present_time =? 0)
              | features_explicit_present h => destruct (features_explicit_present h)
              | system_is_running h => destruct (system_is_running h)
              | is_gpu_timing_enabled h => destruct (is_gpu_timing_enabled h)
              | display_show_gpu_stats h => destruct (display_show_gpu_stats h)
              end
          end; cbn -[u32] in *).

(** The same when an un-skipped present reports the device lost: the
    call ends as [HandleGPUDeviceLost] ends. *)
Lemma PresentFrame_with_loss h allow_skip_present present_time p :
  has_device p = true ->
  allow_skip_present && should_skip_presenting_frame h = false ->
  present_result h = PresentResult_DeviceLost ->
  match HandleGPUDeviceLost (recovery h) (device_lost_time h) (device_state p) with
  | Returns _ ds =>
      exists p' made,
        PresentFrame h allow_skip_present present_time p = Returns tt p'
        /\ device_state p' = ds
        /\ s_presents_since_last_update (perf p') = 0
        /\ calls p' = calls p ++ made
        /\ made
           = before_new_frame made ++
             ImGuiManager_NewFrame :: (if has_backend p' then [RestoreDeviceContext] else [])
        /\ List.filter closes_frame (before_new_frame made) = [ImGui_EndFrame]
        /\ ~ In RenderImGui made
  | Panics msg ds =>
      exists p',
        PresentFrame h allow_skip_present present_time p = Panics msg p'
        /\ device_state p' = ds
  | Spins ds =>
      exists p',
        PresentFrame h allow_skip_present present_time p = Spins p'
        /\ device_state p' = ds
  | Undefined ds =>
      exists p',
        PresentFrame h allow_skip_present present_time p = Undefined p'
        /\ device_state p' = ds
  end.
Proof.
  intros Hdev Hskip Hres.
  destruct p as [ds s cs]. destruct s as [last presents acc avg usage updated].
  unfold PresentFrame, UpdatePerformanceCountersOnThread, device_query, device_call,
    has_backend, has_device in *.
  cbn [device_state perf calls set_perf call s_performance_counters_updated
       s_presents_since_last_update s_last_performance_counter_update_time
       s_accumulated_gpu_time s_average_gpu_time s_gpu_usage] in *.
  rewrite Hres.
  set (lost := HandleGPUDeviceLost (recovery h) (device_lost_time h) ds).
  assert (Elost : HandleGPUDeviceLost (recovery h) (device_lost_time h) ds = lost)
    by reflexivity.
  clearbody lost.
  destruct ds as [api dev backend requested setting reset events].
  cbn [g_gpu_device s_gpu_backend] in *.
  destruct dev as [d|]; [clear Hdev|discriminate].
  destruct backend as [b|], updated; cbn -[u32] in *;
    present_cases h allow_skip_present present_time;
    try discriminate Hskip;
    rewrite ?Elost;
    (destruct lost as [u ds'|msg ds'|ds'|ds']; cbn -[u32];
     [ destruct ds' as [api' dev' backend' requested' setting' reset' events'];
       destruct backend' as [b'|]; cbn -[u32];
       (eexists; eexists; split; [reflexivity|]; cbn -[u32];
        do 2 (split; [reflexivity|]);
        split; [rewrite <- ?app_assoc; cbn -[u32]; reflexivity|];
        do 2 (split; [reflexivity|]);
        intros Hin; cbn in Hin;
        repeat (destruct Hin as [Hin|Hin]; [discriminate Hin|]); exact Hin)
     | eexists; split; reflexivity
     | eexists; split; reflexivity
     | eexists; split; reflexivity ]).
Qed.

(** X17.  [PresentFrame] always closes the overlay's frame and opens the
    next one.  Whenever it returns, the calls it made end with
    [ImGuiManager::NewFrame], followed only by the backend's
    [RestoreDeviceContext] when a backend exists; before that exactly one
    call closed the frame, [EndPresent] or [ImGui::EndFrame]; and
    [RenderImGui] was called exactly when the frame was not skipped and the
    present reported success.  It fails to return only when an un-skipped
    present reports the device lost. *)
Theorem PresentFrame_closes_the_frame h allow_skip_present present_time p :
  let skip := allow_skip_present && should_skip_presenting_frame h in
  let presented := negb skip && bool_decide (present_result h = PresentResult_OK) in
  has_device p = true ->
  match PresentFrame h allow_skip_present present_time p with
  | Returns _ p' =>
      exists made,
        calls p' = calls p ++ made
        /\ made
           = before_new_frame made ++
             ImGuiManager_NewFrame
               :: (if has_backend p' then [RestoreDeviceContext] else [])
        /\ length (List.filter closes_frame (before_new_frame made)) = 1%nat
        /\ (In RenderImGui made <-> presented = true)
  | Panics _ _ | Undefined _ | Spins _ =>
      skip = false /\ present_result h = PresentResult_DeviceLost
  end.
Proof.
  intros skip presented Hdev. subst presented skip.
  destruct (decide (present_result h = PresentResult_DeviceLost)) as [Hlost|Hres];
    [destruct (allow_skip_present && should_skip_presenting_frame h) eqn:Hskip|].
  - destruct (PresentFrame_without_loss h allow_skip_present present_time p Hdev
                (or_introl Hskip))
      as (p' & made & E & Hds & _ & _ & _ & _ & Hc & Hm & _ & Hf & Hi).
    rewrite Hskip in Hf, Hi.
    rewrite E. exists made. unfold has_backend in *. rewrite Hds.
    split; [exact Hc|]. split; [exact Hm|]. split; [|exact Hi].
    rewrite Hf. reflexivity.
  - pose proof (PresentFrame_with_loss h allow_skip_present present_time p Hdev Hskip Hlost)
      as L.
    destruct (HandleGPUDeviceLost _ _ _) as [u ds|msg ds|ds|ds].
    + destruct L as (p' & made & E & _ & _ & Hc & Hm & Hf & Hi).
      rewrite E. exists made.
      split; [exact Hc|]. split; [exact Hm|]. split; [rewrite Hf; reflexivity|].
      rewrite (bool_decide_eq_false_2 (present_result h = PresentResult_OK))
        by (rewrite Hlost; discriminate).
      split; [intros H; contradiction|discriminate].
    + destruct L as (p' & E & _). rewrite E. split; [reflexivity|exact Hlost].
    + destruct L as (p' & E & _). rewrite E. split; [reflexivity|exact Hlost].
    + destruct L as (p' & E & _). rewrite E. split; [reflexivity|exact Hlost].
  - destruct (PresentFrame_without_loss h allow_skip_present present_time p Hdev
                (or_intror Hres))
      as (p' & made & E & Hds & _ & _ & _ & _ & Hc & Hm & _ & Hf & Hi).
    rewrite E. exists made. unfold has_backend in *. rewrite Hds.
    split; [exact Hc|]. split; [exact Hm|]. split; [|exact Hi].
    rewrite Hf. destruct (_ && _); reflexivity.
Qed.

(** X18.  [PresentFrame] touches the device and the backend only to recover
    from a loss.  The device state it ends with is that of
    [HandleGPUDeviceLost] when an un-skipped present reports the device
    lost, and the one it started with in every other case, in which it
    always returns. *)
Theorem PresentFrame_recovers_only_when_lost h allow_skip_present present_time p :
  let lost :=
    negb (allow_skip_present && should_skip_presenting_frame h)
    && bool_decide (present_result h = PresentResult_DeviceLost) in
  has_device p = true ->
  device_state (outcome_state (PresentFrame h allow_skip_present present_time p))
  = (if lost
     then outcome_state
            (HandleGPUDeviceLost (recovery h) (device_lost_time h) (device_state p))
     else device_state p)
  /\ (lost = false ->
      exists p', PresentFrame h allow_skip_present present_time p = Returns tt p').
Proof.
  intros lost Hdev. subst lost.
  destruct (decide (present_result h = PresentResult_DeviceLost)) as [Hlost|Hres];
    [destruct (allow_skip_present && should_skip_presenting_frame h) eqn:Hskip|].
  - destruct (PresentFrame_without_loss h allow_skip_present present_time p Hdev
                (or_introl Hskip)) as (p' & made & E & Hds & _).
    rewrite E. simpl. split; [exact Hds|]. intros _. exists p'. reflexivity.
  - pose proof (PresentFrame_with_loss h allow_skip_present present_time p Hdev Hskip Hlost)
      as L.
    rewrite (bool_decide_eq_true_2 _ Hlost). simpl.
    destruct (HandleGPUDeviceLost _ _ _) as [u ds|msg ds|ds|ds].
    + destruct L as (p' & made & E & Hds & _). rewrite E. split; [exact Hds|discriminate].
    + destruct L as (p' & E & Hds). rewrite E. split; [exact Hds|discriminate].
    + destruct L as (p' & E & Hds). rewrite E. split; [exact Hds|discriminate].
    + destruct L as (p' & E & Hds). rewrite E. split; [exact Hds|discriminate].
  - destruct (PresentFrame_without_loss h allow_skip_present present_time p Hdev
                (or_intror Hres)) as (p' & made & E & Hds & _).
    rewrite E. rewrite (bool_decide_eq_false_2 _ Hres), andb_false_r. simpl.
    split; [exact Hds|]. intros _. exists p'. reflexivity.
Qed.

(** ** Performance counters *)

Lemma filter_UpdateStatistics_app cs1 cs2 :
  List.filter is_UpdateStatistics (cs1 ++ cs2)
    = List.filter is_UpdateStatistics cs1 ++ List.filter is_UpdateStatistics cs2.
Proof. apply List.filter_app. Qed.

(** Frames presented while the counters are up to date only count. *)
Lemma PresentFrame_each_counts frames p :
  let n := Z.of_nat (length frames) in
  let k := s_presents_since_last_update (perf p) in
  has_device p = true ->
  s_performance_counters_updated (perf p) = true ->
  Forall device_stays frames ->
  0 <= k -> k + n < 2 ^ 32 ->
  exists p1,
    PresentFrame_each frames p = Returns tt p1
    /\ device_state p1 = device_state p
    /\ s_presents_since_last_update (perf p1) = k + n
    /\ s_performance_counters_updated (perf p1) = true
    /\ s_last_performance_counter_update_time (perf p1)
       = s_last_performance_counter_update_time (perf p)
    /\ s_average_gpu_time (perf p1) = s_average_gpu_time (perf p)
    /\ List.filter is_UpdateStatistics (calls p1) = List.filter is_UpdateStatistics (calls p).
Proof.
  revert p. induction frames as [|[[h allow] t] frames IH]; intros p n k Hdev Hup Hstay Hk Hn.
  - exists p. subst n k. simpl. repeat split; auto; lia.
  - inversion Hstay as [|? ? Hs Hrest]; subst.
    destruct (PresentFrame_without_loss h allow t p Hdev Hs)
      as (p' & made & E & Hds & Hup' & Hp' & Hl' & Ha' & Hc & _ & Hst & _).
    rewrite Hup in Hp', Hl', Ha', Hst. simpl in Hp', Hl', Ha', Hst.
    assert (Hlen : n = 1 + Z.of_nat (length frames)) by (subst n; simpl length; lia).
    fold k in Hp'. rewrite u32_small in Hp' by lia.
    simpl PresentFrame_each. rewrite E. simpl bind.
    destruct (IH p') as (p1 & E1 & Hds1 & Hp1 & Hup1 & Hl1 & Ha1 & Hst1).
    + unfold has_device in *. rewrite Hds. exact Hdev.
    + exact Hup'.
    + exact Hrest.
    + rewrite Hp'. lia.
    + rewrite Hp'. lia.
    + exists p1. split; [exact E1|]. split; [congruence|].
      split; [rewrite Hp1, Hp'; lia|]. split; [exact Hup1|].
      split; [congruence|]. split; [congruence|].
      rewrite Hst1, Hc, filter_UpdateStatistics_app, Hst, app_nil_r. reflexivity.
Qed.

(** X19.  The frame count of the statistics.  Starting right after an update
    of the counters, [n] frames without a device loss are only counted: the
    statistics are not updated and the reference time stays.  Once
    [SetPerformanceCounterUpdatePending] has been called, the next frame
    updates the counters once: the count handed to the statistics and used
    for the average is [n + 1], the frame being presented included; the
    count restarts from zero and the reference time is the time of this
    update. *)
Theorem PresentFrame_counts_frames frames h allow_skip_present present_time p :
  let n := Z.of_nat (length frames) in
  has_device p = true ->
  s_performance_counters_updated (perf p) = true ->
  s_presents_since_last_update (perf p) = 0 ->
  Forall device_stays frames ->
  device_stays (h, allow_skip_present, present_time) ->
  n + 1 < 2 ^ 32 ->
  exists p1 p2,
    PresentFrame_each frames p = Returns tt p1
    /\ s_presents_since_last_update (perf p1) = n
    /\ s_last_performance_counter_update_time (perf p1)
       = s_last_performance_counter_update_time (perf p)
    /\ List.filter is_UpdateStatistics (calls p1) = List.filter is_UpdateStatistics (calls p)
    /\ PresentFrame h allow_skip_present present_time
         (set_perf (SetPerformanceCounterUpdatePending (perf p1)) p1)
       = Returns tt p2
    /\ s_presents_since_last_update (perf p2) = 0
    /\ s_performance_counters_updated (perf p2) = true
    /\ s_last_performance_counter_update_time (perf p2) = current_time h
    /\ List.filter is_UpdateStatistics (calls p2)
       = List.filter is_UpdateStatistics (calls p)
         ++ (if display_show_gpu_stats h then [UpdateStatistics (n + 1)] else [])
    /\ (is_gpu_timing_enabled h = true ->
        s_average_gpu_time (perf p2)
        = float_div (s_accumulated_gpu_time (perf p1)) (float_of_u32 (n + 1))).
Proof.
  intros n Hdev Hup Hzero Hstay Hlast Hn.
  destruct (PresentFrame_each_counts frames p Hdev Hup Hstay) as
    (p1 & E1 & Hds1 & Hp1 & Hup1 & Hl1 & _ & Hst1).
  { rewrite Hzero. lia. }
  { rewrite Hzero. fold n. lia. }
  rewrite Hzero in Hp1. fold n in Hp1. simpl in Hp1.
  set (pending := set_perf (SetPerformanceCounterUpdatePending (perf p1)) p1).
  assert (Hdev' : has_device pending = true).
  { unfold has_device in *. subst pending. simpl. rewrite Hds1. exact Hdev. }
  destruct (PresentFrame_without_loss h allow_skip_present present_time pending Hdev' Hlast)
    as (p2 & made & E2 & _ & Hup2 & Hp2 & Hl2 & Ha2 & Hc2 & _ & Hst2 & _).
  subst pending. simpl in Hp2, Hl2, Ha2, Hc2, Hst2.
  rewrite Hp1 in Ha2, Hst2. rewrite u32_small in Ha2, Hst2 by lia.
  exists p1, p2.
  split; [exact E1|]. split; [exact Hp1|]. split; [exact Hl1|]. split; [exact Hst1|].
  split; [exact E2|]. split; [exact Hp2|]. split; [exact Hup2|]. split; [exact Hl2|].
  split.
  - rewrite Hc2, filter_UpdateStatistics_app, Hst1, Hst2. reflexivity.
  - intros Ht. rewrite Ht in Ha2. rewrite Ha2. rewrite Z.max_l by lia. reflexivity.
Qed.

(** X20.  A change of the displayed statistics restarts the measuring
    window. With both display settings unchanged [UpdateSettingsOnThread]
    leaves the counters alone.  With either changed it clears the update
    flag and the frame count and takes the current time as reference, so
    that the next frame alone is counted: its update hands the count 1 to
    the statistics and measures from the time of the change. *)
Theorem UpdateSettingsOnThread_restarts_counters now usage stats old_usage old_stats
    h allow_skip_present present_time p :
  has_device p = true ->
  device_stays (h, allow_skip_present, present_time) ->
  (usage = old_usage -> stats = old_stats ->
   exists p1,
     UpdateSettingsOnThread now usage stats old_usage old_stats p = Returns tt p1
     /\ perf p1 = perf p /\ device_state p1 = device_state p)
  /\ (usage <> old_usage \/ stats <> old_stats ->
      exists p1 p2,
        UpdateSettingsOnThread now usage stats old_usage old_stats p = Returns tt p1
        /\ device_state p1 = device_state p
        /\ s_performance_counters_updated (perf p1) = false
        /\ s_presents_since_last_update (perf p1) = 0
        /\ s_last_performance_counter_update_time (perf p1) = now
        /\ (usage <> old_usage -> In (SetGPUTimingEnabled usage) (calls p1))
        /\ PresentFrame h allow_skip_present present_time p1 = Returns tt p2
        /\ s_presents_since_last_update (perf p2) = 0
        /\ s_last_performance_counter_update_time (perf p2) = current_time h
        /\ List.filter is_UpdateStatistics (calls p2)
           = List.filter is_UpdateStatistics (calls p1)
             ++ (if display_show_gpu_stats h then [UpdateStatistics 1] else [])).
Proof.
  intros Hdev Hstay. split.
  - intros -> ->. unfold UpdateSettingsOnThread. rewrite !eqb_reflx. simpl.
    eexists. split; [reflexivity|]. destruct (has_backend p); split; reflexivity.
  - intros Hchanged.
    assert (Hor : negb (eqb usage old_usage) || negb (eqb stats old_stats) = true).
    { destruct usage, old_usage, stats, old_stats; try reflexivity;
        destruct Hchanged; congruence. }
    assert (exists p1,
               UpdateSettingsOnThread now usage stats old_usage old_stats p = Returns tt p1
               /\ device_state p1 = device_state p
               /\ s_performance_counters_updated (perf p1) = false
               /\ s_presents_since_last_update (perf p1) = 0
               /\ s_last_performance_counter_update_time (perf p1) = now
               /\ (usage <> old_usage -> In (SetGPUTimingEnabled usage) (calls p1)))
      as (p1 & E1 & Hds1 & Hup1 & Hp1 & Hl1 & Hcall).
    { unfold UpdateSettingsOnThread. rewrite Hor.
      unfold device_call, has_device, has_backend in *. simpl.
      destruct (g_gpu_device (device_state p)); [|discriminate].
      destruct (negb (eqb usage old_usage)) eqn:Hu; simpl;
        destruct (s_gpu_backend (device_state p)); simpl;
        eexists; (split; [reflexivity|]); simpl; repeat split; intros Hne;
        try (apply in_or_app; right; left; reflexivity);
        try (apply in_or_app; left; apply in_or_app; right; left; reflexivity);
        destruct usage, old_usage; simpl in Hu; congruence. }
    assert (Hdev1 : has_device p1 = true).
    { unfold has_device in *. rewrite Hds1. exact Hdev. }
    destruct (PresentFrame_without_loss h allow_skip_present present_time p1 Hdev1 Hstay)
      as (p2 & made & E2 & _ & _ & Hp2 & Hl2 & _ & Hc2 & _ & Hst2 & _).
    rewrite Hup1 in Hp2, Hl2, Hst2. rewrite Hp1 in Hst2. simpl in Hp2, Hl2, Hst2.
    exists p1, p2. repeat (split; [assumption|]).
    rewrite Hc2, filter_UpdateStatistics_app, Hst2. reflexivity.
Qed.

(** ** The consumer loop *)

Lemma RunGPULoop_iteration_empty fuel write_ptr write_loads st :
  m_command_fifo_read_ptr st = write_ptr ->
  RunGPULoop_iteration fuel (write_ptr :: write_loads) st
    = Returns NothingQueued
        (emit (LoadReadPtr memory_order_relaxed write_ptr)
           (emit (LoadWritePtr memory_order_acquire write_ptr) st)).
Proof.
  intros Hr. unfold RunGPULoop_iteration. simpl m_command_fifo_read_ptr.
  rewrite Hr, Z.eqb_refl. reflexivity.
Qed.

Lemma RunGPULoop_iteration_batch cmds fuel write_ptr write_loads st :
  let read_ptr := m_command_fifo_read_ptr st in
  Forall is_command cmds -> cmds <> [] ->
  placed (m_command_fifo_data st) read_ptr cmds ->
  0 <= read_ptr -> read_ptr + total_size cmds = write_ptr ->
  write_ptr <= COMMAND_QUEUE_SIZE ->
  RunGPULoop_iteration (length cmds + fuel) (write_ptr :: write_loads) st
    = Returns BatchDrained
        (store_read_ptr memory_order_release write_ptr
           (replay (dispatches read_ptr cmds)
              (emit (LoadReadPtr memory_order_relaxed read_ptr)
                 (emit (LoadWritePtr memory_order_acquire write_ptr) st)))).
Proof.
  intros read_ptr Hcmds Hne Hplaced Hr Hw HC.
  assert (Hpos : 0 < total_size cmds).
  { destruct cmds as [|c cmds]; [congruence|].
    inversion Hcmds as [|? ? [_ Hc] Hrest]; subst.
    pose proof (total_size_nonneg cmds Hrest). simpl. lia. }
  unfold RunGPULoop_iteration. simpl m_command_fifo_read_ptr. fold read_ptr.
  destruct (Z.eqb_spec read_ptr write_ptr) as [|_]; [lia|].
  destruct (Z.ltb_spec write_ptr read_ptr) as [|_]; [lia|].
  rewrite RunGPULoop_drain_commands; [|exact Hcmds|exact Hplaced|exact Hr|lia|exact HC].
  rewrite Hw, RunGPULoop_drain_done. reflexivity.
Qed.

Lemma RunGPULoop_loop_turn fuel turn turns idle_frames st :
  RunGPULoop_loop fuel (turn :: turns) idle_frames st
    = match RunGPULoop_iteration fuel (turn_write_loads turn) st with
      | Returns NothingQueued st =>
          if turn_shutdown turn then Returns idle_frames st
          else
            match SleepGPUThread (negb (turn_run_idle turn)) (turn_exchanges turn) st with
            | Returns true st => RunGPULoop_loop fuel turns idle_frames st
            | Returns false st => RunGPULoop_loop fuel turns (S idle_frames) st
            | Panics msg st => Panics msg st
            | Spins st => Spins st
            | Undefined st => Undefined st
            end
      | Returns BatchDrained st => RunGPULoop_loop fuel turns idle_frames st
      | Panics msg st => Panics msg st
      | Spins st => Spins st
      | Undefined st => Undefined st
      end.
Proof. reflexivity. Qed.

(** [SleepGPUThread] never touches the ring. *)
Lemma SleepGPUThread_ring_frame allow_sleep obs st :
  let st' := outcome_state (SleepGPUThread allow_sleep obs st) in
  m_command_fifo_data st' = m_command_fifo_data st
  /\ m_command_fifo_read_ptr st' = m_command_fifo_read_ptr st
  /\ m_command_fifo_write_ptr st' = m_command_fifo_write_ptr st.
Proof.
  revert st. induction obs as [|[old ok] obs IH]; intros st; [repeat split|].
  simpl SleepGPUThread. destruct ok.
  - destruct (0 <? GetThreadWakeCount old); [repeat split|].
    destruct allow_sleep.
    + match goal with |- context [SleepGPUThread true obs ?s] =>
        destruct (IH s) as (H1 & H2 & H3) end.
      cbv zeta. rewrite H1, H2, H3.
      destruct (Z.land old _ =? 0); repeat split.
    + destruct (Z.land old _ =? 0); repeat split.
  - match goal with |- context [SleepGPUThread allow_sleep obs ?s] =>
      destruct (IH s) as (H1 & H2 & H3) end.
    cbv zeta. rewrite H1, H2, H3. repeat split.
Qed.

(** X21.  The shutdown flag is looked at only when the ring is empty.  With
    commands published and not yet read, the turn that finds them dispatches
    every one of them, in order, whatever the flag is; the loop is left at
    the next turn, which finds the ring empty and the flag set. *)
Theorem RunGPULoop_loop_drains_before_exit cmds fuel idle_frames
    shutdown run_idle exchanges run_idle' exchanges' st :
  let read_ptr := m_command_fifo_read_ptr st in
  let write_ptr := m_command_fifo_write_ptr st in
  Forall is_command cmds -> cmds <> [] ->
  placed (m_command_fifo_data st) read_ptr cmds ->
  0 <= read_ptr -> read_ptr + total_size cmds = write_ptr ->
  write_ptr <= COMMAND_QUEUE_SIZE ->
  exists st',
    RunGPULoop_loop (length cmds + fuel)
      [mkTurn [write_ptr] shutdown run_idle exchanges;
       mkTurn [write_ptr] true run_idle' exchanges'] idle_frames st
    = Returns idle_frames st'
    /\ trace st'
       = trace st ++
         [LoadWritePtr memory_order_acquire write_ptr;
          LoadReadPtr memory_order_relaxed read_ptr]
         ++ dispatches read_ptr cmds
         ++ [StoreReadPtr memory_order_release write_ptr;
             LoadWritePtr memory_order_acquire write_ptr;
             LoadReadPtr memory_order_relaxed write_ptr]
    /\ dispatched_commands (trace st') = dispatched_commands (trace st) ++ cmds
    /\ m_command_fifo_read_ptr st' = write_ptr
    /\ m_command_fifo_write_ptr st' = write_ptr
    /\ s_thread_wake_count st' = s_thread_wake_count st.
Proof.
  intros read_ptr write_ptr Hcmds Hne Hplaced Hr Hw HC.
  rewrite RunGPULoop_loop_turn. cbn [turn_write_loads turn_shutdown].
  rewrite (RunGPULoop_iteration_batch cmds fuel write_ptr [] st Hcmds Hne Hplaced Hr Hw HC).
  fold read_ptr. rewrite RunGPULoop_loop_turn. cbn [turn_write_loads turn_shutdown].
  set (st1 := store_read_ptr memory_order_release write_ptr
                (replay (dispatches read_ptr cmds)
                   (emit (LoadReadPtr memory_order_relaxed read_ptr)
                      (emit (LoadWritePtr memory_order_acquire write_ptr) st)))).
  rewrite (RunGPULoop_iteration_empty _ write_ptr [] st1) by reflexivity.
  eexists. split; [reflexivity|].
  destruct (replay_frame (dispatches read_ptr cmds)
              (emit (LoadReadPtr memory_order_relaxed read_ptr)
                 (emit (LoadWritePtr memory_order_acquire write_ptr) st)))
    as (Fw & Fk & _).
  assert (Ht : trace st1
               = trace st ++
                 [LoadWritePtr memory_order_acquire write_ptr;
                  LoadReadPtr memory_order_relaxed read_ptr]
                 ++ dispatches read_ptr cmds
                 ++ [StoreReadPtr memory_order_release write_ptr]).
  { subst st1. simpl trace. rewrite replay_trace. simpl trace.
    rewrite <- !app_assoc. reflexivity. }
  assert (Hrd : m_command_fifo_read_ptr st1 = write_ptr) by reflexivity.
  assert (Hwr : m_command_fifo_write_ptr st1 = write_ptr).
  { subst st1. simpl. rewrite Fw. reflexivity. }
  assert (Hwk : s_thread_wake_count st1 = s_thread_wake_count st).
  { subst st1. simpl. rewrite Fk. reflexivity. }
  clearbody st1. simpl.
  split; [|split; [|split; [|split]]]; try assumption.
  - rewrite Ht, <- !app_assoc. reflexivity.
  - rewrite Ht, !dispatched_commands_app, dispatched_commands_dispatches.
    simpl. rewrite !app_nil_r. reflexivity.
Qed.

(** Idle-present turns on an empty ring. *)
Lemma RunGPULoop_loop_idle_turns n fuel p run_idle exchanges idle_frames st :
  m_command_fifo_read_ptr st = p ->
  exists st',
    RunGPULoop_loop fuel
      (repeat (idle_turn p THREAD_WAKE_COUNT_SLEEPING) n
         ++ [mkTurn [p] true run_idle exchanges]) idle_frames st
    = Returns (idle_frames + n)%nat st'
    /\ s_thread_is_done_semaphore st' = s_thread_is_done_semaphore st + Z.of_nat n
    /\ s_thread_wake_semaphore st' = s_thread_wake_semaphore st
    /\ (n <> 0%nat -> s_thread_wake_count st' = THREAD_WAKE_COUNT_SLEEPING)
    /\ m_command_fifo_read_ptr st' = p.
Proof.
  revert idle_frames st. induction n as [|n IH]; intros k st Hr.
  - simpl repeat. simpl app. rewrite RunGPULoop_loop_turn.
    cbn [turn_write_loads turn_shutdown].
    rewrite (RunGPULoop_iteration_empty _ p [] st Hr).
    eexists. split; [rewrite Nat.add_0_r; reflexivity|]. simpl.
    repeat split; [lia|congruence|exact Hr].
  - simpl repeat. simpl app. rewrite RunGPULoop_loop_turn. unfold idle_turn at 1 2 3 4.
    cbn [turn_write_loads turn_shutdown turn_run_idle turn_exchanges negb].
    rewrite (RunGPULoop_iteration_empty _ p [] st Hr).
    set (st1 := emit (LoadReadPtr memory_order_relaxed p)
                  (emit (LoadWritePtr memory_order_acquire p) st)).
    destruct (SleepGPUThread_idle_exchange THREAD_WAKE_COUNT_SLEEPING [] st1)
      as (st2 & E2 & Hw2 & Hd2 & Hs2).
    pose proof (SleepGPUThread_ring_frame false [(THREAD_WAKE_COUNT_SLEEPING, true)] st1)
      as F. cbv zeta in F. rewrite E2 in F. simpl outcome_state in F.
    destruct F as (_ & Fr & _).
    change (0 <? GetThreadWakeCount THREAD_WAKE_COUNT_SLEEPING) with false in E2, Hw2.
    change (releases_cpu (THREAD_WAKE_COUNT_SLEEPING, true)) with true in Hd2.
    rewrite E2.
    destruct (IH (S k) st2) as (st' & E & Hd & Hs & Hw & Hr').
    { rewrite Fr. exact Hr. }
    exists st'. rewrite E. split; [f_equal; lia|].
    split; [rewrite Hd, Hd2; simpl; lia|]. split; [rewrite Hs, Hs2; reflexivity|].
    split; [|exact Hr'].
    intros _. destruct n as [|n']; [|apply Hw; discriminate].
    simpl repeat in E. simpl app in E. rewrite RunGPULoop_loop_turn in E.
    cbn [turn_write_loads turn_shutdown] in E.
    rewrite (RunGPULoop_iteration_empty _ p [] st2) in E by (rewrite Fr; exact Hr).
    injection E as _ <-. simpl. exact Hw2.
Qed.

(** X22.  The idle-present mode on an empty ring.  The first turn finds
    nothing pending, leaves the sleeping sentinel in the wake word, and a
    frame is presented.  Every later turn finds the sentinel, whose bit 30
    is set, and posts the done semaphore before its frame is presented,
    although no thread has asked to be released: after [n] such turns the
    done semaphore has been posted [n] times.  The wake semaphore is never
    waited on.  The [DebugAssert] that opens [SleepGPUThread] is false in
    those turns; a release build compiles it out. *)
Theorem RunGPULoop_loop_idle_posts_done n fuel word run_idle exchanges idle_frames st :
  let p := m_command_fifo_write_ptr st in
  m_command_fifo_read_ptr st = p ->
  GetThreadWakeCount word <= 0 ->
  Z.land word THREAD_WAKE_COUNT_CPU_THREAD_IS_WAITING = 0 ->
  exists st',
    RunGPULoop_loop fuel
      (idle_turn p word
         :: repeat (idle_turn p THREAD_WAKE_COUNT_SLEEPING) n
         ++ [mkTurn [p] true run_idle exchanges]) idle_frames st
    = Returns (idle_frames + 1 + n)%nat st'
    /\ s_thread_is_done_semaphore st' = s_thread_is_done_semaphore st + Z.of_nat n
    /\ s_thread_wake_semaphore st' = s_thread_wake_semaphore st
    /\ s_thread_wake_count st' = THREAD_WAKE_COUNT_SLEEPING.
Proof.
  intros p Hr Hcount Hflag.
  rewrite RunGPULoop_loop_turn. unfold idle_turn at 1 2 3 4.
  cbn [turn_write_loads turn_shutdown turn_run_idle turn_exchanges negb].
  rewrite (RunGPULoop_iteration_empty _ p [] st Hr).
  set (st1 := emit (LoadReadPtr memory_order_relaxed p)
                (emit (LoadWritePtr memory_order_acquire p) st)).
  destruct (SleepGPUThread_idle_exchange word [] st1) as (st2 & E2 & Hw2 & Hd2 & Hs2).
  pose proof (SleepGPUThread_ring_frame false [(word, true)] st1) as F.
  cbv zeta in F. rewrite E2 in F. simpl outcome_state in F. destruct F as (_ & Fr & _).
  destruct (Z.ltb_spec 0 (GetThreadWakeCount word)) as [|_]; [lia|].
  assert (Hrel : releases_cpu (word, true) = false).
  { unfold releases_cpu. simpl. rewrite Hflag. simpl. apply andb_false_r. }
  rewrite Hrel in Hd2. rewrite E2.
  destruct (RunGPULoop_loop_idle_turns n fuel p run_idle exchanges (S idle_frames) st2)
    as (st' & E & Hd & Hs & Hw & _).
  { rewrite Fr. exact Hr. }
  exists st'. rewrite E. split; [f_equal; lia|].
  split; [rewrite Hd, Hd2; simpl; lia|]. split; [rewrite Hs, Hs2; reflexivity|].
  destruct n as [|n']; [|apply Hw; discriminate].
  simpl repeat in E. simpl app in E. rewrite RunGPULoop_loop_turn in E.
  cbn [turn_write_loads turn_shutdown] in E.
  rewrite (RunGPULoop_iteration_empty _ p [] st2) in E by (rewrite Fr; exact Hr).
  injection E as _ <-. simpl. exact Hw2.
Qed.

Lemma small_word_has_no_flag x :
  0 <= x < 2 ^ 30 ->
  Z.land x THREAD_WAKE_COUNT_CPU_THREAD_IS_WAITING = 0 /\ GetThreadWakeCount x = x.
Proof.
  intros Hx.
  assert (Hbit : Z.testbit x 30 = false).
  { destruct (Z.eq_dec x 0) as [->|Hne]; [reflexivity|].
    apply Z.bits_above_log2; [lia|]. apply Z.log2_lt_pow2; lia. }
  assert (Hflag : Z.land x THREAD_WAKE_COUNT_CPU_THREAD_IS_WAITING = 0).
  { rewrite waiting_flag_bit, Hbit. reflexivity. }
  split; [exact Hflag|]. rewrite GetThreadWakeCount_sub, Hflag. lia.
Qed.

(** X23.  A synchronous command, from the call to the release of the caller.
    The ring is empty and the consumer running with [w] wake-ups pending and
    no thread waiting.  The producer takes a slot, publishes it with
    [PushCommandAndSync(cmd, false)], which wakes the consumer, sets the
    CPU_WAITING bit and blocks on the done semaphore.  The consumer's next
    turn dispatches the command; the turn after finds the ring empty and
    acknowledges the wake-ups, keeping the bit; the third finds nothing
    pending, moves the wake word to the sleeping sentinel, posts the done
    semaphore and waits on the wake semaphore.  The post that releases the
    caller comes after the dispatch of its command, and balances its wait. *)
Theorem PushCommandAndSync_released_after_dispatch command size0 loads fuel idle_frames st :
  let size := (size0 + 3) / 4 * 4 in
  let p := m_command_fifo_write_ptr st in
  let w := s_thread_wake_count st in
  let woken := w + 2 in
  let waiting := Z.lor woken THREAD_WAKE_COUNT_CPU_THREAD_IS_WAITING in
  command <> Wraparound ->
  0 < size0 -> 0 <= sizeof_GPUBackendCommand ->
  0 <= p -> m_command_fifo_read_ptr st = p ->
  p + size + sizeof_GPUBackendCommand <= COMMAND_QUEUE_SIZE ->
  0 <= w -> w + 2 < 2 ^ 30 ->
  exists stA st1 st' payload,
    AllocateCommand [p] command size0 st = Returns p stA
    /\ PushCommandAndSync p false loads [(woken, true)] stA = Returns WaitedOnDone st1
    /\ s_thread_is_done_semaphore st1 = s_thread_is_done_semaphore st - 1
    /\ RunGPULoop_loop (S fuel)
         [mkTurn [p + size] false false [];
          mkTurn [p + size] false false [(waiting, true)];
          mkTurn [p + size] false false
            [(THREAD_WAKE_COUNT_CPU_THREAD_IS_WAITING, true)]]
         idle_frames st1
       = Spins st'
    /\ trace st'
       = trace st ++
         [LoadReadPtr memory_order_acquire p;
          LoadWritePtr memory_order_relaxed p;
          WriteHeader p command size;
          FetchAddWritePtr memory_order_release size;
          FetchAddWakeCount memory_order_release 2;
          LoadWakeCount memory_order_acquire woken;
          CompareExchangeWakeCount memory_order_acquire woken waiting true;
          Wait thread_is_done_semaphore;
          LoadWritePtr memory_order_acquire (p + size);
          LoadReadPtr memory_order_relaxed p;
          Dispatch (handler_of command) p (mkCommand command size payload);
          StoreReadPtr memory_order_release (p + size);
          LoadWritePtr memory_order_acquire (p + size);
          LoadReadPtr memory_order_relaxed (p + size);
          LoadWakeCount memory_order_relaxed waiting;
          CompareExchangeWakeCount memory_order_acq_rel waiting
            THREAD_WAKE_COUNT_CPU_THREAD_IS_WAITING true;
          LoadWritePtr memory_order_acquire (p + size);
          LoadReadPtr memory_order_relaxed (p + size);
          LoadWakeCount memory_order_relaxed THREAD_WAKE_COUNT_CPU_THREAD_IS_WAITING;
          CompareExchangeWakeCount memory_order_acq_rel
            THREAD_WAKE_COUNT_CPU_THREAD_IS_WAITING THREAD_WAKE_COUNT_SLEEPING true;
          Post thread_is_done_semaphore;
          Wait thread_wake_semaphore]
    /\ s_thread_is_done_semaphore st' = s_thread_is_done_semaphore st
    /\ s_thread_wake_count st' = THREAD_WAKE_COUNT_SLEEPING
    /\ m_command_fifo_read_ptr st' = p + size
    /\ m_command_fifo_write_ptr st' = p + size.
Proof.
  intros size p w woken waiting Hcommand Hsz HszC Hp Hread Hroom Hw Hsmall.
  pose proof (aligned_size_positive _ Hsz) as Hle. fold size in Hle.
  pose proof COMMAND_QUEUE_SIZE_eq as HC.
  destruct (small_word_has_no_flag woken ltac:(subst woken; lia)) as [Hflag Hcount].
  (* the producer *)
  unfold AllocateCommand.
  rewrite (aligned_size_u32 size0) by lia. fold size.
  rewrite AllocateCommand_loop_fits by (fold p; lia). fold p.
  set (stA := write_header p command size (observe_pointers p st)).
  set (payload := from_option cmd_payload [] (m_command_fifo_data st !! p)).
  assert (HA : m_command_fifo_data stA
               = <[p := mkCommand command size payload]> (m_command_fifo_data st)
               /\ m_command_fifo_write_ptr stA = p
               /\ m_command_fifo_read_ptr stA = p
               /\ s_thread_wake_count stA = w
               /\ s_thread_is_done_semaphore stA = s_thread_is_done_semaphore st
               /\ trace stA
                  = trace st ++
                    [LoadReadPtr memory_order_acquire p;
                     LoadWritePtr memory_order_relaxed p;
                     WriteHeader p command size]).
  { subst stA. unfold write_header. simpl. repeat split; [exact Hread|].
    rewrite <- !app_assoc. reflexivity. }
  destruct HA as (Af & Aw & Ar & Ak & Ad & At).
  clearbody stA.
  assert (Hsize : size_at p stA = size).
  { unfold size_at. rewrite Af, lookup_insert_eq. reflexivity. }
  exists stA.
  unfold PushCommandAndSync, SyncGPUThread. rewrite Hsize.
  set (stW := WakeGPUThread (fetch_add_write_ptr memory_order_release size stA)).
  assert (HW : m_command_fifo_data stW = m_command_fifo_data stA
               /\ m_command_fifo_write_ptr stW = p + size
               /\ m_command_fifo_read_ptr stW = p
               /\ s_thread_wake_count stW = woken
               /\ s_thread_is_done_semaphore stW = s_thread_is_done_semaphore st
               /\ trace stW
                  = trace stA ++ [FetchAddWritePtr memory_order_release size;
                                  FetchAddWakeCount memory_order_release 2]).
  { subst stW.
    destruct (WakeGPUThread_frame (fetch_add_write_ptr memory_order_release size stA))
      as (Ff & Fr & Fw & Fd & _).
    rewrite Ff, Fr, Fw, Fd, WakeGPUThread_count, WakeGPUThread_trace. simpl.
    rewrite Aw, Ar, Ak, Ad.
    destruct (Z.ltb_spec w 0) as [|_]; [lia|]. fold woken.
    rewrite u32_small by (change (2 ^ 32) with 4294967296; lia).
    rewrite s32_small by (change (2 ^ 30) with 1073741824 in Hsmall;
                          change (2 ^ 31) with 2147483648; lia).
    repeat split. rewrite <- !app_assoc. reflexivity. }
  destruct HW as (Wf & Ww & Wr & Wk & Wd & Wt).
  clearbody stW.
  simpl SyncGPUThread_block.
  destruct (Z.ltb_spec (GetThreadWakeCount woken) 0) as [|_]; [lia|].
  fold waiting.
  set (st1 := wait thread_is_done_semaphore
                (set_wake_count waiting
                   (emit (CompareExchangeWakeCount memory_order_acquire woken waiting true)
                      (emit (LoadWakeCount memory_order_acquire woken) stW)))).
  assert (H1 : m_command_fifo_data st1 = m_command_fifo_data stA
               /\ m_command_fifo_write_ptr st1 = p + size
               /\ m_command_fifo_read_ptr st1 = p
               /\ s_thread_is_done_semaphore st1 = s_thread_is_done_semaphore st - 1
               /\ trace st1
                  = trace stW ++
                    [LoadWakeCount memory_order_acquire woken;
                     CompareExchangeWakeCount memory_order_acquire woken waiting true;
                     Wait thread_is_done_semaphore]).
  { subst st1. simpl. rewrite Wd. repeat split; try assumption.
    rewrite <- !app_assoc. reflexivity. }
  destruct H1 as (S1f & S1w & S1r & S1d & S1t).
  clearbody st1.
  exists st1.
  (* the consumer: the command *)
  rewrite RunGPULoop_loop_turn. cbn [turn_write_loads].
  pose proof (RunGPULoop_iteration_batch [mkCommand command size payload] fuel
                (p + size) [] st1) as B.
  cbv zeta in B. rewrite S1r in B. cbn [length total_size cmd_size Nat.add] in B.
  rewrite B; clear B.
  2: { constructor; [split; [exact Hcommand|simpl; lia]|constructor]. }
  2: discriminate.
  2: { simpl. split; [|exact I]. rewrite S1f, Af. apply lookup_insert_eq. }
  2: exact Hp.
  2: lia.
  2: lia.
  set (st2 := store_read_ptr memory_order_release (p + size)
                (replay (dispatches p [mkCommand command size payload])
                   (emit (LoadReadPtr memory_order_relaxed p)
                      (emit (LoadWritePtr memory_order_acquire (p + size)) st1)))).
  assert (H2 : m_command_fifo_write_ptr st2 = p + size
               /\ m_command_fifo_read_ptr st2 = p + size
               /\ s_thread_is_done_semaphore st2 = s_thread_is_done_semaphore st - 1
               /\ trace st2
                  = trace st1 ++
                    [LoadWritePtr memory_order_acquire (p + size);
                     LoadReadPtr memory_order_relaxed p;
                     Dispatch (handler_of command) p (mkCommand command size payload);
                     StoreReadPtr memory_order_release (p + size)]).
  { subst st2. simpl. repeat split; try assumption.
    rewrite <- !app_assoc. reflexivity. }
  destruct H2 as (S2w & S2r & S2d & S2t).
  clearbody st2.
  (* the consumer: the acknowledgement *)
  rewrite RunGPULoop_loop_turn. cbn [turn_write_loads turn_shutdown turn_run_idle
                                      turn_exchanges negb].
  rewrite (RunGPULoop_iteration_empty _ (p + size) [] st2 S2r).
  pose proof (GetThreadWakeCount_lor_flag woken) as Hcw. fold waiting in Hcw.
  rewrite Hcount in Hcw.
  pose proof (flag_set_by_lor woken) as Hfw. fold waiting in Hfw.
  simpl SleepGPUThread. rewrite Hcw.
  destruct (Z.ltb_spec 0 woken) as [_|]; [|subst woken; lia].
  rewrite Hfw.
  (* the consumer: nothing left *)
  rewrite RunGPULoop_loop_turn. cbn [turn_write_loads turn_shutdown turn_run_idle
                                      turn_exchanges negb].
  rewrite RunGPULoop_iteration_empty by (simpl; exact S2r).
  simpl SleepGPUThread.
  eexists. exists payload.
  split; [reflexivity|]. split; [reflexivity|]. split; [exact S1d|].
  split; [reflexivity|].
  simpl. rewrite S2t, S1t, Wt, At, S2d, S2w, S2r.
  repeat split; try lia.
  rewrite <- !app_assoc. reflexivity.
Qed.

End GPUThread.

(** * Concrete runs *)

(** The instances below take [sizeof(GPUBackendCommandType) = 1] (the
    enumeration is byte-sized), [sizeof(GPUThreadCommand) = 8] and
    [sizeof(GPUBackendCommand) = 12]; the general statements above hold for
    every choice. *)

(** ** AllocateCommand *)

Example AllocateCommand_rounds_up :
  AllocateCommand 1 12 [0] ChangeBackend 5 initial_state
    = Returns 0 (write_header 0 ChangeBackend 8 (observe_pointers 0 initial_state)).
Proof. reflexivity. Qed.



(** ** The ring seen by both threads *)

Lemma wrap_onto_unread_ring_loses_command_witness :
  (0 < 8 <= 12 /\ 12 mod 4 = 0 /\ 12 <= 1024)
  /\ (exists st cmd,
        reachable 1 12 (st, Some cmd)
        /\ m_command_fifo_read_ptr st = m_command_fifo_write_ptr st
        /\ ~ queue_empty st)
  /\ (exists st kept,
        reachable 1 12 (st, None)
        /\ m_command_fifo_read_ptr st = m_command_fifo_write_ptr st
        /\ length (published_sizes (trace st)) = 2%nat
        /\ dispatched_commands (trace st) = [kept]
        /\ cmd_type kept = ChangeBackend).
Proof.
  assert (H1 : 0 < 8 <= 12) by lia.
  assert (H2 : 12 mod 4 = 0) by reflexivity.
  assert (H3 : 12 <= 1024) by lia.
  split; [auto|].
  destruct (wrap_onto_unread_ring_loses_command 1 12 8 H1 H2 H3)
    as (stB & stC & stE & lost & kept & _ & Hkept & _ & _ & _ & _ & _
        & RC & HrC & HwC & _ & _ & HneC & _ & RE & HrE & HpE & HdE & _).
  split.
  - exists stC, 0. split; [exact RC|]. split; [congruence|exact HneC].
  - exists stE, kept. rewrite HpE. auto.
Defined.

(** The run of the theorem with these sizes, step by step: a command of
    4194292 bytes is published at offset 0; the 8-byte [ChangeBackend]
    request wraps and is handed offset 0 as well. *)
Example second_slot_overwrites_first :
  exists stA stC,
    AllocateCommand 1 12 [0] (BackendCommand 0) 4194292 initial_state = Returns 0 stA
    /\ AllocateCommand 1 12 [0; 0] ChangeBackend 8 (PushCommand 0 stA) = Returns 0 stC
    /\ m_command_fifo_data (PushCommand 0 stA) !! 0
       = Some (mkCommand (BackendCommand 0) 4194292 [])
    /\ m_command_fifo_data stC !! 0 = Some (mkCommand ChangeBackend 8 [])
    /\ m_command_fifo_data stC !! 4194292 = Some (mkCommand Wraparound 12 [])
    /\ m_command_fifo_read_ptr stC = 0 /\ m_command_fifo_write_ptr stC = 0.
Proof.
  eexists. eexists. split; [vm_compute; reflexivity|].
  split; [vm_compute; reflexivity|]. repeat split.
Qed.

(** ** RunGPULoop *)

(** A batch that starts 32 bytes before the end of the buffer: a backend
    command, an async call, the [Wraparound] slot, and after the wrap one
    [UpdateVSync] command ending at the re-read write pointer 8. *)
Lemma RunGPULoop_drain_spec_witness :
  let draw := mkCommand (BackendCommand 7) 8 [1; 2; 3] in
  let call := mkCommand AsyncCall 12 [9] in
  let filler := mkCommand Wraparound 12 [] in
  let vsync := mkCommand UpdateVSync 8 [] in
  let fifo : gmap Z GPUThreadCommand :=
    <[4194272 := draw]> (<[4194280 := call]> (<[4194292 := filler]> (<[0 := vsync]> ∅))) in
  let st := set_read_ptr 4194272 (set_write_ptr 8 (set_fifo fifo initial_state)) in
  exists st',
    RunGPULoop_drain 4 [8] 4194272 COMMAND_QUEUE_SIZE st = Returns 8 st'
    /\ trace st'
       = [Dispatch BackendHandleCommand 4194272 draw;
          Dispatch AsyncCallFunc 4194280 call;
          LoadWritePtr memory_order_acquire 8;
          StoreReadPtr memory_order_release 0;
          Dispatch UpdateVSyncOnThread 0 vsync]
    /\ m_command_fifo_read_ptr st' = 0.
Proof.
  intros draw call filler vsync fifo st.
  destruct (proj2 RunGPULoop_drain_spec [mkLap [draw; call] filler 8] [vsync] 0%nat []
              4194272 COMMAND_QUEUE_SIZE st) as (st' & E & Htr & _ & _ & Hrd).
  - repeat constructor; simpl; solve [discriminate | lia].
  - repeat split; solve [reflexivity | by_evaluation].
  - lia.
  - lia.
  - exists st'. split; [exact E|]. split; [exact Htr|exact Hrd].
Defined.

(** ** WakeGPUThread *)

Example WakeGPUThread_running :
  s_thread_wake_count (WakeGPUThread (set_wake_count 0x40000004 initial_state)) = 0x40000006
  /\ s_thread_wake_semaphore (WakeGPUThread (set_wake_count 0x40000004 initial_state)) = 0.
Proof. split; reflexivity. Qed.

(** The claim fails on the CPU_WAITING bit.  The sleeping consumer is the
    value -1, all bits set: the wake that posts the semaphore turns it
    into 1, and bit 30 goes from set to clear.  At the other end, a count
    of [0x3FFFFFFE] carries into bit 30. *)
Lemma WakeGPUThread_alters_waiting_bit :
  let sleeping := set_wake_count THREAD_WAKE_COUNT_SLEEPING initial_state in
  let saturated := set_wake_count 0x3FFFFFFE initial_state in
  (Z.land (s_thread_wake_count sleeping) THREAD_WAKE_COUNT_CPU_THREAD_IS_WAITING
     = THREAD_WAKE_COUNT_CPU_THREAD_IS_WAITING
   /\ s_thread_wake_count (WakeGPUThread sleeping) = 1
   /\ s_thread_wake_semaphore (WakeGPUThread sleeping) = 1
   /\ Z.land (s_thread_wake_count (WakeGPUThread sleeping))
        THREAD_WAKE_COUNT_CPU_THREAD_IS_WAITING = 0)
  /\ (Z.land (s_thread_wake_count saturated) THREAD_WAKE_COUNT_CPU_THREAD_IS_WAITING = 0
      /\ Z.land (s_thread_wake_count (WakeGPUThread saturated))
           THREAD_WAKE_COUNT_CPU_THREAD_IS_WAITING
         = THREAD_WAKE_COUNT_CPU_THREAD_IS_WAITING).
Proof. repeat split. Qed.

(** ** SyncGPUThread *)

(** Three loads that show a running consumer: with [spin = true] the call
    is still spinning and has not touched the wake word; with
    [spin = false] the same first observation sets CPU_WAITING and waits. *)
Lemma SyncGPUThread_spin_never_blocks_witness :
  0 <= 50000
  /\ exists st',
       SyncGPUThread 50000 true [0; 2; 2] [(2, true)] initial_state = Spins st'
       /\ s_thread_wake_count st' = 0
       /\ s_thread_is_done_semaphore st' = 0.
Proof.
  assert (H : 0 <= 50000) by lia. split; [exact H|].
  destruct (SyncGPUThread_spin_never_blocks 50000 [0; 2; 2] [(2, true)] initial_state H)
    as (seen & st' & [E|[E _]] & Hw & Hd & _).
  - vm_compute in E. discriminate E.
  - exists st'. auto.
Defined.

Example SyncGPUThread_without_spin_blocks :
  exists st',
    SyncGPUThread 50000 false [] [(2, true)] initial_state = Returns WaitedOnDone st'
    /\ s_thread_wake_count st' = 0x40000002
    /\ s_thread_is_done_semaphore st' = -1.
Proof. eexists. split; [reflexivity|]. split; reflexivity. Qed.

Lemma SyncGPUThread_spin_is_unbounded_witness :
  0 <= 50000
  /\ SyncGPUThread_spin 50000 0 [0; 2; 2; 0x40000002] initial_state
     = SpinGoesOn (observe_wake_counts [0; 2; 2; 0x40000002] initial_state)
  /\ forall st', SyncGPUThread_spin 50000 0 [0; 2; 2; 0x40000002] initial_state <> SpinTimeUp st'.
Proof.
  assert (H : 0 <= 50000) by lia. split; [exact H|].
  destruct (SyncGPUThread_spin_is_unbounded 50000 [0; 2; 2; 0x40000002] initial_state H)
    as [Hnever Hgo].
  split; [|exact Hnever].
  apply Hgo. repeat constructor; by_evaluation.
Defined.

(** ** Backend creation and device loss *)

Lemma CreateGPUBackendOnThread_fallback_skips_initialize_witness :
  let host := mkHost true true false true true in
  let ds :=
    mkDeviceState ExampleVulkanAPI (Some ExampleVulkanAPI) None (Some ExampleVulkan)
      ExampleVulkan 0 [] in
  (s_gpu_backend ds = None /\ s_requested_renderer ds = Some ExampleVulkan
   /\ ExampleVulkan <> ExampleSoftware
   /\ hardware_backend_created host = true /\ backend_initialize_result host = false)
  /\ exists ds',
       CreateGPUBackendOnThread ExampleSoftware host true ds = Returns tt ds'
       /\ s_gpu_backend ds' = Some (mkBackend SoftwareBackend None)
       /\ lifecycle ds'
          = [CreateHardwareBackend; BackendInitialize true false;
             AddIconOSDMessage "GPUBackendCreationFailed"; CreateSoftwareBackend].
Proof.
  intros host ds.
  assert (Hne : ExampleVulkan <> ExampleSoftware) by discriminate.
  split; [repeat split; exact Hne|].
  destruct (CreateGPUBackendOnThread_fallback_skips_initialize ExampleSoftware host true ds
              ExampleVulkan eq_refl eq_refl Hne eq_refl eq_refl) as [Hok _].
  destruct (Hok eq_refl) as (ds' & E & Hb & _ & Hl).
  exists ds'. split; [exact E|]. split; [exact Hb|exact Hl].
Defined.

(** The same request when [Initialize] succeeds, for comparison. *)
Example CreateGPUBackendOnThread_hardware_ok :
  exists ds',
    CreateGPUBackendOnThread ExampleSoftware (mkHost true true true true true) true
      (mkDeviceState ExampleVulkanAPI (Some ExampleVulkanAPI) None (Some ExampleVulkan)
         ExampleVulkan 0 []) = Returns tt ds'
    /\ s_gpu_backend ds' = Some (mkBackend HardwareBackend (Some true)).
Proof. eexists. split; reflexivity. Qed.


(** ** SetVSync and PushCommand *)

Lemma SetVSync_same_request_is_noop_witness :
  (s_requested_vsync initial_state = 0
   /\ s_requested_allow_present_throttle initial_state = false)
  /\ SetVSync 1 12 8 [] 0 false initial_state = Returns tt initial_state.
Proof.
  split; [split; reflexivity|].
  destruct (SetVSync_same_request_is_noop 1 12 8 [] 0 false initial_state eq_refl eq_refl)
    as [Hstarted _].
  exact (Hstarted eq_refl).
Defined.

(** A different request goes through the ring and wakes the consumer. *)
Example SetVSync_new_request :
  exists st',
    SetVSync 1 12 8 [0] 1 true initial_state = Returns tt st'
    /\ m_command_fifo_data st' !! 0 = Some (mkCommand UpdateVSync 8 [])
    /\ m_command_fifo_write_ptr st' = 8
    /\ s_thread_wake_count st' = 2
    /\ s_requested_vsync st' = 1.
Proof. eexists. split; [reflexivity|]. repeat split. Qed.

(** Publishing a 300-byte command into an empty ring: the write pointer
    moves from 0 to 300 and, 300 pending bytes being at least 256, the
    consumer is woken.  An 8-byte command leaves it alone. *)
Lemma PushCommand_spec_witness :
  let st := write_header 0 (BackendCommand 1) 300 initial_state in
  (0 <= m_command_fifo_read_ptr st <= COMMAND_QUEUE_SIZE
   /\ 0 <= m_command_fifo_write_ptr st /\ 0 <= size_at 0 st
   /\ m_command_fifo_write_ptr st + size_at 0 st <= COMMAND_QUEUE_SIZE)
  /\ m_command_fifo_write_ptr (PushCommand 0 st) = 300
  /\ PushCommand 0 st = WakeGPUThread (fetch_add_write_ptr memory_order_release 300 st)
  /\ s_thread_wake_count (PushCommand 0 st) = 2.
Proof.
  intros st.
  assert (H1 : 0 <= m_command_fifo_read_ptr st <= COMMAND_QUEUE_SIZE) by by_evaluation.
  assert (H2 : 0 <= m_command_fifo_write_ptr st) by by_evaluation.
  assert (H3 : 0 <= size_at 0 st) by by_evaluation.
  assert (H4 : m_command_fifo_write_ptr st + size_at 0 st <= COMMAND_QUEUE_SIZE) by by_evaluation.
  split; [auto|].
  destruct (PushCommand_spec 0 st H1 H2 H3 H4) as (_ & Hw & _ & _ & Hwake & _).
  split; [exact Hw|]. split; [|reflexivity].
  apply Hwake. by_evaluation.
Defined.

Example PushCommand_below_threshold :
  let st := write_header 0 ChangeBackend 8 initial_state in
  PushCommand 0 st = fetch_add_write_ptr memory_order_release 8 st
  /\ s_thread_wake_count (PushCommand 0 st) = 0.
Proof. split; reflexivity. Qed.

(** ** The wake word between the two threads *)

(** One failed exchange, then the exchange of a word with the
    CPU_WAITING bit and nothing pending: the call returns [false] with the
    sentinel in the wake word and the done semaphore posted. *)
Lemma SleepGPUThread_idle_spec_witness :
  Forall (fun o : Z * bool => snd o = false) [(2, false)]
  /\ exists st',
       SleepGPUThread false [(2, false); (0x40000000, true)] initial_state
         = Returns false st'
       /\ s_thread_wake_count st' = THREAD_WAKE_COUNT_SLEEPING
       /\ s_thread_is_done_semaphore st' = 1
       /\ s_thread_wake_semaphore st' = 0.
Proof.
  assert (H : Forall (fun o : Z * bool => snd o = false) [(2, false)])
    by (repeat constructor).
  split; [exact H|].
  destruct (SleepGPUThread_idle_spec [(2, false)] 0x40000000 [] initial_state H)
    as (st' & E & Hw & Hd & Hs).
  exists st'. split; [exact E|]. split; [exact Hw|]. split; [exact Hd|exact Hs].
Defined.

(** From a running consumer with nothing pending: the first call leaves
    the sentinel, the second posts the done semaphore. *)
Lemma SleepGPUThread_idle_again_posts_done_witness :
  GetThreadWakeCount 0 <= 0
  /\ exists st1 st2,
       SleepGPUThread false [(0, true)] initial_state = Returns false st1
       /\ s_thread_is_done_semaphore st1 = 0
       /\ SleepGPUThread false [(THREAD_WAKE_COUNT_SLEEPING, true)] st1 = Returns false st2
       /\ s_thread_is_done_semaphore st2 = 1.
Proof.
  assert (H : GetThreadWakeCount 0 <= 0) by by_evaluation.
  split; [exact H|].
  destruct (SleepGPUThread_idle_again_posts_done 0 [] [] initial_state H)
    as (st1 & st2 & E1 & Hw1 & E2 & _ & Hd2 & _).
  exists st1, st2. rewrite Hw1 in E2.
  assert (Hd1 : s_thread_is_done_semaphore st1 = 0).
  { assert (E : SleepGPUThread false [(0, true)] initial_state
                = Returns false
                    (set_wake_count THREAD_WAKE_COUNT_SLEEPING
                       (emit (CompareExchangeWakeCount memory_order_acq_rel 0
                                THREAD_WAKE_COUNT_SLEEPING true)
                          (emit (LoadWakeCount memory_order_relaxed 0) initial_state))))
      by reflexivity.
    rewrite E in E1. injection E1 as <-. reflexivity. }
  split; [exact E1|]. split; [exact Hd1|]. split; [exact E2|].
  rewrite Hd2, Hd1. reflexivity.
Defined.

(** Waking a sleeping consumer: the word goes from -1 to 1, so the next
    exchange acknowledges one wake-up and returns [true]. *)
Lemma WakeGPUThread_then_SleepGPUThread_witness :
  let st := set_wake_count THREAD_WAKE_COUNT_SLEEPING initial_state in
  (s_thread_wake_count st = THREAD_WAKE_COUNT_SLEEPING
   \/ (0 <= s_thread_wake_count st /\ GetThreadWakeCount (s_thread_wake_count st) < 0x3FFFFFFE))
  /\ exists st',
       SleepGPUThread true [(1, true)] (WakeGPUThread st) = Returns true st'
       /\ s_thread_wake_count st' = 0
       /\ s_thread_wake_semaphore st' = 1
       /\ s_thread_is_done_semaphore st' = 0.
Proof.
  intros st.
  assert (H : s_thread_wake_count st = THREAD_WAKE_COUNT_SLEEPING
              \/ (0 <= s_thread_wake_count st
                  /\ GetThreadWakeCount (s_thread_wake_count st) < 0x3FFFFFFE))
    by (left; reflexivity).
  split; [exact H|].
  destruct (WakeGPUThread_then_SleepGPUThread true [] st H) as (st' & E & _ & Hw & Hd & Hs).
  exists st'. split; [exact E|]. split; [exact Hw|]. split; [exact Hs|exact Hd].
Defined.

(** Two wake-ups pending when the producer synchronises. *)
Lemma SyncGPUThread_released_by_SleepGPUThread_witness :
  let st := set_wake_count 2 initial_state in
  (0 <= 2 /\ Z.land 2 THREAD_WAKE_COUNT_CPU_THREAD_IS_WAITING = 0)
  /\ exists st1 st2 st3,
       SyncGPUThread 50000 false [] [(2, true)] st = Returns WaitedOnDone st1
       /\ s_thread_wake_count st1 = 0x40000002
       /\ s_thread_is_done_semaphore st1 = -1
       /\ SleepGPUThread true [(0x40000002, true)] st1 = Returns true st2
       /\ s_thread_wake_count st2 = 0x40000000
       /\ s_thread_is_done_semaphore st2 = -1
       /\ SleepGPUThread false [(0x40000000, true)] st2 = Returns false st3
       /\ s_thread_wake_count st3 = THREAD_WAKE_COUNT_SLEEPING
       /\ s_thread_is_done_semaphore st3 = 0.
Proof.
  intros st.
  assert (H1 : 0 <= 2) by lia.
  assert (H2 : Z.land 2 THREAD_WAKE_COUNT_CPU_THREAD_IS_WAITING = 0) by reflexivity.
  split; [split; assumption|].
  destruct (SyncGPUThread_released_by_SleepGPUThread 50000 [] true 2 [] [] [] st H1 H2)
    as (st1 & E1 & Hw1 & Hd1 & Hwork & _).
  destruct (Hwork ltac:(lia)) as (st2 & st3 & E2 & Hw2 & Hd2 & E3 & Hw3 & Hd3).
  rewrite Hw1 in E2. rewrite Hw2 in E3.
  exists st1, st2, st3.
  split; [exact E1|]. split; [exact Hw1|]. split; [exact Hd1|].
  split; [exact E2|]. split; [exact Hw2|]. split; [exact Hd2|].
  split; [exact E3|]. split; [exact Hw3|exact Hd3].
Defined.

(** ** From the facade to the handlers *)

(** Two callables queued into the empty ring, 40 bytes a slot. *)
Lemma RunOnThread_runs_in_order_witness :
  (0 < 40 /\ 0 <= 12 /\ [7; 9] <> []
   /\ 0 <= m_command_fifo_write_ptr initial_state
   /\ m_command_fifo_read_ptr initial_state = m_command_fifo_write_ptr initial_state
   /\ m_command_fifo_write_ptr initial_state + 2 * 40 + 12 <= COMMAND_QUEUE_SIZE)
  /\ exists st1 st2,
       RunOnThread_each 1 12 40 0 [7; 9] initial_state = Returns tt st1
       /\ m_command_fifo_write_ptr st1 = 80
       /\ GetPendingCommandSize st1 = 80
       /\ RunGPULoop_iteration 2 [80] st1 = Returns BatchDrained st2
       /\ trace st2
          = trace st1 ++
            [LoadWritePtr memory_order_acquire 80;
             LoadReadPtr memory_order_relaxed 0;
             Dispatch AsyncCallFunc 0 (mkCommand AsyncCall 40 [7]);
             Dispatch AsyncCallFunc 40 (mkCommand AsyncCall 40 [9]);
             StoreReadPtr memory_order_release 80]
       /\ GetPendingCommandSize st2 = 0.
Proof.
  assert (H1 : 0 < 40) by lia.
  assert (H2 : 0 <= 12) by lia.
  assert (H3 : [7; 9] <> @nil Z) by discriminate.
  assert (H4 : 0 <= m_command_fifo_write_ptr initial_state) by by_evaluation.
  assert (H5 : m_command_fifo_read_ptr initial_state
               = m_command_fifo_write_ptr initial_state) by reflexivity.
  assert (H6 : m_command_fifo_write_ptr initial_state + Z.of_nat (length [7; 9])
               * ((40 + 3) / 4 * 4) + 12 <= COMMAND_QUEUE_SIZE) by by_evaluation.
  split; [repeat split; try assumption; by_evaluation|].
  destruct (RunOnThread_runs_in_order 1 12 40 [7; 9] 0 initial_state H1 H2 H3 H4 H5 H6)
    as (st1 & st2 & E1 & Hw1 & Hp1 & E2 & Ht2 & _ & _ & Hp2).
  exists st1, st2. rewrite Hw1 in E2.
  split; [exact E1|]. split; [exact Hw1|]. split; [exact Hp1|].
  split; [exact E2|]. split; [exact Ht2|exact Hp2].
Defined.


(** ** Backend and device over the life of the thread *)

(** The Vulkan backend fails to initialise: the call returns with the
    un-initialised software backend installed and the request changed to
    the software renderer. *)
Lemma CreateGPUBackendOnThread_postcondition_witness :
  let host := mkHost true true false true true in
  let ds :=
    mkDeviceState ExampleVulkanAPI (Some ExampleVulkanAPI) None (Some ExampleVulkan)
      ExampleVulkan 0 [] in
  let ds' :=
    mkDeviceState ExampleVulkanAPI (Some ExampleVulkanAPI)
      (Some (mkBackend SoftwareBackend None)) (Some ExampleSoftware) ExampleVulkan 0
      [CreateHardwareBackend; BackendInitialize true false;
       AddIconOSDMessage "GPUBackendCreationFailed"; CreateSoftwareBackend] in
  CreateGPUBackendOnThread ExampleSoftware host true ds = Returns tt ds'
  /\ g_gpu_device ds' = g_gpu_device ds
  /\ exists backend,
       s_gpu_backend ds' = Some backend
       /\ (backend_kind backend = SoftwareBackend
           <-> s_requested_renderer ds' = Some ExampleSoftware)
       /\ (backend_kind backend = HardwareBackend -> backend_initialize backend = Some true).
Proof.
  intros host ds ds'.
  assert (H : CreateGPUBackendOnThread ExampleSoftware host true ds = Returns tt ds')
    by reflexivity.
  split; [exact H|].
  destruct (CreateGPUBackendOnThread_postcondition ExampleSoftware host true ds ds' H)
    as (Hd & _ & _ & _ & Hb).
  split; [exact Hd|].
  destruct (Hb ExampleVulkan eq_refl) as (backend & E & Hk & Hi & _).
  exists backend. split; [exact E|]. split; [exact Hk|exact Hi].
Defined.



(** From Vulkan to the software renderer: the Vulkan device stays. *)
Lemma ChangeGPUBackendOnThread_keeps_device_witness :
  let host := mkHost true true true true true in
  let ds :=
    mkDeviceState ExampleVulkanAPI (Some ExampleVulkanAPI)
      (Some (mkBackend HardwareBackend (Some true))) (Some ExampleSoftware)
      ExampleVulkan 0 [] in
  (s_requested_renderer ds = None
   \/ s_requested_renderer ds = Some ExampleSoftware
   \/ exists renderer,
        s_requested_renderer ds = Some renderer
        /\ example_same_api (s_render_api ds) (example_api renderer) = true)
  /\ exists ds',
       GPUThread_ChangeGPUBackendOnThread ExampleSoftware ExampleNoAPI example_api
         example_same_api host host host ds = Returns tt ds'
       /\ g_gpu_device ds' = Some ExampleVulkanAPI
       /\ s_gpu_backend ds' = Some (mkBackend SoftwareBackend (Some true))
       /\ lifecycle ds'
          = [DestroyBackend; CreateSoftwareBackend; BackendInitialize false true].
Proof.
  intros host ds.
  assert (H : s_requested_renderer ds = None
              \/ s_requested_renderer ds = Some ExampleSoftware
              \/ exists renderer,
                   s_requested_renderer ds = Some renderer
                   /\ example_same_api (s_render_api ds) (example_api renderer) = true)
    by (right; left; reflexivity).
  split; [exact H|].
  destruct (ChangeGPUBackendOnThread_keeps_device ExampleSoftware ExampleNoAPI example_api
              example_same_api host host host ds H) as (Hd & _).
  eexists. split; [reflexivity|]. split; [exact Hd|]. split; reflexivity.
Defined.


(** A thread started without a renderer, then asked for Vulkan. *)
Lemma ChangeGPUBackendOnThread_after_start_without_renderer_witness :
  let host := mkHost true true true true true in
  let ds := mkDeviceState ExampleNoAPI None None None ExampleVulkan 0 [] in
  (s_requested_renderer ds = None /\ s_gpu_backend ds = None
   /\ device_created host && imgui_initialized host = true)
  /\ exists ds1,
       RunGPULoop_startup ExampleSoftware ExampleNoAPI example_api host host ds
         = Returns true ds1
       /\ g_gpu_device ds1 = Some ExampleVulkanAPI
       /\ s_gpu_backend ds1 = None
       /\ GPUThread_ChangeGPUBackendOnThread ExampleSoftware ExampleNoAPI example_api
            example_same_api host host host (set_requested_renderer (Some ExampleVulkan) ds1)
          = Undefined (set_requested_renderer (Some ExampleVulkan) ds1).
Proof.
  intros host ds.
  assert (H1 : s_requested_renderer ds = None) by reflexivity.
  assert (H2 : s_gpu_backend ds = None) by reflexivity.
  assert (H3 : device_created host && imgui_initialized host = true) by reflexivity.
  split; [repeat split; assumption|].
  destruct (ChangeGPUBackendOnThread_after_start_without_renderer ExampleSoftware
              ExampleNoAPI example_api example_same_api host host ds H1 H2 H3)
    as (ds1 & E & Hd & Hb & _ & Hundef).
  exists ds1. split; [exact E|]. split; [exact Hd|]. split; [exact Hb|].
  apply Hundef.
Defined.

(** ** Presentation and the performance counters *)

(** A frame presented with success at present time 0. *)
Lemma PresentFrame_closes_the_frame_witness :
  let example_presenter : @Presenter ExampleRenderer ExampleAPI Q :=
    mkPresenter
      (mkDeviceState ExampleVulkanAPI (Some ExampleVulkanAPI)
         (Some (mkBackend HardwareBackend (Some true))) (Some ExampleVulkan)
         ExampleVulkan 0 [])
      (mkPerfState 0 0 0%Q 0%Q 0%Q true) [] in
  let example_frame (now : Z) (gpu_time : Q) : @PresentHost Q :=
    mkPresentHost false true true PresentResult_OK true gpu_time true now 0
      (mkHost true true true true true) in
  let example_PresentFrame :=
    PresentFrame ExampleSoftware ExampleNoAPI example_api nanoseconds_to_seconds
      0%Q Qplus Qdiv inject_Z (fun q : Q => q) example_gpu_usage in
  has_device example_presenter = true
  /\ exists p',
       example_PresentFrame (example_frame 1000 (1 # 2)) false 0 example_presenter
         = Returns tt p'
       /\ calls p'
          = [FlushRender; AcquireFence; FullscreenUI_Render; RenderTextOverlays;
             RenderOSDMessages; RenderSoftwareCursors; RenderOverlayWindows;
             RenderDebugWindows; PresentDisplay; RenderImGui; EndPresent false 0;
             GetAndResetAccumulatedGPUTime; ImGuiManager_NewFrame; RestoreDeviceContext]
       /\ length (List.filter closes_frame (before_new_frame (calls p'))) = 1%nat
       /\ In RenderImGui (calls p').
Proof.
  intros example_presenter example_frame example_PresentFrame.
  assert (H : has_device example_presenter = true) by reflexivity.
  split; [exact H|].
  pose proof (PresentFrame_closes_the_frame ExampleSoftware ExampleNoAPI example_api
                nanoseconds_to_seconds 0%Q Qplus Qdiv inject_Z (fun q : Q => q)
                example_gpu_usage (example_frame 1000 (1 # 2)) false 0 example_presenter H)
    as P.
  cbv zeta in P. fold example_PresentFrame in P.
  destruct (example_PresentFrame (example_frame 1000 (1 # 2)) false 0 example_presenter)
    as [[] p'|msg p'|p'|p'] eqn:E; try discriminate E.
  destruct P as (made & Hc & _ & Hf & Hi).
  exists p'. split; [reflexivity|].
  injection E as <-.
  split; [reflexivity|]. split; [reflexivity|].
  rewrite Hc. apply Hi. reflexivity.
Defined.

(** The device is reported lost and the recovery succeeds: the device and
    the backend are created again. *)
Lemma PresentFrame_recovers_only_when_lost_witness :
  let example_presenter : @Presenter ExampleRenderer ExampleAPI Q :=
    mkPresenter
      (mkDeviceState ExampleVulkanAPI (Some ExampleVulkanAPI)
         (Some (mkBackend HardwareBackend (Some true))) (Some ExampleVulkan)
         ExampleVulkan 0 [])
      (mkPerfState 0 0 0%Q 0%Q 0%Q true) [] in
  let example_frame (now : Z) (gpu_time : Q) : @PresentHost Q :=
    mkPresentHost false true true PresentResult_OK true gpu_time true now 0
      (mkHost true true true true true) in
  let example_PresentFrame :=
    PresentFrame ExampleSoftware ExampleNoAPI example_api nanoseconds_to_seconds
      0%Q Qplus Qdiv inject_Z (fun q : Q => q) example_gpu_usage in
  let lost :=
    mkPresentHost false true true PresentResult_DeviceLost false (0 : Q) false 1000 5
      (mkHost true true true true true) in
  has_device example_presenter = true
  /\ lifecycle
       (device_state (outcome_state (example_PresentFrame lost false 0 example_presenter)))
     = lifecycle
         (outcome_state
            (HandleGPUDeviceLost ExampleSoftware ExampleNoAPI example_api
               nanoseconds_to_seconds (recovery lost) (device_lost_time lost) (device_state example_presenter)))
  /\ device_state
       (outcome_state
          (example_PresentFrame (example_frame 1000 (1 # 2)) false 0 example_presenter))
     = device_state example_presenter.
Proof.
  intros example_presenter example_frame example_PresentFrame.
  intros lost.
  assert (H : has_device example_presenter = true) by reflexivity.
  split; [exact H|]. split.
  - destruct (PresentFrame_recovers_only_when_lost ExampleSoftware ExampleNoAPI example_api
                nanoseconds_to_seconds 0%Q Qplus Qdiv inject_Z (fun q : Q => q)
                example_gpu_usage lost false 0 example_presenter H) as [Hd _].
    subst example_PresentFrame. cbv beta. rewrite Hd. reflexivity.
  - destruct (PresentFrame_recovers_only_when_lost ExampleSoftware ExampleNoAPI example_api
                nanoseconds_to_seconds 0%Q Qplus Qdiv inject_Z (fun q : Q => q)
                example_gpu_usage (example_frame 1000 (1 # 2)) false 0 example_presenter H)
      as [Hd _].
    subst example_PresentFrame. cbv beta. rewrite Hd. reflexivity.
Defined.

(** Two frames of half a unit of GPU time each are counted, then the
    third, presented after the update was asked for, hands 3 to the
    statistics and averages over 3. *)
Lemma PresentFrame_counts_frames_witness :
  let example_presenter : @Presenter ExampleRenderer ExampleAPI Q :=
    mkPresenter
      (mkDeviceState ExampleVulkanAPI (Some ExampleVulkanAPI)
         (Some (mkBackend HardwareBackend (Some true))) (Some ExampleVulkan)
         ExampleVulkan 0 [])
      (mkPerfState 0 0 0%Q 0%Q 0%Q true) [] in
  let example_frame (now : Z) (gpu_time : Q) : @PresentHost Q :=
    mkPresentHost false true true PresentResult_OK true gpu_time true now 0
      (mkHost true true true true true) in
  let example_PresentFrame :=
    PresentFrame ExampleSoftware ExampleNoAPI example_api nanoseconds_to_seconds
      0%Q Qplus Qdiv inject_Z (fun q : Q => q) example_gpu_usage in
  let frames :=
    [(example_frame 1000 (1 # 2), false, 0); (example_frame 2000 (1 # 2), false, 0)] in
  let h := example_frame 3000 (1 # 2) in
  (has_device example_presenter = true
   /\ s_performance_counters_updated (perf example_presenter) = true
   /\ s_presents_since_last_update (perf example_presenter) = 0
   /\ Forall device_stays frames
   /\ device_stays (h, false, 0)
   /\ Z.of_nat (length frames) + 1 < 2 ^ 32)
  /\ exists p1 p2,
       PresentFrame_each ExampleSoftware ExampleNoAPI example_api nanoseconds_to_seconds
         0%Q Qplus Qdiv inject_Z (fun q : Q => q) example_gpu_usage frames example_presenter
         = Returns tt p1
       /\ s_presents_since_last_update (perf p1) = 2
       /\ example_PresentFrame h false 0
            (set_perf (SetPerformanceCounterUpdatePending (perf p1)) p1)
          = Returns tt p2
       /\ s_presents_since_last_update (perf p2) = 0
       /\ s_last_performance_counter_update_time (perf p2) = 3000
       /\ List.filter is_UpdateStatistics (calls p2) = [UpdateStatistics 3]
       /\ s_average_gpu_time (perf p2) = Qdiv (s_accumulated_gpu_time (perf p1)) (inject_Z 3).
Proof.
  intros example_presenter example_frame example_PresentFrame.
  intros frames h.
  assert (H1 : has_device example_presenter = true) by reflexivity.
  assert (H2 : s_performance_counters_updated (perf example_presenter) = true)
    by reflexivity.
  assert (H3 : s_presents_since_last_update (perf example_presenter) = 0) by reflexivity.
  assert (H4 : Forall device_stays frames)
    by (constructor; [right; discriminate|];
        constructor; [right; discriminate|constructor]).
  assert (H5 : device_stays (h, false, 0)) by (right; discriminate).
  assert (H6 : Z.of_nat (length frames) + 1 < 2 ^ 32) by (simpl; lia).
  split; [repeat split; assumption|].
  destruct (PresentFrame_counts_frames ExampleSoftware ExampleNoAPI example_api
              nanoseconds_to_seconds 0%Q Qplus Qdiv inject_Z (fun q : Q => q)
              example_gpu_usage frames h false 0 example_presenter H1 H2 H3 H4 H5 H6)
    as (p1 & p2 & E1 & Hn1 & _ & _ & E2 & Hn2 & _ & Ht2 & Hs2 & Ha2).
  exists p1, p2.
  split; [exact E1|]. split; [exact Hn1|]. split; [exact E2|]. split; [exact Hn2|].
  split; [exact Ht2|]. split; [exact Hs2|]. exact (Ha2 eq_refl).
Defined.

(** The display of the GPU statistics is switched on at time 500 after
    seven frames were counted; the frame presented at time 900 is counted
    alone. *)
Lemma UpdateSettingsOnThread_restarts_counters_witness :
  let example_presenter : @Presenter ExampleRenderer ExampleAPI Q :=
    mkPresenter
      (mkDeviceState ExampleVulkanAPI (Some ExampleVulkanAPI)
         (Some (mkBackend HardwareBackend (Some true))) (Some ExampleVulkan)
         ExampleVulkan 0 [])
      (mkPerfState 0 0 0%Q 0%Q 0%Q true) [] in
  let example_frame (now : Z) (gpu_time : Q) : @PresentHost Q :=
    mkPresentHost false true true PresentResult_OK true gpu_time true now 0
      (mkHost true true true true true) in
  let example_PresentFrame :=
    PresentFrame ExampleSoftware ExampleNoAPI example_api nanoseconds_to_seconds
      0%Q Qplus Qdiv inject_Z (fun q : Q => q) example_gpu_usage in
  let p :=
    set_perf (mkPerfState 0 7 (3 : Q) 0%Q 0%Q true) example_presenter in
  let h := example_frame 900 (1 # 2) in
  (has_device p = true /\ device_stays (h, false, 0))
  /\ (exists p1,
        UpdateSettingsOnThread 0%Q 500 true true true true p = Returns tt p1
        /\ perf p1 = perf p)
  /\ exists p1 p2,
       UpdateSettingsOnThread 0%Q 500 true true true false p = Returns tt p1
       /\ s_presents_since_last_update (perf p1) = 0
       /\ s_last_performance_counter_update_time (perf p1) = 500
       /\ example_PresentFrame h false 0 p1 = Returns tt p2
       /\ s_last_performance_counter_update_time (perf p2) = 900
       /\ List.filter is_UpdateStatistics (calls p2)
          = List.filter is_UpdateStatistics (calls p1) ++ [UpdateStatistics 1].
Proof.
  intros example_presenter example_frame example_PresentFrame.
  intros p h.
  assert (H1 : has_device p = true) by reflexivity.
  assert (H2 : device_stays (h, false, 0)) by (right; discriminate).
  split; [split; assumption|]. split.
  - destruct (UpdateSettingsOnThread_restarts_counters ExampleSoftware ExampleNoAPI
                example_api nanoseconds_to_seconds 0%Q Qplus Qdiv inject_Z
                (fun q : Q => q) example_gpu_usage 500 true true true true h false 0 p
                H1 H2) as [Hsame _].
    destruct (Hsame eq_refl eq_refl) as (p1 & E & Hp & _).
    exists p1. split; [exact E|exact Hp].
  - destruct (UpdateSettingsOnThread_restarts_counters ExampleSoftware ExampleNoAPI
                example_api nanoseconds_to_seconds 0%Q Qplus Qdiv inject_Z
                (fun q : Q => q) example_gpu_usage 500 true true true false h false 0 p
                H1 H2) as [_ Hchanged].
    assert (Hd : true <> true \/ true <> false) by (right; discriminate).
    destruct (Hchanged Hd)
      as (p1 & p2 & E1 & _ & _ & Hn1 & Ht1 & _ & E2 & _ & Ht2 & Hs2).
    exists p1, p2.
    split; [exact E1|]. split; [exact Hn1|]. split; [exact Ht1|]. split; [exact E2|].
    split; [exact Ht2|exact Hs2].
Defined.

(** ** The loop of the consumer *)

(** Shutdown is requested while two commands are pending: both are
    dispatched before the loop is left. *)
Lemma RunGPULoop_loop_drains_before_exit_witness :
  let cmds := [mkCommand AsyncCall 40 [7]; mkCommand UpdateVSync 8 []] in
  let st :=
    mkState (<[0 := mkCommand AsyncCall 40 [7]]> (<[40 := mkCommand UpdateVSync 8 []]> ∅))
      0 48 4 0 0 0 false true [] in
  (Forall is_command cmds /\ cmds <> []
   /\ placed (m_command_fifo_data st) (m_command_fifo_read_ptr st) cmds
   /\ 0 <= m_command_fifo_read_ptr st
   /\ m_command_fifo_read_ptr st + total_size cmds = m_command_fifo_write_ptr st
   /\ m_command_fifo_write_ptr st <= COMMAND_QUEUE_SIZE)
  /\ exists st',
       RunGPULoop_loop 2 [mkTurn [48] true false []; mkTurn [48] true false []] 0 st
         = Returns 0%nat st'
       /\ trace st'
          = [LoadWritePtr memory_order_acquire 48;
             LoadReadPtr memory_order_relaxed 0;
             Dispatch AsyncCallFunc 0 (mkCommand AsyncCall 40 [7]);
             Dispatch UpdateVSyncOnThread 40 (mkCommand UpdateVSync 8 []);
             StoreReadPtr memory_order_release 48;
             LoadWritePtr memory_order_acquire 48;
             LoadReadPtr memory_order_relaxed 48]
       /\ m_command_fifo_read_ptr st' = 48.
Proof.
  intros cmds st.
  assert (H1 : Forall is_command cmds).
  { constructor; [split; [discriminate|reflexivity]|].
    constructor; [split; [discriminate|reflexivity]|constructor]. }
  assert (H2 : cmds <> []) by discriminate.
  assert (H3 : placed (m_command_fifo_data st) (m_command_fifo_read_ptr st) cmds).
  { split; [reflexivity|]. split; [reflexivity|exact I]. }
  assert (H4 : 0 <= m_command_fifo_read_ptr st) by by_evaluation.
  assert (H5 : m_command_fifo_read_ptr st + total_size cmds = m_command_fifo_write_ptr st)
    by reflexivity.
  assert (H6 : m_command_fifo_write_ptr st <= COMMAND_QUEUE_SIZE) by by_evaluation.
  split; [repeat split; try assumption; try discriminate; reflexivity|].
  destruct (RunGPULoop_loop_drains_before_exit cmds 0 0 true false [] false [] st
              H1 H2 H3 H4 H5 H6) as (st' & E & Ht & _ & Hr & _).
  exists st'. split; [exact E|]. split; [exact Ht|exact Hr].
Defined.

(** Idle-present mode on the empty ring: one turn that finds the wake
    word at 0, three that find the sentinel, then shutdown.  Four frames
    are presented and the done semaphore is posted three times. *)
Lemma RunGPULoop_loop_idle_posts_done_witness :
  (m_command_fifo_read_ptr initial_state = m_command_fifo_write_ptr initial_state
   /\ GetThreadWakeCount 0 <= 0
   /\ Z.land 0 THREAD_WAKE_COUNT_CPU_THREAD_IS_WAITING = 0)
  /\ exists st',
       RunGPULoop_loop 0
         [idle_turn 0 0; idle_turn 0 THREAD_WAKE_COUNT_SLEEPING;
          idle_turn 0 THREAD_WAKE_COUNT_SLEEPING; idle_turn 0 THREAD_WAKE_COUNT_SLEEPING;
          mkTurn [0] true true []] 0 initial_state
         = Returns 4%nat st'
       /\ s_thread_is_done_semaphore st' = 3
       /\ s_thread_wake_semaphore st' = 0.
Proof.
  assert (H1 : m_command_fifo_read_ptr initial_state
               = m_command_fifo_write_ptr initial_state) by reflexivity.
  assert (H2 : GetThreadWakeCount 0 <= 0) by by_evaluation.
  assert (H3 : Z.land 0 THREAD_WAKE_COUNT_CPU_THREAD_IS_WAITING = 0) by reflexivity.
  split; [repeat split; assumption|].
  destruct (RunGPULoop_loop_idle_posts_done 3 0 0 true [] 0 initial_state H1 H2 H3)
    as (st' & E & Hd & Hs & _).
  exists st'. split; [exact E|]. split; [exact Hd|exact Hs].
Defined.

(** A synchronous backend command of 20 bytes into the empty ring. *)
Lemma PushCommandAndSync_released_after_dispatch_witness :
  (BackendCommand 5 <> Wraparound /\ 0 < 20 /\ 0 <= 12
   /\ 0 <= m_command_fifo_write_ptr initial_state
   /\ m_command_fifo_read_ptr initial_state = m_command_fifo_write_ptr initial_state
   /\ m_command_fifo_write_ptr initial_state + (20 + 3) / 4 * 4 + 12 <= COMMAND_QUEUE_SIZE
   /\ 0 <= s_thread_wake_count initial_state
   /\ s_thread_wake_count initial_state + 2 < 2 ^ 30)
  /\ exists stA st1 st',
       AllocateCommand 1 12 [0] (BackendCommand 5) 20 initial_state = Returns 0 stA
       /\ PushCommandAndSync 50000 0 false [] [(2, true)] stA = Returns WaitedOnDone st1
       /\ s_thread_is_done_semaphore st1 = -1
       /\ RunGPULoop_loop 1
            [mkTurn [20] false false [];
             mkTurn [20] false false [(0x40000002, true)];
             mkTurn [20] false false [(0x40000000, true)]] 0 st1
          = Spins st'
       /\ s_thread_is_done_semaphore st' = 0
       /\ s_thread_wake_count st' = THREAD_WAKE_COUNT_SLEEPING
       /\ GetPendingCommandSize st' = 0.
Proof.
  assert (H1 : BackendCommand 5 <> Wraparound) by discriminate.
  assert (H2 : 0 < 20) by lia.
  assert (H3 : 0 <= 12) by lia.
  assert (H4 : 0 <= m_command_fifo_write_ptr initial_state) by by_evaluation.
  assert (H5 : m_command_fifo_read_ptr initial_state
               = m_command_fifo_write_ptr initial_state) by reflexivity.
  assert (H6 : m_command_fifo_write_ptr initial_state + (20 + 3) / 4 * 4 + 12
               <= COMMAND_QUEUE_SIZE) by by_evaluation.
  assert (H7 : 0 <= s_thread_wake_count initial_state) by by_evaluation.
  assert (H8 : s_thread_wake_count initial_state + 2 < 2 ^ 30) by by_evaluation.
  split; [repeat split; assumption|].
  destruct (PushCommandAndSync_released_after_dispatch 1 12 50000 (BackendCommand 5) 20 []
              0 0 initial_state H1 H2 H3 H4 H5 H6 H7 H8)
    as (stA & st1 & st' & payload & EA & E1 & Hd1 & E & _ & Hd & Hw & Hr & Hwp).
  exists stA, st1, st'.
  split; [exact EA|]. split; [exact E1|]. split; [exact Hd1|]. split; [exact E|].
  split; [exact Hd|]. split; [exact Hw|].
  unfold GetPendingCommandSize. rewrite Hr, Hwp. by_evaluation.
Defined.
